(** * n8n backup and restore scripts: a shallow embedding

    The development follows the three scripts of the repository:

    - [download_n8n_workflows.py] and [n8n_backup_onefile.py] (export path):
      paginated listing, grouping of the workflows by project and tag,
      file-name sanitization;
    - [restore_n8n_workflows.py] (import path): the name-to-id existence map,
      the per-file reconciliation and the tally of the outcomes.

    Payloads are the dictionaries the scripts receive from [response.json()]
    and [json.load]: they are kept as JSON values, and every Python operation
    that may raise on a value of the wrong shape returns an [outcome].  A
    character of a [string] is a code point below 256; JSON numbers are the
    integers (a float is outside the model).  Console output is not
    modelled. *)

From Stdlib Require Import List String Ascii ZArith Bool Arith Lia DecimalString.
Import ListNotations.

Open Scope string_scope.
Open Scope list_scope.

(** ** JSON values and the Python operations used on them *)

#[warnings="-register-all"]
Inductive json : Type :=
| JNull
| JBool (b : bool)
| JNum (n : Z)
| JStr (s : string)
| JArr (items : list json)
| JObj (fields : list (string * json)).

(** The exceptions the scripts can meet.  [RequestException] is the only one
    the HTTP wrappers catch selectively. *)
Inductive exn : Type :=
| RequestException
| KeyError
| TypeError
| AttributeError
| IndexError
| ValueError
| OSError.

Inductive outcome (A : Type) : Type :=
| Ok (a : A)
| Raise (e : exn).

Arguments Ok {A} a.
Arguments Raise {A} e.

Definition bind {A B : Type} (m : outcome A) (k : A -> outcome B) : outcome B :=
  match m with
  | Ok a => k a
  | Raise e => Raise e
  end.

Declare Scope outcome_scope.
Delimit Scope outcome_scope with outcome.
Notation "x <- m ;; k" := (bind m (fun x => k))
  (at level 61, m at next level, right associativity) : outcome_scope.
Open Scope outcome_scope.

(** [bool(x)]: the truth value Python gives to a JSON value. *)
Definition truthy (j : json) : bool :=
  match j with
  | JNull => false
  | JBool b => b
  | JNum n => negb (Z.eqb n 0)
  | JStr EmptyString => false
  | JStr (String _ _) => true
  | JArr [] => false
  | JArr (_ :: _) => true
  | JObj [] => false
  | JObj (_ :: _) => true
  end.

(** A dictionary is the list of its items in insertion order; a lookup
    returns the first binding of the key. *)
Fixpoint lookup {V : Type} (k : string) (m : list (string * V)) : option V :=
  match m with
  | [] => None
  | (k', v) :: rest => if String.eqb k' k then Some v else lookup k rest
  end.

(** [d.get(k, default)]: only a dict has the method. *)
Definition py_get (d : json) (k : string) (default : json) : outcome json :=
  match d with
  | JObj m => match lookup k m with
              | Some v => Ok v
              | None => Ok default
              end
  | _ => Raise AttributeError
  end.

(** [d[k]] with a string key. *)
Definition py_getitem (d : json) (k : string) : outcome json :=
  match d with
  | JObj m => match lookup k m with
              | Some v => Ok v
              | None => Raise KeyError
              end
  | _ => Raise TypeError
  end.

(** [x == s] for a string literal [s]. *)
Definition is_str (j : json) (s : string) : bool :=
  match j with
  | JStr t => String.eqb t s
  | _ => false
  end.

(** The receiver of a string method ([replace], [split], [strip]). *)
Definition as_str (j : json) : outcome string :=
  match j with
  | JStr s => Ok s
  | _ => Raise AttributeError
  end.

Definition chars (s : string) : list json :=
  map (fun c => JStr (String c EmptyString)) (list_ascii_of_string s).

(** [for x in v]: the elements of a list, the keys of a dict, the characters
    of a string. *)
Definition py_iter (v : json) : outcome (list json) :=
  match v with
  | JArr l => Ok l
  | JObj m => Ok (map (fun kv => JStr (fst kv)) m)
  | JStr s => Ok (chars s)
  | _ => Raise TypeError
  end.

(** [len(v)]. *)
Definition py_len (v : json) : outcome nat :=
  match v with
  | JArr l => Ok (List.length l)
  | JObj m => Ok (List.length m)
  | JStr s => Ok (String.length s)
  | _ => Raise TypeError
  end.

(** [v[0]]. *)
Definition py_first (v : json) : outcome json :=
  match v with
  | JArr (x :: _) => Ok x
  | JArr [] => Raise IndexError
  | JStr (String c _) => Ok (JStr (String c EmptyString))
  | JStr EmptyString => Raise IndexError
  | JObj _ => Raise KeyError
  | _ => Raise TypeError
  end.

Definition is_sub (needle s : string) : bool :=
  match String.index 0 needle s with
  | Some _ => true
  | None => false
  end.

(** [s in v] for a string literal [s]. *)
Definition py_in (s : string) (v : json) : outcome bool :=
  match v with
  | JObj m => Ok (match lookup s m with Some _ => true | None => false end)
  | JArr l => Ok (existsb (fun x => is_str x s) l)
  | JStr t => Ok (is_sub s t)
  | _ => Raise TypeError
  end.

(** ** Strings: [replace], [split], [strip] *)

(** [s.replace(old, new)] for one-character [old] and [new]. *)
Fixpoint replace (old new : ascii) (s : string) : string :=
  match s with
  | EmptyString => EmptyString
  | String c rest =>
      String (if Ascii.eqb c old then new else c) (replace old new rest)
  end.

(** [str.isspace] on the code points below 256: tab to carriage return, the
    four separators 28 to 31, space, NEL and the no-break space. *)
Definition is_space (c : ascii) : bool :=
  let n := nat_of_ascii c in
  ((9 <=? n) && (n <=? 13) || (28 <=? n) && (n <=? 32)
   || (n =? 133) || (n =? 160))%nat.

Fixpoint lstrip (s : string) : string :=
  match s with
  | EmptyString => EmptyString
  | String c rest => if is_space c then lstrip rest else s
  end.

Fixpoint rstrip (s : string) : string :=
  match s with
  | EmptyString => EmptyString
  | String c rest =>
      match rstrip rest with
      | EmptyString => if is_space c then EmptyString else String c EmptyString
      | r => String c r
      end
  end.

Definition strip (s : string) : string := rstrip (lstrip s).

(** [s.split(sep)[0]] for a one-character [sep]: the part before the first
    occurrence. *)
Fixpoint split_first (sep : ascii) (s : string) : string :=
  match s with
  | EmptyString => EmptyString
  | String c rest =>
      if Ascii.eqb c sep then EmptyString else String c (split_first sep rest)
  end.

Fixpoint has_char (c : ascii) (s : string) : bool :=
  match s with
  | EmptyString => false
  | String d rest => Ascii.eqb d c || has_char c rest
  end.

(** ** File-name sanitization ([sanitize_filename], both export scripts) *)

Definition dquote : ascii := "034"%char.

(** The nine characters of [invalid_chars], in the order of the source: less
    than, greater than, colon, double quote, slash, backslash, bar, question
    mark, star. *)
Definition invalid_chars : list ascii :=
  ["<"; ">"; ":"; dquote; "/"; "\"; "|"; "?"; "*"]%char.

Definition sanitize_filename (name : string) : string :=
  strip (fold_left (fun name char => replace char "_"%char name)
                   invalid_chars name).

(** ** Dictionaries built by the scripts *)

Fixpoint dict_set {V : Type} (k : string) (v : V) (m : list (string * V))
  : list (string * V) :=
  match m with
  | [] => [(k, v)]
  | (k', v') :: rest =>
      if String.eqb k' k then (k', v) :: rest else (k', v') :: dict_set k v rest
  end.

(** ** Grouping by project and tag ([organize_by_tags] of the downloader,
    [organize_by_folders] of the one-file script) *)

(** [organized]: folder path to the workflows placed under it. *)
Definition buckets : Type := list (string * list json).

(** The two statements that end both branches of the loop body:
    [if folder_path not in organized: organized[folder_path] = []] and
    [organized[folder_path].append(workflow)]. *)
Definition place (folder_path : string) (workflow : json) (organized : buckets)
  : buckets :=
  let organized :=
    match lookup folder_path organized with
    | Some _ => organized
    | None => dict_set folder_path [] organized
    end in
  match lookup folder_path organized with
  | Some l => dict_set folder_path (l ++ [workflow]) organized
  | None => organized
  end.

Section Organizer.

(** The detail request of [get_workflow_details]: the parsed payload, or
    [None] when the request raises.  The export path only reads, so during
    one run the remote is a function of the workflow id. *)
Variable get_workflow_details : json -> option json.

Definition get_workflow_project (workflow_id workflow_summary : json)
  : outcome json :=
  let unknown := JStr "Unknown Project" in
  match get_workflow_details workflow_id with
  | None => Ok unknown
  | Some workflow_data =>
      if truthy workflow_data then
        shared <- py_get workflow_data "shared" (JArr []) ;;
        if truthy shared then
          n <- py_len shared ;;
          if (0 <? n)%nat then
            entry <- py_first shared ;;
            project <- py_get entry "project" (JObj []) ;;
            project_name <- py_get project "name" unknown ;;
            project_type <- py_get project "type" (JStr EmptyString) ;;
            if is_str project_type "personal" then
              has_lt <- py_in "<" project_name ;;
              if has_lt then
                s <- as_str project_name ;;
                Ok (JStr (strip (split_first "<" s)))
              else Ok project_name
            else Ok project_name
          else Ok unknown
        else Ok unknown
      else Ok unknown
  end.

(** [[w for w in workflow_list if not w.get('isArchived', False)]] *)
Fixpoint active_filter (workflow_list : list json) : outcome (list json) :=
  match workflow_list with
  | [] => Ok []
  | w :: rest =>
      archived <- py_get w "isArchived" (JBool false) ;;
      active <- active_filter rest ;;
      Ok (if truthy archived then active else w :: active)
  end.

(** [for tag in tags: ...] *)
Fixpoint place_tags (project_name_safe : string) (workflow : json)
  (tags : list json) (organized : buckets) : outcome buckets :=
  match tags with
  | [] => Ok organized
  | tag :: rest =>
      tag_name <- py_get tag "name" (JStr "Untagged") ;;
      s <- as_str tag_name ;;
      let tag_name_safe := sanitize_filename s in
      let folder_path := (project_name_safe ++ "/" ++ tag_name_safe)%string in
      place_tags project_name_safe workflow rest
                 (place folder_path workflow organized)
  end.

(** One turn of [for workflow in active_workflows]. *)
Definition organize_workflow (workflow : json) (organized : buckets)
  : outcome buckets :=
  workflow_id <- py_getitem workflow "id" ;;
  project_name <- get_workflow_project workflow_id workflow ;;
  s <- as_str project_name ;;
  let project_name_safe := sanitize_filename s in
  tags <- py_get workflow "tags" (JArr []) ;;
  if truthy tags then
    ts <- py_iter tags ;;
    place_tags project_name_safe workflow ts organized
  else
    Ok (place (project_name_safe ++ "/No Tag")%string workflow organized).

Fixpoint organize_loop (active_workflows : list json) (organized : buckets)
  : outcome buckets :=
  match active_workflows with
  | [] => Ok organized
  | workflow :: rest =>
      organized <- organize_workflow workflow organized ;;
      organize_loop rest organized
  end.

Definition organize_by_tags (workflow_list : list json) : outcome buckets :=
  active_workflows <- active_filter workflow_list ;;
  organize_loop active_workflows [].

(** The one-file script has the same body, statement for statement. *)
Definition organize_by_folders (workflows : list json) : outcome buckets :=
  organize_by_tags workflows.

(** The calls [download_workflow(workflow, folder_path, backup_dir)] that
    [download_all] and [run] make, in order: one per entry of each bucket. *)
Definition download_calls (organized : buckets) : list (string * json) :=
  flat_map (fun entry => map (fun workflow => (fst entry, workflow)) (snd entry))
           organized.

End Organizer.

(** ** The HTTP session *)

(** The three requests the scripts send through [self.session] besides the
    detail lookup: the listing (with the cursor when there is one), the
    creation and the update by id. *)
Inductive request : Type :=
| GET_workflows (cursor : option json)
| POST_workflow (body : json)
| PUT_workflow (workflow_id : json) (body : json).

(** What a run talks to: the remote instance and the clock.  A response is
    the parsed body of a successful request, or [None] when the request
    raises [RequestException] (no connection, an error status through
    [raise_for_status], a body that is not JSON).  For an update only success
    matters: the script does not read the body. *)
Record server : Type := {
  World : Type;
  respond : request -> World -> option json * World;
  strftime_now : World -> string
}.

(** The state of a run: the world, and the requests sent so far. *)
Record session (srv : server) : Type := {
  remote : World srv;
  sent : list request
}.

Arguments remote {srv} _.
Arguments sent {srv} _.

Definition send {srv : server} (r : request) (s : session srv)
  : option json * session srv :=
  let (response, w) := respond srv r (remote s) in
  (response, {| remote := w; sent := sent s ++ [r] |}).

(** ** Paginated listing of the export scripts *)

(** Both loops are [while True]: the model counts the page requests down
    from [fuel] and answers [None] when the count is used up. *)

Module Downloader.
Section Listing.
Variable srv : server.

(** [N8NWorkflowDownloader.get_all_workflows]: a failed request leaves the
    loop through [break]. *)
Fixpoint get_all_workflows_loop (fuel : nat) (cursor : option json)
  (all_workflows : list json) (s : session srv)
  : option (outcome (list json) * session srv) :=
  match fuel with
  | O => None
  | S fuel =>
      match send (GET_workflows cursor) s with
      | (None, s) => Some (Ok all_workflows, s)
      | (Some data, s) =>
          match
            (workflows <- py_get data "data" (JArr []) ;;
             items <- py_iter workflows ;;
             next <- py_get data "nextCursor" JNull ;;
             Ok (all_workflows ++ items, next))
          with
          | Raise e => Some (Raise e, s)
          | Ok (all_workflows, next) =>
              if truthy next
              then get_all_workflows_loop fuel (Some next) all_workflows s
              else Some (Ok all_workflows, s)
          end
      end
  end.

Definition get_all_workflows (fuel : nat) (s : session srv)
  : option (outcome (list json) * session srv) :=
  get_all_workflows_loop fuel None [] s.

End Listing.
End Downloader.

Module Backup.
Section Listing.
Variable srv : server.

(** [N8NBackup.get_all_workflows]: a failed request returns the empty
    list. *)
Fixpoint get_all_workflows_loop (fuel : nat) (cursor : option json)
  (all_workflows : list json) (s : session srv)
  : option (outcome (list json) * session srv) :=
  match fuel with
  | O => None
  | S fuel =>
      match send (GET_workflows cursor) s with
      | (None, s) => Some (Ok [], s)
      | (Some data, s) =>
          match
            (workflows <- py_get data "data" (JArr []) ;;
             items <- py_iter workflows ;;
             next <- py_get data "nextCursor" JNull ;;
             Ok (all_workflows ++ items, next))
          with
          | Raise e => Some (Raise e, s)
          | Ok (all_workflows, next) =>
              if truthy next
              then get_all_workflows_loop fuel (Some next) all_workflows s
              else Some (Ok all_workflows, s)
          end
      end
  end.

Definition get_all_workflows (fuel : nat) (s : session srv)
  : option (outcome (list json) * session srv) :=
  get_all_workflows_loop fuel None [] s.

End Listing.
End Backup.

(** ** The restore script *)

Module Restore.

(** *** The existence map *)

(** The JSON values that can be keys of a Python dict. *)
Inductive key : Type :=
| KNull
| KBool (b : bool)
| KNum (n : Z)
| KStr (s : string).

(** Hashing a list or a dict raises [TypeError]. *)
Definition as_key (j : json) : outcome key :=
  match j with
  | JNull => Ok KNull
  | JBool b => Ok (KBool b)
  | JNum n => Ok (KNum n)
  | JStr s => Ok (KStr s)
  | JArr _ | JObj _ => Raise TypeError
  end.

Definition key_num (k : key) : option Z :=
  match k with
  | KBool b => Some (if b then 1%Z else 0%Z)
  | KNum n => Some n
  | _ => None
  end.

(** Equality of keys as Python has it: [True == 1]. *)
Definition key_eqb (a b : key) : bool :=
  match a, b with
  | KStr s, KStr t => String.eqb s t
  | KNull, KNull => true
  | _, _ =>
      match key_num a, key_num b with
      | Some x, Some y => Z.eqb x y
      | _, _ => false
      end
  end.

(** [str(k)], as an f-string formats it. *)
Definition key_str (k : key) : string :=
  match k with
  | KNull => "None"
  | KBool true => "True"
  | KBool false => "False"
  | KNum n => NilZero.string_of_int (Z.to_int n)
  | KStr s => s
  end.

(** [existing]: workflow name to workflow id. *)
Definition existence : Type := list (key * json).

(** [existing.get(k)], with [None] of Python as [JNull]. *)
Fixpoint existing_get (k : key) (existing : existence) : json :=
  match existing with
  | [] => JNull
  | (k', v) :: rest => if key_eqb k' k then v else existing_get k rest
  end.

(** [existing[k] = v] *)
Fixpoint existing_set (k : key) (v : json) (existing : existence) : existence :=
  match existing with
  | [] => [(k, v)]
  | (k', v') :: rest =>
      if key_eqb k' k then (k', v) :: rest
      else (k', v') :: existing_set k v rest
  end.

(** [for workflow in data.get('data', []): ...] *)
Fixpoint record_workflows (workflows : list json) (existing : existence)
  : outcome existence :=
  match workflows with
  | [] => Ok existing
  | workflow :: rest =>
      name <- py_get workflow "name" (JStr EmptyString) ;;
      wf_id <- py_get workflow "id" (JStr EmptyString) ;;
      if truthy name && truthy wf_id then
        k <- as_key name ;;
        record_workflows rest (existing_set k wf_id existing)
      else record_workflows rest existing
  end.

(** *** Snapshot files *)

(** A file of the backup tree: its path below the backup directory, and what
    [open] followed by [json.load] gives for it. *)
Record backup_file : Type := {
  path : list string;
  load : outcome json
}.

(** [file_path.name] *)
Definition name (f : backup_file) : string := last (path f) EmptyString.

Fixpoint ends_with (suffix s : string) : bool :=
  String.eqb s suffix ||
  match s with
  | EmptyString => false
  | String _ rest => ends_with suffix rest
  end.

(** The order of [Path]: part by part, each part as a string. *)
Fixpoint path_leb (p q : list string) : bool :=
  match p, q with
  | [], _ => true
  | _ :: _, [] => false
  | a :: p', b :: q' =>
      match String.compare a b with
      | Lt => true
      | Gt => false
      | Eq => path_leb p' q'
      end
  end.

Fixpoint insert_sorted (f : backup_file) (l : list backup_file)
  : list backup_file :=
  match l with
  | [] => [f]
  | g :: rest =>
      if path_leb (path f) (path g) then f :: l else g :: insert_sorted f rest
  end.

(** [sorted(workflow_files)] *)
Definition sorted (l : list backup_file) : list backup_file :=
  fold_right insert_sorted [] l.

(** [find_backup_files]; [backup_dir] is everything below the directory, in
    the order [rglob] walks it. *)
Definition find_backup_files (backup_dir : list backup_file)
  : list backup_file :=
  sorted
    (filter
       (fun file_path =>
          ends_with ".json" (name file_path)
          && negb (String.eqb (name file_path) "index.json"
                   || String.eqb (name file_path) "README.json")
          && negb (String.prefix "." (name file_path)))
       backup_dir).

(** *** Results and statistics *)

Record restore_result : Type := {
  file : string;
  status : string;
  action : option string;
  workflow_id : json
}.

Record restore_stats : Type := {
  total : nat;
  created : nat;
  updated : nat;
  skipped : nat;
  failed : nat;
  results : list restore_result
}.

Definition action_is (a : option string) (s : string) : bool :=
  match a with
  | Some t => String.eqb t s
  | None => false
  end.

(** The body of the loop of [restore_from_backup] after the call of
    [restore_workflow]: the result is appended, then the counters updated. *)
Definition count_result (stats : restore_stats) (result : restore_result)
  : restore_stats :=
  let stats := {| total := total stats; created := created stats;
                  updated := updated stats; skipped := skipped stats;
                  failed := failed stats;
                  results := results stats ++ [result] |} in
  if String.eqb (status result) "success" then
    if action_is (action result) "created"
       || action_is (action result) "created_renamed" then
      {| total := total stats; created := created stats + 1;
         updated := updated stats; skipped := skipped stats;
         failed := failed stats; results := results stats |}
    else if action_is (action result) "updated" then
      {| total := total stats; created := created stats;
         updated := updated stats + 1; skipped := skipped stats;
         failed := failed stats; results := results stats |}
    else stats
  else if String.eqb (status result) "skipped" then
    {| total := total stats; created := created stats;
       updated := updated stats; skipped := skipped stats + 1;
       failed := failed stats; results := results stats |}
  else if String.eqb (status result) "failed"
          || String.eqb (status result) "error" then
    {| total := total stats; created := created stats;
       updated := updated stats; skipped := skipped stats;
       failed := failed stats + 1; results := results stats |}
  else stats.

(** [clean_workflow_for_api] *)
Definition allowed_fields : list string := ["name"; "nodes"; "connections"].

Definition clean_workflow_for_api (workflow_data : json) : outcome json :=
  match workflow_data with
  | JObj items =>
      let cleaned_data :=
        filter (fun kv => existsb (String.eqb (fst kv)) allowed_fields) items in
      Ok (JObj (dict_set "settings" (JObj []) cleaned_data))
  | _ => Raise AttributeError
  end.

(** [d[k] = v] *)
Definition py_setitem (d : json) (k : string) (v : json) : outcome json :=
  match d with
  | JObj items => Ok (JObj (dict_set k v items))
  | _ => Raise TypeError
  end.

Section Reconciler.
Variable srv : server.

(** [get_existing_workflows]: a failed request returns the empty map. *)
Fixpoint get_existing_workflows_loop (fuel : nat) (cursor : option json)
  (existing : existence) (s : session srv)
  : option (outcome existence * session srv) :=
  match fuel with
  | O => None
  | S fuel =>
      match send (GET_workflows cursor) s with
      | (None, s) => Some (Ok [], s)
      | (Some data, s) =>
          match
            (workflows <- py_get data "data" (JArr []) ;;
             items <- py_iter workflows ;;
             existing <- record_workflows items existing ;;
             cursor <- py_get data "nextCursor" JNull ;;
             Ok (existing, cursor))
          with
          | Raise e => Some (Raise e, s)
          | Ok (existing, cursor) =>
              if truthy cursor
              then get_existing_workflows_loop fuel (Some cursor) existing s
              else Some (Ok existing, s)
          end
      end
  end.

Definition get_existing_workflows (fuel : nat) (s : session srv)
  : option (outcome existence * session srv) :=
  get_existing_workflows_loop fuel None [] s.

(** [create_workflow]: the new id, [JNull] for [None].  The cleaning stands
    before the [try]; reading the id off a response that is not a dict raises
    inside it and is not caught there. *)
Definition create_workflow (workflow_data : json) (s : session srv)
  : outcome json * session srv :=
  match clean_workflow_for_api workflow_data with
  | Raise e => (Raise e, s)
  | Ok cleaned_data =>
      match send (POST_workflow cleaned_data) s with
      | (None, s) => (Ok JNull, s)
      | (Some result, s) => (py_get result "id" JNull, s)
      end
  end.

(** [update_workflow] *)
Definition update_workflow (workflow_id workflow_data : json) (s : session srv)
  : bool * session srv :=
  match send (PUT_workflow workflow_id workflow_data) s with
  | (None, s) => (false, s)
  | (Some _, s) => (true, s)
  end.

Definition mk_result (file_path : backup_file) (status : string)
  (action : option string) (workflow_id : json) : restore_result :=
  {| file := name file_path; status := status; action := action;
     workflow_id := workflow_id |}.

(** The end of both creating branches of [restore_workflow]. *)
Definition created_result (file_path : backup_file) (action : string)
  (new_id : json) : restore_result :=
  if truthy new_id
  then mk_result file_path "success" (Some action) new_id
  else mk_result file_path "failed" (Some "create_failed") JNull.

(** The first part of the [try] of [restore_workflow]: the file is read, the
    envelope with its [workflow] field unwrapped when there is one, and the
    name looked at; the name comes back as the key [existing_workflows.get]
    hashes. *)
Definition load_workflow (file_path : backup_file) : outcome (json * key) :=
  backup_data <- load file_path ;;
  wrapped <- py_in "workflow" backup_data ;;
  workflow_data <- (if wrapped then py_getitem backup_data "workflow"
                    else Ok backup_data) ;;
  workflow_name <- py_get workflow_data "name" (JStr "Unnamed") ;;
  k <- as_key workflow_name ;;
  Ok (workflow_data, k).

(** The second part: the decision on the existing id and the mode. *)
Definition reconcile (file_path : backup_file) (existing_workflows : existence)
  (mode : string) (workflow_data : json) (workflow_name : key)
  (s : session srv) : outcome restore_result * session srv :=
  let existing_id := existing_get workflow_name existing_workflows in
  if truthy existing_id then
    if String.eqb mode "skip" then
      (Ok (mk_result file_path "skipped" (Some "exists") existing_id), s)
    else if String.eqb mode "update" then
      match update_workflow existing_id workflow_data s with
      | (true, s) =>
          (Ok (mk_result file_path "success" (Some "updated") existing_id), s)
      | (false, s) =>
          (Ok (mk_result file_path "failed" (Some "update_failed") JNull), s)
      end
    else if String.eqb mode "rename" then
      let new_name :=
        (key_str workflow_name ++ " (restored "
         ++ strftime_now srv (remote s) ++ ")")%string in
      match py_setitem workflow_data "name" (JStr new_name) with
      | Raise e => (Raise e, s)
      | Ok workflow_data =>
          match create_workflow workflow_data s with
          | (Raise e, s) => (Raise e, s)
          | (Ok new_id, s) =>
              (Ok (created_result file_path "created_renamed" new_id), s)
          end
      end
    else (Ok (mk_result file_path "unknown" None JNull), s)
  else
    match create_workflow workflow_data s with
    | (Raise e, s) => (Raise e, s)
    | (Ok new_id, s) => (Ok (created_result file_path "created" new_id), s)
    end.

(** The body of the [try] of [restore_workflow]. *)
Definition restore_workflow_try (file_path : backup_file)
  (existing_workflows : existence) (mode : string) (s : session srv)
  : outcome restore_result * session srv :=
  match load_workflow file_path with
  | Raise e => (Raise e, s)
  | Ok (workflow_data, workflow_name) =>
      reconcile file_path existing_workflows mode workflow_data workflow_name s
  end.

(** [restore_workflow]: [except Exception] turns whatever the body raised
    into a result. *)
Definition restore_workflow (file_path : backup_file)
  (existing_workflows : existence) (mode : string) (s : session srv)
  : restore_result * session srv :=
  match restore_workflow_try file_path existing_workflows mode s with
  | (Ok result, s) => (result, s)
  | (Raise _, s) => (mk_result file_path "error" (Some "exception") JNull, s)
  end.

(** [for file_path in workflow_files: ...] *)
Fixpoint restore_loop (workflow_files : list backup_file)
  (existing_workflows : existence) (mode : string) (stats : restore_stats)
  (s : session srv) : restore_stats * session srv :=
  match workflow_files with
  | [] => (stats, s)
  | file_path :: rest =>
      let (result, s) := restore_workflow file_path existing_workflows mode s in
      restore_loop rest existing_workflows mode (count_result stats result) s
  end.

Definition restore_from_backup (fuel : nat) (backup_dir : list backup_file)
  (mode : string) (dry_run : bool) (s : session srv)
  : option (outcome restore_stats * session srv) :=
  let workflow_files := find_backup_files backup_dir in
  let stats := {| total := List.length workflow_files; created := 0;
                  updated := 0; skipped := 0; failed := 0; results := [] |} in
  if (total stats =? 0)%nat then Some (Ok stats, s)
  else if dry_run then Some (Ok stats, s)
  else
    match get_existing_workflows fuel s with
    | None => None
    | Some (Raise e, s) => Some (Raise e, s)
    | Some (Ok existing_workflows, s) =>
        let (stats, s) :=
          restore_loop workflow_files existing_workflows mode stats s in
        Some (Ok stats, s)
    end.

End Reconciler.
End Restore.

(** ** The configuration loader ([n8n_config.py]) *)

Module Config.

(** [line.split('=', 1)[1]]: what follows the first separator. *)
Fixpoint split_rest (sep : ascii) (s : string) : string :=
  match s with
  | EmptyString => EmptyString
  | String c rest => if Ascii.eqb c sep then rest else split_rest sep rest
  end.

(** [self.config] and [os.environ]: names to values. *)
Definition bindings : Type := list (string * string).

(** One turn of [for line in f] in [_load_config]. *)
Definition load_line (config : bindings) (line : string) : bindings :=
  let line := strip line in
  if String.eqb line EmptyString || String.prefix "#" line then config
  else if has_char "=" line then
    let key := split_first "=" line in
    let value := split_rest "=" line in
    dict_set (strip key) (strip value) config
  else config.

(** [_load_config]: [config_file] is the lines of the file, [None] when
    there is no file to read. *)
Definition load_config (config_file : option (list string)) : bindings :=
  match config_file with
  | Some lines => fold_left load_line lines []
  | None => []
  end.

(** [N8NConfig.get] *)
Definition get (environ config : bindings) (key : string)
  (default : option string) : option string :=
  match lookup key environ with
  | Some env_value => Some env_value
  | None =>
      match lookup key config with
      | Some value => Some value
      | None => default
      end
  end.

(** [N8NConfig.get_required] *)
Definition get_required (environ config : bindings) (key : string)
  : outcome string :=
  match get environ config key None with
  | Some (String c rest) => Ok (String c rest)
  | _ => Raise ValueError
  end.

Definition get_n8n_api_url (environ : bindings)
  (config_file : option (list string)) : outcome string :=
  get_required environ (load_config config_file) "N8N_API_URL".

Definition get_n8n_api_key (environ : bindings)
  (config_file : option (list string)) : outcome string :=
  get_required environ (load_config config_file) "N8N_API_KEY".

End Config.

(** ** The prompt for the mode ([select_restore_mode]) *)

Module Prompt.

(** What [input] gives: a line, or the interrupt of the user, or the end of
    the input. *)
Inductive keyboard : Type :=
| Typed (line : string)
| Interrupted
| Closed.

(** How the prompt ends: with a mode, with [None] after an interrupt, or
    with the [EOFError] that nothing catches. *)
Inductive chosen : Type :=
| Mode (mode : string)
| Cancelled
| EndOfInput.

Definition modes : list (string * string) :=
  [("1", "skip"); ("2", "update"); ("3", "rename")].

(** The loop reads until a line is a valid choice; it answers [None] when
    the lines are used up before that. *)
Fixpoint select_restore_mode (inputs : list keyboard) : option chosen :=
  match inputs with
  | [] => None
  | Interrupted :: _ => Some Cancelled
  | Closed :: _ => Some EndOfInput
  | Typed line :: rest =>
      let choice := strip line in
      if String.eqb choice EmptyString then Some (Mode "skip")
      else
        match lookup choice modes with
        | Some mode => Some (Mode mode)
        | None => select_restore_mode rest
        end
  end.

End Prompt.

(** ** Writing the snapshot ([download_workflow] of both export scripts) *)

(** The disk under the backup directory and the clock.  [mkdir] is
    [full_folder_path.mkdir(parents=True, exist_ok=True)] for a folder path;
    [write_json] is [open] followed by [json.dump] for a folder path and a
    file name, and tells whether both went through. *)
Record machine : Type := {
  Disk : Type;
  mkdir : string -> Disk -> outcome unit * Disk;
  write_json : string -> string -> json -> Disk -> bool * Disk;
  isoformat_now : Disk -> string
}.

(** The state of an export: the disk, and the writes tried so far, each
    with its folder path, file name and content. *)
Record export (m : machine) : Type := {
  disk : Disk m;
  written : list (string * string * json)
}.

Arguments disk {m} _.
Arguments written {m} _.

Definition save {m : machine} (folder_path filename : string) (content : json)
  (x : export m) : bool * export m :=
  let (ok, d) := write_json m folder_path filename content (disk x) in
  (ok, {| disk := d; written := written x ++ [(folder_path, filename, content)] |}).

Definition make_folder {m : machine} (folder_path : string) (x : export m)
  : outcome unit * export m :=
  let (r, d) := mkdir m folder_path (disk x) in
  (r, {| disk := d; written := written x |}).

Section Download.
Variable get_workflow_details : json -> option json.
Variable m : machine.

(** [str(v)] of a list or a dict, which the scripts never inspect. *)
Variable repr : json -> string.

(** [f"{v}"] *)
Definition py_format (v : json) : string :=
  match v with
  | JNull => "None"
  | JBool true => "True"
  | JBool false => "False"
  | JNum n => NilZero.string_of_int (Z.to_int n)
  | JStr s => s
  | JArr _ | JObj _ => repr v
  end.

(** [N8NWorkflowDownloader.download_workflow]: the file is named after the
    workflow and holds the detail payload as it came. *)
Definition downloader_download_workflow (workflow_summary : json)
  (folder_path : string) (x : export m) : outcome bool * export m :=
  match
    (workflow_id <- py_getitem workflow_summary "id" ;;
     workflow_name <- py_get workflow_summary "name" (JStr "Unnamed") ;;
     Ok (workflow_id, workflow_name))
  with
  | Raise e => (Raise e, x)
  | Ok (workflow_id, workflow_name) =>
      match get_workflow_details workflow_id with
      | None => (Ok false, x)
      | Some workflow_data =>
          if truthy workflow_data then
            match make_folder folder_path x with
            | (Raise e, x) => (Raise e, x)
            | (Ok _, x) =>
                match as_str workflow_name with
                | Raise e => (Raise e, x)
                | Ok name =>
                    let safe_name := sanitize_filename name in
                    let filename := (safe_name ++ ".json")%string in
                    let (ok, x) := save folder_path filename workflow_data x in
                    (Ok ok, x)
                end
            end
          else (Ok false, x)
      end
  end.

(** The [metadata] of the envelope of the one-file script. *)
Fixpoint tag_names (tags : list json) : outcome (list json) :=
  match tags with
  | [] => Ok []
  | tag :: rest =>
      tag_name <- py_get tag "name" JNull ;;
      names <- tag_names rest ;;
      Ok (tag_name :: names)
  end.

Definition metadata (workflow workflow_id workflow_name : json) (now : string)
  : outcome json :=
  active <- py_get workflow "active" (JBool false) ;;
  archived <- py_get workflow "isArchived" (JBool false) ;;
  created_at <- py_get workflow "createdAt" JNull ;;
  updated_at <- py_get workflow "updatedAt" JNull ;;
  tags <- py_get workflow "tags" (JArr []) ;;
  tags <- py_iter tags ;;
  names <- tag_names tags ;;
  node_count <- py_get workflow "nodeCount" (JNum 0) ;;
  Ok (JObj [("downloaded_at", JStr now);
            ("workflow_id", workflow_id);
            ("workflow_name", workflow_name);
            ("active", active);
            ("archived", archived);
            ("created_at", created_at);
            ("updated_at", updated_at);
            ("tags", JArr names);
            ("node_count", node_count)]).

(** [N8NBackup.download_workflow]: the file name carries the id, and the
    file holds the detail payload in an envelope. *)
Definition backup_download_workflow (workflow : json) (folder_path : string)
  (x : export m) : outcome bool * export m :=
  match
    (workflow_id <- py_getitem workflow "id" ;;
     workflow_name <- py_get workflow "name" (JStr "Unnamed") ;;
     Ok (workflow_id, workflow_name))
  with
  | Raise e => (Raise e, x)
  | Ok (workflow_id, workflow_name) =>
      match get_workflow_details workflow_id with
      | None => (Ok false, x)
      | Some workflow_data =>
          if truthy workflow_data then
            match make_folder folder_path x with
            | (Raise e, x) => (Raise e, x)
            | (Ok _, x) =>
                match
                  (name <- as_str workflow_name ;;
                   let safe_name := sanitize_filename name in
                   let filename :=
                     (safe_name ++ "_" ++ py_format workflow_id
                      ++ ".json")%string in
                   metadata <- metadata workflow workflow_id workflow_name
                                        (isoformat_now m (disk x)) ;;
                   Ok (filename, JObj [("metadata", metadata);
                                       ("workflow", workflow_data)]))
                with
                | Raise e => (Raise e, x)
                | Ok (filename, output) =>
                    let (ok, x) := save folder_path filename output x in
                    (Ok ok, x)
                end
            end
          else (Ok false, x)
      end
  end.

(** The counters of the download loops. *)
Record download_stats : Type := {
  dl_total : nat;
  dl_success : nat;
  dl_failed : nat
}.

(** The two nested loops of [download_all] and [run], over the calls in
    order, with either [download_workflow]. *)
Fixpoint download_each
  (download_workflow : json -> string -> export m -> outcome bool * export m)
  (calls : list (string * json)) (stats : download_stats) (x : export m)
  : outcome download_stats * export m :=
  match calls with
  | [] => (Ok stats, x)
  | (folder_path, workflow) :: rest =>
      match download_workflow workflow folder_path x with
      | (Raise e, x) => (Raise e, x)
      | (Ok true, x) =>
          download_each download_workflow rest
            {| dl_total := dl_total stats; dl_success := dl_success stats + 1;
               dl_failed := dl_failed stats |} x
      | (Ok false, x) =>
          download_each download_workflow rest
            {| dl_total := dl_total stats; dl_success := dl_success stats;
               dl_failed := dl_failed stats + 1 |} x
      end
  end.

End Download.

(** ** The index of the snapshot ([create_index_file]) *)

(** One entry of [workflows_by_folder]. *)
Definition index_entry (w : json) : outcome json :=
  id <- py_getitem w "id" ;;
  name <- py_getitem w "name" ;;
  active <- py_get w "active" (JBool false) ;;
  tags <- py_get w "tags" (JArr []) ;;
  tags <- py_iter tags ;;
  names <- tag_names tags ;;
  Ok (JObj [("id", id); ("name", name); ("active", active);
            ("tags", JArr names)]).

Fixpoint index_entries (workflows : list json) : outcome (list json) :=
  match workflows with
  | [] => Ok []
  | w :: rest =>
      entry <- index_entry w ;;
      entries <- index_entries rest ;;
      Ok (entry :: entries)
  end.

Fixpoint workflows_by_folder (organized : buckets)
  : outcome (list (string * json)) :=
  match organized with
  | [] => Ok []
  | (folder, workflows) :: rest =>
      entries <- index_entries workflows ;;
      folders <- workflows_by_folder rest ;;
      Ok ((folder, JArr entries) :: folders)
  end.

(** [index_data], the content of [index.json]; [now] is
    [datetime.now().isoformat()]. *)
Definition index_data (api_url now : string) (organized : buckets)
  (stats : download_stats) : outcome json :=
  by_folder <- workflows_by_folder organized ;;
  Ok (JObj
        [("backup_info",
          JObj [("timestamp", JStr now);
                ("n8n_instance", JStr api_url);
                ("total_workflows", JNum (Z.of_nat (dl_total stats)));
                ("successful_downloads", JNum (Z.of_nat (dl_success stats)));
                ("failed_downloads", JNum (Z.of_nat (dl_failed stats)))]);
         ("folder_structure",
          JObj (map (fun fw : string * list json =>
                       (fst fw, JNum (Z.of_nat (List.length (snd fw)))))
                    organized));
         ("workflows_by_folder", JObj by_folder)]).

(** ** Properties of the sanitization *)

Module Sanitize.

(** The effect of the nine replacements on one character. *)
Definition fix_char (c : ascii) : ascii :=
  fold_left (fun x char => if Ascii.eqb x char then "_"%char else x)
            invalid_chars c.

Fixpoint smap (f : ascii -> ascii) (s : string) : string :=
  match s with
  | EmptyString => EmptyString
  | String c rest => String (f c) (smap f rest)
  end.

Definition is_invalid (c : ascii) : bool :=
  existsb (Ascii.eqb c) invalid_chars.

Fixpoint all_chars (p : ascii -> bool) (s : string) : bool :=
  match s with
  | EmptyString => true
  | String c rest => p c && all_chars p rest
  end.

Lemma replace_fold_cons (l : list ascii) (c : ascii) (rest : string) :
  fold_left (fun name char => replace char "_"%char name) l (String c rest) =
  String (fold_left (fun x char => if Ascii.eqb x char then "_"%char else x) l c)
         (fold_left (fun name char => replace char "_"%char name) l rest).
Proof.
  revert c rest.
  induction l as [| ch l IH]; intros c rest; simpl.
  - reflexivity.
  - apply IH.
Qed.

Lemma replace_fold_empty (l : list ascii) :
  fold_left (fun name char => replace char "_"%char name) l EmptyString =
  EmptyString.
Proof. induction l as [| ch l IH]; simpl; auto. Qed.

Lemma replace_fold_smap (s : string) :
  fold_left (fun name char => replace char "_"%char name) invalid_chars s =
  smap fix_char s.
Proof.
  induction s as [| c rest IH].
  - apply replace_fold_empty.
  - rewrite replace_fold_cons, IH. reflexivity.
Qed.

Lemma fix_char_valid (c : ascii) : is_invalid (fix_char c) = false.
Proof. destruct c as [[] [] [] [] [] [] [] []]; vm_compute; reflexivity. Qed.

Lemma fix_char_id (c : ascii) : is_invalid c = false -> fix_char c = c.
Proof.
  destruct c as [[] [] [] [] [] [] [] []]; vm_compute;
    intro H; try reflexivity; discriminate H.
Qed.

Lemma smap_valid (s : string) :
  all_chars (fun c => negb (is_invalid c)) (smap fix_char s) = true.
Proof.
  induction s as [| c rest IH]; simpl; auto.
  now rewrite fix_char_valid, IH.
Qed.

Lemma smap_fixed (s : string) :
  all_chars (fun c => negb (is_invalid c)) s = true -> smap fix_char s = s.
Proof.
  induction s as [| c rest IH]; simpl; intro H; auto.
  apply andb_true_iff in H as [Hc Hr].
  apply negb_true_iff in Hc.
  now rewrite (fix_char_id c Hc), (IH Hr).
Qed.

Lemma lstrip_all (p : ascii -> bool) (s : string) :
  all_chars p s = true -> all_chars p (lstrip s) = true.
Proof.
  induction s as [| c rest IH]; simpl; intro H; auto.
  destruct (is_space c); auto.
  apply andb_true_iff in H as [_ Hr]. auto.
Qed.

Lemma rstrip_all (p : ascii -> bool) (s : string) :
  all_chars p s = true -> all_chars p (rstrip s) = true.
Proof.
  induction s as [| c rest IH]; simpl; intro H; auto.
  apply andb_true_iff in H as [Hc Hr].
  specialize (IH Hr).
  destruct (rstrip rest) as [| d r].
  - destruct (is_space c); simpl; auto. now rewrite Hc.
  - simpl in *. now rewrite Hc.
Qed.

Lemma strip_all (p : ascii -> bool) (s : string) :
  all_chars p s = true -> all_chars p (strip s) = true.
Proof. intro H. unfold strip. now apply rstrip_all, lstrip_all. Qed.

Lemma rstrip_idem (s : string) : rstrip (rstrip s) = rstrip s.
Proof.
  induction s as [| c rest IH]; simpl; auto.
  destruct (rstrip rest) as [| d r] eqn:E.
  - destruct (is_space c) eqn:Hc; simpl; auto. now rewrite Hc.
  - change (rstrip (String c (String d r)) = String c (String d r)).
    cbn [rstrip] in *. rewrite IH. reflexivity.
Qed.

(** A string that does not begin with white space. *)
Definition starts_clean (s : string) : bool :=
  match s with
  | EmptyString => true
  | String c _ => negb (is_space c)
  end.

Lemma lstrip_starts_clean (s : string) : starts_clean (lstrip s) = true.
Proof.
  induction s as [| c rest IH]; simpl; auto.
  destruct (is_space c) eqn:Hc; auto. simpl. now rewrite Hc.
Qed.

Lemma rstrip_starts_clean (s : string) :
  starts_clean s = true -> starts_clean (rstrip s) = true.
Proof.
  destruct s as [| c rest]; simpl; auto.
  intro Hc. destruct (rstrip rest).
  - apply negb_true_iff in Hc. rewrite Hc. simpl. now rewrite Hc.
  - exact Hc.
Qed.

Lemma lstrip_clean_id (s : string) : starts_clean s = true -> lstrip s = s.
Proof.
  destruct s as [| c rest]; simpl; auto.
  intro Hc. apply negb_true_iff in Hc. now rewrite Hc.
Qed.

Lemma strip_idem (s : string) : strip (strip s) = strip s.
Proof.
  unfold strip.
  rewrite (lstrip_clean_id (rstrip (lstrip s))).
  - apply rstrip_idem.
  - apply rstrip_starts_clean, lstrip_starts_clean.
Qed.

Lemma sanitize_valid (x : string) :
  all_chars (fun c => negb (is_invalid c)) (sanitize_filename x) = true.
Proof.
  unfold sanitize_filename. rewrite replace_fold_smap.
  apply strip_all, smap_valid.
Qed.

Lemma sanitize_idem (x : string) :
  sanitize_filename (sanitize_filename x) = sanitize_filename x.
Proof.
  unfold sanitize_filename at 1. rewrite replace_fold_smap.
  rewrite (smap_fixed _ (sanitize_valid x)).
  unfold sanitize_filename. apply strip_idem.
Qed.

Lemma all_chars_has_char (c : ascii) (s : string) :
  is_invalid c = true ->
  all_chars (fun c => negb (is_invalid c)) s = true -> has_char c s = false.
Proof.
  intro Hc. induction s as [| d rest IH]; simpl; auto.
  intro H. apply andb_true_iff in H as [Hd Hr].
  rewrite (IH Hr), orb_false_r.
  destruct (Ascii.eqb_spec d c) as [->|]; auto.
  rewrite Hc in Hd. discriminate.
Qed.

Lemma has_char_in (c : ascii) (s : string) :
  has_char c s = false -> ~ In c (list_ascii_of_string s).
Proof.
  induction s as [| d rest IH]; simpl; [tauto |].
  intro H. apply orb_false_iff in H as [Hd Hr].
  intros [-> | Hin]; [| now apply IH].
  now rewrite Ascii.eqb_refl in Hd.
Qed.

(** C5. Sanitizing twice is sanitizing once, and a sanitized name holds none
    of the nine characters less than, greater than, colon, double quote
    (code 34), slash, backslash, bar, question mark and star. *)
Theorem sanitize_filename_idempotent_and_safe (x : string) :
  sanitize_filename (sanitize_filename x) = sanitize_filename x /\
  forall c : ascii,
    In c ["<"; ">"; ":"; "034"; "/"; "\"; "|"; "?"; "*"]%char ->
    ~ In c (list_ascii_of_string (sanitize_filename x)).
Proof.
  split.
  - apply sanitize_idem.
  - intros c Hc. apply has_char_in, all_chars_has_char.
    + simpl in Hc.
      repeat (destruct Hc as [<- | Hc]; [reflexivity |]).
      contradiction.
    + apply sanitize_valid.
Qed.

End Sanitize.

(** ** Properties of the grouping *)

Lemma bind_ok {A B : Type} (m : outcome A) (k : A -> outcome B) (b : B) :
  bind m k = Ok b -> exists a, m = Ok a /\ k a = Ok b.
Proof. destruct m as [a | e]; simpl; intro H; [eauto | discriminate]. Qed.

Ltac bind_inv H :=
  let x := fresh "x" in
  let E := fresh "E" in
  apply bind_ok in H as (x & E & H).

Module Organizer.

(** The entity [w] lies in the bucket keyed [folder_path]. *)
Definition in_bucket (organized : buckets) (folder_path : string) (w : json)
  : Prop :=
  exists l, In (folder_path, l) organized /\ In w l.

(** The buckets that hold [w] are exactly those keyed by [ks], each key
    counted once. *)
Definition exactly_in (organized : buckets) (w : json) (ks : list string)
  : Prop :=
  NoDup ks /\ forall k, in_bucket organized k w <-> In k ks.

(** The archived flag of an entity: [isArchived] present and true. *)
Definition archived (w : json) : bool :=
  match w with
  | JObj m => match lookup "isArchived" m with
              | Some v => truthy v
              | None => false
              end
  | _ => false
  end.

(** The sanitized name of a tag, [Untagged] standing for a missing name. *)
Definition tag_label (tag : json) : option string :=
  match tag with
  | JObj m => match lookup "name" m with
              | None => Some (sanitize_filename "Untagged")
              | Some (JStr s) => Some (sanitize_filename s)
              | Some _ => None
              end
  | _ => None
  end.

Fixpoint tag_labels (ts : list json) : option (list string) :=
  match ts with
  | [] => Some []
  | t :: rest =>
      match tag_label t, tag_labels rest with
      | Some l, Some ls => Some (l :: ls)
      | _, _ => None
      end
  end.

Lemma lookup_dict_set_same {V : Type} (k : string) (v : V) m :
  lookup k (dict_set k v m) = Some v.
Proof.
  induction m as [| [k' v'] rest IH]; simpl.
  - now rewrite String.eqb_refl.
  - destruct (String.eqb k' k) eqn:E; simpl; now rewrite E.
Qed.

(** [place] by recursion on the dictionary. *)
Lemma place_nil (k : string) (w : json) : place k w [] = [(k, [w])].
Proof. unfold place. simpl. now rewrite String.eqb_refl. Qed.

Lemma place_cons (k : string) (w : json) (a : string) (l : list json) rest :
  place k w ((a, l) :: rest) =
  if String.eqb a k then (a, l ++ [w]) :: rest else (a, l) :: place k w rest.
Proof.
  unfold place. simpl. destruct (String.eqb a k) eqn:E.
  - simpl. now rewrite E.
  - destruct (lookup k rest) as [l0 |] eqn:L.
    + simpl. now rewrite E, L.
    + simpl. rewrite E, !lookup_dict_set_same. reflexivity.
Qed.

Lemma in_bucket_place (k : string) (w : json) (o : buckets) k' x :
  in_bucket (place k w o) k' x <-> in_bucket o k' x \/ (k' = k /\ x = w).
Proof.
  unfold in_bucket. induction o as [| [a l] rest IH].
  - rewrite place_nil. split.
    + intros (l & [H | []] & Hx). inversion H; subst.
      destruct Hx as [-> | []]. now right.
    + intros [(l & [] & _) | [-> ->]]. exists [w]. simpl. auto.
  - rewrite place_cons. destruct (String.eqb_spec a k) as [-> | Hak].
    + split.
      * intros (l0 & [H | H] & Hx).
        -- inversion H; subst. apply in_app_or in Hx as [Hx | [-> | []]].
           ++ left. exists l. simpl. auto.
           ++ now right.
        -- left. exists l0. simpl. auto.
      * intros [(l0 & [H | H] & Hx) | [-> ->]].
        -- inversion H; subst. exists (l0 ++ [w]). split; [now left |].
           apply in_or_app. auto.
        -- exists l0. split; [now right | auto].
        -- exists (l ++ [w]). split; [now left |].
           apply in_or_app. simpl. auto.
    + split.
      * intros (l0 & [H | H] & Hx).
        -- inversion H; subst. left. exists l0. simpl. auto.
        -- destruct (proj1 IH (ex_intro _ l0 (conj H Hx)))
             as [(l1 & H1 & Hx1) | Heq].
           ++ left. exists l1. simpl. auto.
           ++ now right.
      * intros [(l0 & [H | H] & Hx) | Heq].
        -- exists l0. split; [now left | auto].
        -- destruct (proj2 IH (or_introl (ex_intro _ l0 (conj H Hx))))
             as (l1 & H1 & Hx1).
           exists l1. split; [now right | auto].
        -- destruct (proj2 IH (or_intror Heq)) as (l1 & H1 & Hx1).
           exists l1. split; [now right | auto].
Qed.

Lemma place_keys (k : string) (w : json) (o : buckets) a :
  In a (map fst (place k w o)) <-> In a (map fst o) \/ a = k.
Proof.
  induction o as [| [b l] rest IH].
  - rewrite place_nil. simpl. intuition.
  - rewrite place_cons. destruct (String.eqb_spec b k) as [-> | Hbk]; simpl.
    + intuition.
    + rewrite IH. intuition.
Qed.

Lemma place_nodup (k : string) (w : json) (o : buckets) :
  NoDup (map fst o) -> NoDup (map fst (place k w o)).
Proof.
  induction o as [| [b l] rest IH]; intro H.
  - rewrite place_nil. simpl. constructor; [intros [] | constructor].
  - rewrite place_cons. inversion H as [| ? ? Hb Hr]; subst.
    destruct (String.eqb_spec b k) as [-> | Hbk]; simpl.
    + now constructor.
    + constructor; auto. rewrite place_keys. intros [? | ?]; auto.
Qed.

Section Properties.
Variable get_workflow_details : json -> option json.

(** The sanitized name of the project that owns an entity. *)
Definition project_folder (w : json) : option string :=
  match py_getitem w "id" with
  | Ok workflow_id =>
      match get_workflow_project get_workflow_details workflow_id w with
      | Ok (JStr project_name) => Some (sanitize_filename project_name)
      | _ => None
      end
  | Raise _ => None
  end.

(** The folder paths of an entity: one per tag, or the path of the entities
    without a tag. *)
Definition folder_paths (w : json) : option (list string) :=
  match project_folder w, py_get w "tags" (JArr []) with
  | Some project, Ok tags =>
      if truthy tags then
        match tags with
        | JArr ts =>
            option_map (map (fun l => project ++ "/" ++ l)%string)
                       (tag_labels ts)
        | _ => None
        end
      else Some [(project ++ "/No Tag")%string]
  | _, _ => None
  end.

Lemma place_tags_spec (project : string) (w : json) (ts : list json) :
  forall o o',
    place_tags project w ts o = Ok o' ->
    (forall t, In t ts -> exists m, t = JObj m) /\
    exists ls, tag_labels ts = Some ls /\
      (NoDup (map fst o) -> NoDup (map fst o')) /\
      forall k x, in_bucket o' k x <->
        in_bucket o k x \/
        (x = w /\ In k (map (fun l => project ++ "/" ++ l)%string ls)).
Proof.
  induction ts as [| t rest IH]; intros o o' H; simpl in H.
  - inversion H; subst. split; [intros ? [] |].
    exists []. simpl. intuition.
  - bind_inv H. bind_inv H.
    destruct t as [| | | | | m]; try discriminate.
    destruct (IH _ _ H) as (Hd & ls & Hls & Hn & Hb).
    split.
    { intros t [<- | Ht]; eauto. }
    simpl in E. simpl. rewrite Hls.
    destruct (lookup "name" m) as [v |] eqn:L.
    + inversion E; subst. destruct x as [| | | s | |]; try discriminate.
      inversion E0; subst. eexists; split; [reflexivity |]. split.
      * intro Ho. apply Hn, place_nodup, Ho.
      * intros k y. rewrite Hb, in_bucket_place. simpl. intuition; subst; auto.
    + inversion E; subst. inversion E0; subst.
      eexists; split; [reflexivity |]. split.
      * intro Ho. apply Hn, place_nodup, Ho.
      * intros k y. rewrite Hb, in_bucket_place. simpl. intuition; subst; auto.
Qed.

Lemma organize_workflow_spec (w : json) (o o' : buckets) :
  organize_workflow get_workflow_details w o = Ok o' ->
  exists ks, folder_paths w = Some ks /\
    (NoDup (map fst o) -> NoDup (map fst o')) /\
    forall k x, in_bucket o' k x <-> in_bucket o k x \/ (x = w /\ In k ks).
Proof.
  unfold organize_workflow, folder_paths, project_folder. intro H.
  bind_inv H. bind_inv H. bind_inv H. bind_inv H.
  rewrite E, E0, E2.
  destruct x0 as [| | | p | |]; try discriminate. inversion E1; subst.
  destruct (truthy x2) eqn:T.
  - bind_inv H. destruct (place_tags_spec _ _ _ _ _ H) as (Hd & ls & Hls & Hn & Hb).
    destruct x2 as [| | | s | ts | m]; try discriminate.
    + destruct s as [| c s]; [discriminate |]. inversion E3; subst.
      destruct (Hd _ (or_introl eq_refl)) as (m & Hm). discriminate.
    + inversion E3; subst. rewrite Hls. simpl. eauto.
    + destruct m as [| [a v] m]; [discriminate |]. inversion E3; subst.
      destruct (Hd _ (or_introl eq_refl)) as (m' & Hm). discriminate.
  - inversion H; subst. eexists; split; [reflexivity |]. split.
    + apply place_nodup.
    + intros k y. rewrite in_bucket_place. simpl. intuition; subst; auto.
Qed.

Lemma organize_loop_spec (active : list json) :
  forall o o',
    organize_loop get_workflow_details active o = Ok o' ->
    (NoDup (map fst o) -> NoDup (map fst o')) /\
    (forall x, In x active -> exists ks, folder_paths x = Some ks) /\
    forall k x, in_bucket o' k x <->
      in_bucket o k x \/
      (In x active /\ exists ks, folder_paths x = Some ks /\ In k ks).
Proof.
  induction active as [| w rest IH]; intros o o' H; simpl in H.
  - inversion H; subst. split; [auto |]. split; [intros ? [] |].
    intros k x. split; [auto | intros [? | ([] & _)]; auto].
  - bind_inv H.
    destruct (organize_workflow_spec _ _ _ E) as (ks & Hks & Hn1 & Hb1).
    destruct (IH _ _ H) as (Hn2 & Hall & Hb2).
    split; [auto |]. split.
    + intros y [<- | Hy]; eauto.
    + intros k y. rewrite Hb2, Hb1. split.
      * intros [[? | [-> Hk]] | (Hy & ks' & ? & ?)]; auto.
        -- right. split; [now left | eauto].
        -- right. split; [now right | eauto].
      * intros [? | ([<- | Hy] & ks' & Hks' & Hk)]; auto.
        -- left. right. split; auto. congruence.
        -- right. split; eauto.
Qed.

Lemma active_filter_spec (ws : list json) :
  forall active,
    active_filter ws = Ok active ->
    forall x, In x active <-> In x ws /\ archived x = false.
Proof.
  induction ws as [| w rest IH]; intros active H; simpl in H.
  - inversion H; subst. simpl. intuition.
  - bind_inv H. bind_inv H. inversion H; subst. clear H.
    specialize (IH _ E0).
    assert (Hw : archived w = truthy x).
    { destruct w as [| | | | | m]; try discriminate. simpl in E. simpl.
      destruct (lookup "isArchived" m); inversion E; subst; reflexivity. }
    intro y. destruct (truthy x) eqn:T.
    + rewrite IH. simpl. split.
      * intros [? ?]; auto.
      * intros [[<- | ?] Hy]; [congruence | auto].
    + simpl. rewrite IH. split.
      * intros [<- | [? ?]]; auto.
      * intros [[<- | ?] Hy]; auto.
Qed.

(** The output of the organizer: the entries of the buckets are the
    non-archived entities, each under its folder paths. *)
Lemma organize_by_tags_spec (ws : list json) (organized : buckets) :
  organize_by_tags get_workflow_details ws = Ok organized ->
  NoDup (map fst organized) /\
  (forall x, In x ws -> archived x = false ->
             exists ks, folder_paths x = Some ks) /\
  forall k x, in_bucket organized k x <->
    In x ws /\ archived x = false /\
    exists ks, folder_paths x = Some ks /\ In k ks.
Proof.
  unfold organize_by_tags. intro H. bind_inv H.
  pose proof (active_filter_spec _ _ E) as Ha.
  destruct (organize_loop_spec _ _ _ H) as (Hn & Hall & Hb).
  split; [apply Hn; constructor |]. split.
  - intros y Hy Hay. apply Hall, Ha. auto.
  - intros k y. rewrite Hb, Ha. split.
    + intros [(l & [] & _) | ((? & ?) & ?)]; auto.
    + intros (? & ? & ?). right. auto.
Qed.

End Properties.

Lemma download_calls_in_bucket (organized : buckets) k w :
  In (k, w) (download_calls organized) <-> in_bucket organized k w.
Proof.
  unfold download_calls, in_bucket. rewrite in_flat_map. split.
  - intros ([a l] & Hin & Hm). simpl in Hm. apply in_map_iff in Hm.
    destruct Hm as (x & Hx & Hl). inversion Hx; subst. eauto.
  - intros (l & Hin & Hw). exists (k, l). split; auto.
    simpl. apply in_map_iff. eauto.
Qed.

Lemma organize_by_folders_eq details ws :
  organize_by_folders details ws = organize_by_tags details ws.
Proof. reflexivity. Qed.

Lemma tag_labels_length ts : forall ls,
  tag_labels ts = Some ls -> List.length ls = List.length ts.
Proof.
  induction ts as [| t rest IH]; intros ls H; simpl in H.
  - inversion H. reflexivity.
  - destruct (tag_label t); [| discriminate].
    destruct (tag_labels rest); [| discriminate].
    inversion H. simpl. f_equal. now apply IH.
Qed.

Lemma tag_labels_in ts : forall ls t,
  tag_labels ts = Some ls -> In t ts ->
  exists l, tag_label t = Some l /\ In l ls.
Proof.
  induction ts as [| t0 rest IH]; intros ls t H Ht; simpl in H.
  - destruct Ht.
  - destruct (tag_label t0) as [l0 |] eqn:E0; [| discriminate].
    destruct (tag_labels rest) as [ls0 |]; [| discriminate].
    inversion H; subst. destruct Ht as [<- | Ht].
    + exists l0. simpl. auto.
    + destruct (IH _ _ eq_refl Ht) as (l & ? & ?). exists l. simpl. auto.
Qed.

Lemma append_cancel (p a b : string) : (p ++ a = p ++ b)%string -> a = b.
Proof.
  induction p as [| c p IH]; simpl; intro H; [exact H |].
  inversion H. auto.
Qed.

Lemma prefixed_nodup (p : string) (ls : list string) :
  NoDup ls -> NoDup (map (fun l => p ++ "/" ++ l)%string ls).
Proof.
  induction 1 as [| l ls Hl Hn IH]; simpl; constructor; auto.
  intro Hin. apply in_map_iff in Hin as (l' & Heq & Hl').
  apply append_cancel in Heq. inversion Heq; subst. auto.
Qed.

(** The organizer returns on every list of well-formed entities: dicts whose
    active members have folder paths. *)
Lemma place_tags_total (project : string) (w : json) (ts : list json) :
  forall ls o, tag_labels ts = Some ls ->
               exists o', place_tags project w ts o = Ok o'.
Proof.
  induction ts as [| t rest IH]; intros ls o H; simpl in *.
  - eauto.
  - destruct (tag_label t) as [l |] eqn:E; [| discriminate].
    destruct (tag_labels rest) as [ls0 |] eqn:E0; [| discriminate].
    destruct t as [| | | | | m]; try discriminate. simpl in *.
    destruct (lookup "name" m) as [[| | | s | |] |]; try discriminate;
      simpl; eapply IH; reflexivity.
Qed.

Lemma organize_workflow_total details (w : json) (o : buckets) ks :
  folder_paths details w = Some ks ->
  exists o', organize_workflow details w o = Ok o'.
Proof.
  unfold folder_paths, project_folder, organize_workflow. intro H.
  destruct (py_getitem w "id") as [wid | e]; [| discriminate]. simpl.
  destruct (get_workflow_project details wid w) as [[| | | p | |] | e];
    try discriminate. simpl.
  destruct (py_get w "tags" (JArr [])) as [tags | e]; [| discriminate]. simpl.
  destruct (truthy tags); [| eauto].
  destruct tags as [| | | | ts |]; try discriminate. simpl.
  destruct (tag_labels ts) as [ls |] eqn:E; [| discriminate].
  eapply place_tags_total; eauto.
Qed.

Lemma organize_by_tags_total details (ws : list json) :
  (forall w, In w ws -> exists m, w = JObj m) ->
  (forall w, In w ws -> archived w = false -> folder_paths details w <> None) ->
  exists organized, organize_by_tags details ws = Ok organized.
Proof.
  intros Hd Hp. unfold organize_by_tags.
  assert (Ha : exists active, active_filter ws = Ok active /\
                 forall x, In x active -> In x ws /\ archived x = false).
  { clear Hp. induction ws as [| w rest IH]; simpl.
    - exists []. split; [reflexivity | intros ? []].
    - destruct (Hd w (or_introl eq_refl)) as (m & ->).
      destruct IH as (active & -> & Hact).
      { intros; apply Hd; now right. }
      simpl. destruct (lookup "isArchived" m) as [v |] eqn:L; simpl.
      + destruct (truthy v) eqn:T; eexists; (split; [reflexivity |]).
        * intros x Hx. destruct (Hact x Hx). auto.
        * intros x [<- | Hx]; [| destruct (Hact x Hx); auto].
          split; [now left |]. simpl. now rewrite L.
      + eexists; split; [reflexivity |].
        intros x [<- | Hx]; [| destruct (Hact x Hx); auto].
        split; [now left |]. simpl. now rewrite L. }
  destruct Ha as (active & -> & Hact). simpl.
  assert (Hk : forall x, In x active -> folder_paths details x <> None).
  { intros x Hx. destruct (Hact x Hx). auto. }
  clear Hact Hd Hp. generalize (@nil (string * list json)).
  induction active as [| w rest IH]; intro o; simpl; [eauto |].
  destruct (folder_paths details w) as [ks |] eqn:E.
  - destruct (organize_workflow_total details w o ks E) as (o' & ->). simpl.
    apply IH. intros; apply Hk; now right.
  - exfalso. apply (Hk w); [now left | exact E].
Qed.

(** C3. No entity whose archived flag is true lies in a bucket of the
    organizer's output, and none is handed to [download_workflow]: the
    archived entities are filtered out before the grouping. *)
Theorem archived_never_organized details (ws : list json)
  (organized : buckets) :
  organize_by_tags details ws = Ok organized ->
  forall k w, archived w = true ->
    ~ in_bucket organized k w /\ ~ In (k, w) (download_calls organized).
Proof.
  intros H k w Hw.
  destruct (organize_by_tags_spec details ws organized H) as (_ & _ & Hb).
  assert (Hn : ~ in_bucket organized k w).
  { intro Hin. apply Hb in Hin as (_ & Ha & _). congruence. }
  split; [exact Hn |]. now rewrite download_calls_in_bucket.
Qed.

(** C2 (amended). A non-archived entity lies in the buckets keyed by the
    sanitized project name, a slash and the sanitized name of each of its
    tags: N buckets when the N sanitized tag names are pairwise distinct.
    An entity without tags lies in exactly one bucket, keyed by the
    sanitized project name followed by [/No Tag]. *)
Theorem fan_out_by_tag details (ws : list json) (organized : buckets)
  (w : json) :
  organize_by_tags details ws = Ok organized ->
  In w ws -> archived w = false ->
  NoDup (map fst organized) /\
  exists project tags,
    project_folder details w = Some project /\
    py_get w "tags" (JArr []) = Ok tags /\
    if truthy tags then
      exists ts ls,
        tags = JArr ts /\ tag_labels ts = Some ls /\
        List.length ls = List.length ts /\
        (forall k, in_bucket organized k w <->
                   In k (map (fun l => project ++ "/" ++ l)%string ls)) /\
        (NoDup ls ->
         exactly_in organized w (map (fun l => project ++ "/" ++ l)%string ls))
    else exactly_in organized w [(project ++ "/No Tag")%string].
Proof.
  intros H Hw Ha.
  destruct (organize_by_tags_spec details ws organized H) as (Hn & Hall & Hb).
  split; [exact Hn |].
  destruct (Hall w Hw Ha) as (ks & Hks).
  assert (Hk : forall k, in_bucket organized k w <-> In k ks).
  { intro k. rewrite Hb. split.
    - intros (_ & _ & ks' & Hks' & Hin). congruence.
    - intro Hin. eauto. }
  unfold folder_paths in Hks.
  destruct (project_folder details w) as [project |]; [| discriminate].
  destruct (py_get w "tags" (JArr [])) as [tags | e]; [| discriminate].
  exists project, tags. split; [reflexivity |]. split; [reflexivity |].
  destruct (truthy tags).
  - destruct tags as [| | | | ts |]; try discriminate.
    destruct (tag_labels ts) as [ls |] eqn:E; [| discriminate].
    inversion Hks; subst. exists ts, ls.
    split; [reflexivity |]. split; [exact E |].
    split; [now apply tag_labels_length |]. split; [exact Hk |].
    intro Hnd. split; [now apply prefixed_nodup | exact Hk].
  - inversion Hks; subst. split; [| exact Hk].
    constructor; [intros [] | constructor].
Qed.

(** C4 (amended). A tag without a [name] key goes under the label
    [Untagged], sanitized like any tag name (the label is its own
    sanitization).  A name that is present is used as it is: for the empty
    name the folder path is the project followed by a slash alone. *)
Theorem missing_tag_name_is_untagged details (ws : list json)
  (organized : buckets) (w : json) (ts : list json)
  (m : list (string * json)) :
  organize_by_tags details ws = Ok organized ->
  In w ws -> archived w = false ->
  py_get w "tags" (JArr []) = Ok (JArr ts) -> In (JObj m) ts ->
  sanitize_filename "Untagged" = "Untagged" /\
  exists project,
    project_folder details w = Some project /\
    (lookup "name" m = None ->
     in_bucket organized
               (project ++ "/" ++ sanitize_filename "Untagged")%string w) /\
    (forall s, lookup "name" m = Some (JStr s) ->
     in_bucket organized (project ++ "/" ++ sanitize_filename s)%string w) /\
    (lookup "name" m = Some (JStr EmptyString) ->
     in_bucket organized (project ++ "/")%string w).
Proof.
  intros H Hw Ha Ht Hm. split; [reflexivity |].
  destruct (organize_by_tags_spec details ws organized H) as (_ & Hall & Hb).
  destruct (Hall w Hw Ha) as (ks & Hks).
  assert (Hk : forall k, In k ks -> in_bucket organized k w).
  { intros k Hin. apply Hb. eauto. }
  unfold folder_paths in Hks. rewrite Ht in Hks.
  destruct (project_folder details w) as [project |]; [| discriminate].
  exists project. split; [reflexivity |].
  destruct ts as [| t0 ts0]; [destruct Hm |].
  cbn [truthy] in Hks.
  destruct (tag_labels (t0 :: ts0)) as [ls |] eqn:E; [| discriminate].
  inversion Hks; subst.
  destruct (tag_labels_in _ _ _ E Hm) as (l & Hl & Hin).
  assert (Hgen : in_bucket organized (project ++ "/" ++ l)%string w).
  { apply Hk, in_map_iff. exists l. split; [reflexivity | exact Hin]. }
  simpl in Hl. split; [| split].
  - intro L. rewrite L in Hl. inversion Hl; subst. exact Hgen.
  - intros s L. rewrite L in Hl. inversion Hl; subst. exact Hgen.
  - intro L. rewrite L in Hl. inversion Hl; subst. exact Hgen.
Qed.

(** *** A remote with one team project *)

Definition acme (_ : json) : option json :=
  Some (JObj [("shared",
               JArr [JObj [("project", JObj [("name", JStr "Acme");
                                             ("type", JStr "team")])]])]).

Definition wf_deploy : json :=
  JObj [("id", JStr "1"); ("name", JStr "Deploy");
        ("tags", JArr [JObj [("name", JStr "prod")];
                       JObj [("name", JStr "ops:eu")]])].

Definition wf_invoice : json :=
  JObj [("id", JStr "2"); ("name", JStr "Invoice Sync"); ("tags", JArr [])].

Definition wf_old : json :=
  JObj [("id", JStr "3"); ("name", JStr "Old"); ("isArchived", JBool true);
        ("tags", JArr [JObj [("name", JStr "prod")]])].

Definition wf_nameless_tag : json :=
  JObj [("id", JStr "4"); ("name", JStr "Mail");
        ("tags", JArr [JObj [("id", JStr "t9")]])].

Definition wf_empty_tag : json :=
  JObj [("id", JStr "5"); ("name", JStr "Ping");
        ("tags", JArr [JObj [("name", JStr EmptyString)]])].

Definition wf_clash : json :=
  JObj [("id", JStr "6"); ("name", JStr "Sync");
        ("tags", JArr [JObj [("name", JStr "a:b")];
                       JObj [("name", JStr "a_b")]])].

Definition acme_list : list json :=
  [wf_deploy; wf_invoice; wf_old; wf_nameless_tag].

Definition acme_organized : buckets :=
  [("Acme/prod", [wf_deploy]); ("Acme/ops_eu", [wf_deploy]);
   ("Acme/No Tag", [wf_invoice]); ("Acme/Untagged", [wf_nameless_tag])].

Example organize_acme : organize_by_tags acme acme_list = Ok acme_organized.
Proof. reflexivity. Qed.

(** Two entities of one project, one tagged, one not: two buckets of one
    entity each. *)
Example organize_tagged_and_untagged :
  organize_by_tags acme
    [JObj [("id", JStr "1"); ("name", JStr "A");
           ("tags", JArr [JObj [("name", JStr "prod")]])];
     JObj [("id", JStr "2"); ("name", JStr "B")]]
  = Ok [("Acme/prod", [JObj [("id", JStr "1"); ("name", JStr "A");
                             ("tags", JArr [JObj [("name", JStr "prod")]])]]);
        ("Acme/No Tag", [JObj [("id", JStr "2"); ("name", JStr "B")]])].
Proof. reflexivity. Qed.

Lemma archived_never_organized_witness :
  organize_by_tags acme acme_list = Ok acme_organized /\
  archived wf_old = true /\
  ~ in_bucket acme_organized "Acme/prod" wf_old /\
  ~ In ("Acme/prod", wf_old) (download_calls acme_organized).
Proof.
  split; [reflexivity |]. split; [reflexivity |].
  apply (archived_never_organized acme acme_list acme_organized);
    reflexivity.
Defined.

Lemma fan_out_by_tag_witness :
  organize_by_tags acme acme_list = Ok acme_organized /\
  exactly_in acme_organized wf_deploy ["Acme/prod"; "Acme/ops_eu"] /\
  exactly_in acme_organized wf_invoice ["Acme/No Tag"].
Proof.
  split; [reflexivity |]. split.
  - destruct (fan_out_by_tag acme acme_list acme_organized wf_deploy)
      as (_ & project & tags & Hp & Ht & Hrest);
      [reflexivity | simpl; auto | reflexivity |].
    vm_compute in Hp. inversion Hp; subst project.
    vm_compute in Ht. inversion Ht; subst tags.
    cbn [truthy] in Hrest.
    destruct Hrest as (ts & ls & Hts & Hls & _ & _ & Hex).
    inversion Hts; subst ts. vm_compute in Hls. inversion Hls; subst ls.
    apply Hex. constructor.
    + simpl. intros [H | []]. discriminate H.
    + constructor; [intros [] | constructor].
  - destruct (fan_out_by_tag acme acme_list acme_organized wf_invoice)
      as (_ & project & tags & Hp & Ht & Hrest);
      [reflexivity | simpl; auto | reflexivity |].
    vm_compute in Hp. inversion Hp; subst project.
    vm_compute in Ht. inversion Ht; subst tags.
    exact Hrest.
Defined.

Lemma missing_tag_name_is_untagged_witness :
  organize_by_tags acme acme_list = Ok acme_organized /\
  lookup "name" [("id", JStr "t9")] = None /\
  in_bucket acme_organized "Acme/Untagged" wf_nameless_tag.
Proof.
  split; [reflexivity |]. split; [reflexivity |].
  destruct (missing_tag_name_is_untagged acme acme_list acme_organized
              wf_nameless_tag [JObj [("id", JStr "t9")]] [("id", JStr "t9")])
    as (_ & project & Hp & Hmissing & _);
    [reflexivity | simpl; auto | reflexivity | reflexivity | simpl; auto |].
  vm_compute in Hp. inversion Hp; subst project.
  apply Hmissing. reflexivity.
Defined.

(** Two tags whose names differ only in an invalid character share one
    bucket: the entity has two tags and lies in one bucket, twice. *)
Lemma fan_out_counterexample :
  organize_by_tags acme [wf_clash] = Ok [("Acme/a_b", [wf_clash; wf_clash])] /\
  archived wf_clash = false /\
  py_get wf_clash "tags" (JArr []) =
    Ok (JArr [JObj [("name", JStr "a:b")]; JObj [("name", JStr "a_b")]]) /\
  ~ exists ks, List.length ks = 2 /\
               exactly_in [("Acme/a_b", [wf_clash; wf_clash])] wf_clash ks.
Proof.
  split; [reflexivity |]. split; [reflexivity |]. split; [reflexivity |].
  intros (ks & Hlen & Hnd & Hiff).
  destruct ks as [| a [| b [| c ks]]]; try discriminate Hlen.
  assert (Hk : forall k, In k [a; b] -> k = "Acme/a_b").
  { intros k Hin. apply Hiff in Hin as (l & [Hl | []] & _).
    now inversion Hl. }
  inversion Hnd as [| ? ? Hnot _]; subst. apply Hnot.
  rewrite (Hk a), (Hk b); simpl; auto.
Qed.

(** A tag whose name is the empty string is not relabelled. *)
Lemma empty_tag_name_counterexample :
  organize_by_tags acme [wf_empty_tag] = Ok [("Acme/", [wf_empty_tag])] /\
  archived wf_empty_tag = false /\
  py_get wf_empty_tag "tags" (JArr []) =
    Ok (JArr [JObj [("name", JStr EmptyString)]]) /\
  ~ in_bucket [("Acme/", [wf_empty_tag])] "Acme/Untagged" wf_empty_tag.
Proof.
  split; [reflexivity |]. split; [reflexivity |]. split; [reflexivity |].
  intros (l & [Hl | []] & _). discriminate Hl.
Qed.

End Organizer.

(** ** Properties of the paginated listing *)

(** The entities of a page and its cursor, as the three loops read them. *)
Definition page_items (data : json) : outcome (list json) :=
  workflows <- py_get data "data" (JArr []) ;;
  py_iter workflows.

Definition page_next (data : json) : outcome json :=
  py_get data "nextCursor" JNull.

(** [listing n cursor s all ok s']: from state [s] the remote answers [n]
    successive page requests, the first one with [cursor], each next one
    with the cursor of the page before; [all] are the entities of the pages
    in order.  The exchange ends at the first page without a cursor
    ([ok = true]) or at the first request that fails ([ok = false]). *)
Inductive listing {srv : server}
  : nat -> option json -> session srv -> list json -> bool -> session srv
    -> Prop :=
| listing_failed cursor s s' :
    send (GET_workflows cursor) s = (None, s') ->
    listing 1 cursor s [] false s'
| listing_last cursor s s' data items next :
    send (GET_workflows cursor) s = (Some data, s') ->
    page_items data = Ok items ->
    page_next data = Ok next ->
    truthy next = false ->
    listing 1 cursor s items true s'
| listing_more n cursor s s1 s' data items next rest ok :
    send (GET_workflows cursor) s = (Some data, s1) ->
    page_items data = Ok items ->
    page_next data = Ok next ->
    truthy next = true ->
    listing n (Some next) s1 rest ok s' ->
    listing (S n) cursor s (items ++ rest) ok s'.

Lemma page_bind {A : Type} (data : json) (items : list json) (next : json)
  (k : list json -> json -> outcome A) :
  page_items data = Ok items -> page_next data = Ok next ->
  (workflows <- py_get data "data" (JArr []) ;;
   items <- py_iter workflows ;;
   next <- py_get data "nextCursor" JNull ;;
   k items next) = k items next.
Proof.
  unfold page_items, page_next. intros Hi Hn. bind_inv Hi.
  rewrite E. simpl. rewrite Hi. simpl. rewrite Hn. reflexivity.
Qed.

(** The downloader keeps the pages fetched before a failure. *)
Lemma downloader_listing (srv : server) n cursor (s : session srv) all ok s' :
  listing n cursor s all ok s' ->
  forall fuel acc, n <= fuel ->
    Downloader.get_all_workflows_loop srv fuel cursor acc s
    = Some (Ok (acc ++ all), s').
Proof.
  induction 1 as [cursor s s' Hs | cursor s s' data items next Hs Hi Hn Ht
                 | n cursor s s1 s' data items next rest ok Hs Hi Hn Ht Hl IH];
    intros fuel acc Hf; (destruct fuel as [| fuel]; [lia |]); simpl; rewrite Hs.
  - now rewrite app_nil_r.
  - rewrite (page_bind _ _ _ (fun i n => Ok (acc ++ i, n)) Hi Hn).
    now rewrite Ht.
  - rewrite (page_bind _ _ _ (fun i n => Ok (acc ++ i, n)) Hi Hn).
    rewrite Ht, IH by lia. now rewrite app_assoc.
Qed.

(** The one-file script returns the empty list after a failure. *)
Lemma backup_listing (srv : server) n cursor (s : session srv) all ok s' :
  listing n cursor s all ok s' ->
  forall fuel acc, n <= fuel ->
    Backup.get_all_workflows_loop srv fuel cursor acc s
    = Some (Ok (if ok then acc ++ all else []), s').
Proof.
  induction 1 as [cursor s s' Hs | cursor s s' data items next Hs Hi Hn Ht
                 | n cursor s s1 s' data items next rest ok Hs Hi Hn Ht Hl IH];
    intros fuel acc Hf; (destruct fuel as [| fuel]; [lia |]); simpl; rewrite Hs.
  - reflexivity.
  - rewrite (page_bind _ _ _ (fun i n => Ok (acc ++ i, n)) Hi Hn).
    now rewrite Ht.
  - rewrite (page_bind _ _ _ (fun i n => Ok (acc ++ i, n)) Hi Hn).
    rewrite Ht, IH by lia. now rewrite app_assoc.
Qed.

Lemma record_workflows_app (a b : list json) :
  forall e m,
    Restore.record_workflows (a ++ b) e = Ok m ->
    exists m1, Restore.record_workflows a e = Ok m1 /\
               Restore.record_workflows b m1 = Ok m.
Proof.
  induction a as [| w a IH]; intros e m H; simpl in *.
  - eauto.
  - bind_inv H. bind_inv H. rewrite E, E0. simpl.
    destruct (truthy x && truthy x0).
    + bind_inv H. rewrite E1. simpl. auto.
    + auto.
Qed.

(** The restore script returns the empty map after a failure. *)
Lemma restore_listing (srv : server) n cursor (s : session srv) all ok s' :
  listing n cursor s all ok s' ->
  forall fuel e m, n <= fuel ->
    Restore.record_workflows all e = Ok m ->
    Restore.get_existing_workflows_loop srv fuel cursor e s
    = Some (Ok (if ok then m else []), s').
Proof.
  induction 1 as [cursor s s' Hs | cursor s s' data items next Hs Hi Hn Ht
                 | n cursor s s1 s' data items next rest ok Hs Hi Hn Ht Hl IH];
    intros fuel e m Hf Hr; (destruct fuel as [| fuel]; [lia |]);
    simpl; rewrite Hs.
  - reflexivity.
  - unfold page_items, page_next in *. bind_inv Hi.
    rewrite E. simpl. rewrite Hi. simpl. rewrite Hr. simpl. rewrite Hn. simpl.
    now rewrite Ht.
  - apply record_workflows_app in Hr as (m1 & Hr1 & Hr2).
    unfold page_items, page_next in *. bind_inv Hi.
    rewrite E. simpl. rewrite Hi. simpl. rewrite Hr1. simpl. rewrite Hn. simpl.
    rewrite Ht. apply IH; [lia | exact Hr2].
Qed.

(** *** A remote that answers from a script *)

(** The responses are served in order, whatever the request; when the script
    is used up every request fails. *)
Definition scripted : server :=
  {| World := list (option json);
     respond := fun _ w => match w with
                           | [] => (None, [])
                           | r :: rest => (r, rest)
                           end;
     strftime_now := fun _ => "20260112_111221" |}.

Definition start (script : list (option json)) : session scripted :=
  Build_session scripted script [].

Definition wf_alpha : json := JObj [("id", JStr "a1"); ("name", JStr "Alpha")].

(** Two pages; the request for the second one fails. *)
Definition second_page_fails : list (option json) :=
  [Some (JObj [("data", JArr [wf_alpha]); ("nextCursor", JStr "c2")]); None].

Definition after_two_requests : session scripted :=
  Build_session scripted []
    [GET_workflows None; GET_workflows (Some (JStr "c2"))].

(** C1. When the request for the second page fails, the one-file script
    and the restore script return the empty list and the empty map; the
    downloader leaves its loop through [break] and returns the first page. *)
Theorem failed_page_listing :
  Backup.get_all_workflows scripted 5 (start second_page_fails)
    = Some (Ok [], after_two_requests) /\
  Restore.get_existing_workflows scripted 5 (start second_page_fails)
    = Some (Ok [], after_two_requests) /\
  Downloader.get_all_workflows scripted 5 (start second_page_fails)
    = Some (Ok [wf_alpha], after_two_requests).
Proof. repeat split; reflexivity. Qed.

(** ** Properties of the restore script *)

Module Reconcile.
Import Restore.

(** *** The existence map *)

(** The name and the id of a listed entity, as [get_existing_workflows]
    reads them: a missing field counts as the empty string. *)
Definition entity_name (w : json) : json :=
  match w with
  | JObj m => match lookup "name" m with
              | Some v => v
              | None => JStr EmptyString
              end
  | _ => JNull
  end.

Definition entity_id (w : json) : json :=
  match w with
  | JObj m => match lookup "id" m with
              | Some v => v
              | None => JStr EmptyString
              end
  | _ => JNull
  end.

(** An entity of the listing: a dict whose name, when present, is a
    string. *)
Definition is_entity (w : json) : bool :=
  match w with
  | JObj m => match lookup "name" m with
              | None | Some (JStr _) => true
              | Some _ => false
              end
  | _ => false
  end.

(** The entity carries the name [n], and neither its name nor its id is
    empty or missing. *)
Definition listed (n : string) (w : json) : bool :=
  is_str (entity_name w) n && truthy (entity_name w) && truthy (entity_id w).

(** The id of the last entity of [all] listed under the name [n]. *)
Fixpoint last_id (n : string) (all : list json) : option json :=
  match all with
  | [] => None
  | w :: rest =>
      match last_id n rest with
      | Some v => Some v
      | None => if listed n w then Some (entity_id w) else None
      end
  end.

Definition key_norm (k : key) : key :=
  match k with
  | KBool b => KNum (if b then 1 else 0)
  | _ => k
  end.

Lemma key_eqb_norm (a b : key) :
  key_eqb a b = true <-> key_norm a = key_norm b.
Proof.
  destruct a as [| [] | x | s], b as [| [] | y | t];
    cbn [key_eqb key_num key_norm];
    rewrite ?Z.eqb_eq, ?String.eqb_eq;
    split; intro H; try reflexivity; try discriminate H;
    try (inversion H; subst; reflexivity); congruence.
Qed.

Lemma key_eqb_trans (a b c : key) :
  key_eqb a b = true -> key_eqb a c = key_eqb b c.
Proof.
  intro H. apply key_eqb_norm in H.
  destruct (key_eqb a c) eqn:E1, (key_eqb b c) eqn:E2; auto.
  - apply key_eqb_norm in E1. rewrite H in E1.
    apply key_eqb_norm in E1. congruence.
  - apply key_eqb_norm in E2. rewrite <- H in E2.
    apply key_eqb_norm in E2. congruence.
Qed.

Lemma existing_get_set (k k' : key) (v : json) (e : existence) :
  existing_get k (existing_set k' v e) =
  if key_eqb k' k then v else existing_get k e.
Proof.
  induction e as [| [k2 v2] rest IH]; simpl.
  - reflexivity.
  - destruct (key_eqb k2 k') eqn:E; simpl.
    + rewrite (key_eqb_trans k2 k' k E).
      destruct (key_eqb k' k); reflexivity.
    + rewrite IH. destruct (key_eqb k' k) eqn:E1; [| reflexivity].
      destruct (key_eqb k2 k) eqn:E2; [| reflexivity].
      apply key_eqb_norm in E1, E2.
      assert (key_eqb k2 k' = true) by (apply key_eqb_norm; congruence).
      congruence.
Qed.

Lemma is_entity_name (w : json) :
  is_entity w = true ->
  exists fields s, w = JObj fields /\ entity_name w = JStr s.
Proof.
  destruct w as [| | | | | fields]; try discriminate. simpl.
  destruct (lookup "name" fields) as [[| | | s | |] |]; try discriminate;
    eauto.
Qed.

(** One turn of the loop over the entities of a page. *)
Lemma record_workflows_cons (w : json) (s : string) (rest : list json)
  (e : existence) :
  is_entity w = true -> entity_name w = JStr s ->
  record_workflows (w :: rest) e =
  record_workflows rest
    (if truthy (JStr s) && truthy (entity_id w)
     then existing_set (KStr s) (entity_id w) e else e).
Proof.
  destruct w as [| | | | | fields]; try discriminate.
  cbn [record_workflows py_get entity_name entity_id is_entity].
  intros _ Hs.
  destruct (lookup "name" fields) as [nm |]; cbn [bind];
    destruct (lookup "id" fields) as [wid |]; cbn [bind];
    rewrite Hs; destruct (truthy (JStr s) && truthy _); reflexivity.
Qed.

(** What the loop over the entities leaves in the map, read through
    [existing.get]. *)
Lemma record_workflows_get (all : list json) :
  forall e, forallb is_entity all = true ->
    exists m, record_workflows all e = Ok m /\
      forall k, existing_get k m =
        match k with
        | KStr n => match last_id n all with
                    | Some v => v
                    | None => existing_get k e
                    end
        | _ => existing_get k e
        end.
Proof.
  induction all as [| w rest IH]; intros e Hall.
  - exists e. split; [reflexivity |]. intros [| | |]; reflexivity.
  - cbn [forallb] in Hall. apply andb_true_iff in Hall as [Hw Hrest].
    destruct (is_entity_name w Hw) as (fields & s & -> & Hs).
    rewrite (record_workflows_cons _ s rest e Hw Hs).
    destruct (truthy (JStr s) && truthy (entity_id (JObj fields))) eqn:T.
    + destruct (IH (existing_set (KStr s) (entity_id (JObj fields)) e) Hrest)
        as (m & Hr & Hm).
      exists m. split; [exact Hr |]. intro k. rewrite Hm, existing_get_set.
      destruct k as [| | | n]; try reflexivity.
      cbn [last_id key_eqb]. destruct (last_id n rest); [reflexivity |].
      unfold listed. rewrite Hs. cbn [is_str].
      rewrite <- andb_assoc, T, andb_true_r.
      destruct (String.eqb s n); reflexivity.
    + destruct (IH e Hrest) as (m & Hr & Hm).
      exists m. split; [exact Hr |]. intro k. rewrite Hm.
      destruct k as [| | | n]; try reflexivity.
      cbn [last_id]. destruct (last_id n rest); [reflexivity |].
      unfold listed. rewrite Hs.
      rewrite <- andb_assoc, T, andb_false_r. reflexivity.
Qed.

(** C10. After a listing that succeeds, the existence map answers a name
    with the id of the last listed entity that carries it; an entity whose
    name or id is empty or missing is under no key. *)
Theorem existence_map_keeps_last (srv : server) (n fuel : nat)
  (s s' : session srv) (all : list json) :
  listing n None s all true s' -> n <= fuel ->
  forallb is_entity all = true ->
  exists existing,
    get_existing_workflows srv fuel s = Some (Ok existing, s') /\
    forall k, existing_get k existing =
      match k with
      | KStr name => match last_id name all with
                     | Some wf_id => wf_id
                     | None => JNull
                     end
      | _ => JNull
      end.
Proof.
  intros Hl Hf Hall.
  destruct (record_workflows_get all [] Hall) as (m & Hr & Hm).
  exists m. split.
  - unfold get_existing_workflows.
    now rewrite (restore_listing srv n None s all true s' Hl fuel [] m Hf Hr).
  - intro k. rewrite Hm. destruct k; reflexivity.
Qed.


(** *** One snapshot file *)

(** The entity definition of a snapshot file: the [workflow] field of the
    envelope when there is one, else the whole file. *)
Definition payload (backup_data : json) : option json :=
  match backup_data with
  | JObj top => match lookup "workflow" top with
                | Some workflow_data => Some workflow_data
                | None => Some backup_data
                end
  | _ => None
  end.

(** The name of a payload as a key of the existence map. *)
Definition name_key (items : list (string * json)) : outcome key :=
  as_key (match lookup "name" items with
          | Some v => v
          | None => JStr "Unnamed"
          end).

(** No key of the map equals [k]. *)
Definition absent (k : key) (existing : existence) : bool :=
  forallb (fun kv => negb (key_eqb (fst kv) k)) existing.

(** The fields the creation endpoint accepts. *)
Definition accepted (kv : string * json) : bool :=
  existsb (String.eqb (fst kv)) ["name"; "nodes"; "connections"].

(** The body of a creation request for a payload. *)
Definition creation_body (items : list (string * json)) : json :=
  JObj (filter accepted items ++ [("settings", JObj [])]).

Definition error_result (f : backup_file) : restore_result :=
  {| file := name f; status := "error"; action := Some "exception";
     workflow_id := JNull |}.

Definition failed_result (f : backup_file) : restore_result :=
  {| file := name f; status := "failed"; action := Some "create_failed";
     workflow_id := JNull |}.

Lemma load_workflow_payload (f : backup_file) backup_data items k :
  load f = Ok backup_data -> payload backup_data = Some (JObj items) ->
  name_key items = Ok k ->
  load_workflow f = Ok (JObj items, k).
Proof.
  unfold load_workflow, name_key. intros Hl Hp Hk. rewrite Hl. cbn [bind].
  destruct backup_data as [| | | | | top]; try discriminate.
  cbn [py_in payload] in *.
  destruct (lookup "workflow" top) as [wd |] eqn:L; cbn [bind].
  - cbn [py_getitem]. rewrite L. cbn [bind]. inversion Hp; subst.
    cbn [py_get]. destruct (lookup "name" items); cbn [bind];
      rewrite Hk; reflexivity.
  - inversion Hp; subst.
    cbn [py_get]. destruct (lookup "name" items); cbn [bind];
      rewrite Hk; reflexivity.
Qed.

Lemma absent_get (k : key) (existing : existence) :
  absent k existing = true -> existing_get k existing = JNull.
Proof.
  unfold absent. induction existing as [| [k' v] rest IH]; simpl; auto.
  intro H. apply andb_true_iff in H as [Hk Hr].
  apply negb_true_iff in Hk. rewrite Hk. auto.
Qed.

Lemma dict_set_fresh {V : Type} (k : string) (v : V) m :
  lookup k m = None -> dict_set k v m = m ++ [(k, v)].
Proof.
  induction m as [| [k' v'] rest IH]; simpl; auto.
  destruct (String.eqb k' k); [discriminate |].
  intro H. now rewrite IH.
Qed.

Lemma accepted_no_settings (items : list (string * json)) :
  lookup "settings" (filter accepted items) = None.
Proof.
  induction items as [| [a v] rest IH]; simpl; auto.
  destruct (accepted (a, v)) eqn:E; auto. simpl.
  destruct (String.eqb_spec a "settings") as [-> | _]; [discriminate | auto].
Qed.

Lemma clean_workflow_for_api_body (items : list (string * json)) :
  clean_workflow_for_api (JObj items) = Ok (creation_body items).
Proof.
  unfold clean_workflow_for_api, creation_body.
  change (filter _ items) with (filter accepted items).
  now rewrite dict_set_fresh by apply accepted_no_settings.
Qed.

(** The body holds the accepted fields of the payload and the empty
    settings, nothing else. *)
Lemma creation_body_fields (items : list (string * json)) k v :
  In (k, v) (filter accepted items ++ [("settings", JObj [])]) <->
  (In k ["name"; "nodes"; "connections"] /\ In (k, v) items) \/
  (k, v) = ("settings", JObj []).
Proof.
  rewrite in_app_iff, filter_In. unfold accepted. simpl.
  rewrite !orb_true_iff, !String.eqb_eq.
  intuition (try discriminate; subst; auto).
Qed.

Section Reconciled.
Variable srv : server.

Definition posted (body : json) (s : session srv) : session srv :=
  {| remote := snd (respond srv (POST_workflow body) (remote s));
     sent := sent s ++ [POST_workflow body] |}.

Lemma create_workflow_eq (items : list (string * json)) (s : session srv) :
  create_workflow srv (JObj items) s =
  (match fst (respond srv (POST_workflow (creation_body items)) (remote s)) with
   | None => Ok JNull
   | Some result => py_get result "id" JNull
   end, posted (creation_body items) s).
Proof.
  unfold create_workflow, posted, send.
  rewrite clean_workflow_for_api_body.
  destruct (respond srv (POST_workflow (creation_body items)) (remote s))
    as [[result |] w]; reflexivity.
Qed.

(** What the creating branches record for a response to the creation
    request. *)
Definition creation_result (f : backup_file) (action : string)
  (response : option json) : restore_result :=
  match response with
  | None => failed_result f
  | Some (JObj fields) =>
      match lookup "id" fields with
      | Some new_id =>
          if truthy new_id
          then {| file := name f; status := "success"; action := Some action;
                  workflow_id := new_id |}
          else failed_result f
      | None => failed_result f
      end
  | Some _ => error_result f
  end.

Lemma restore_workflow_creates (f : backup_file) existing mode s items k :
  load_workflow f = Ok (JObj items, k) ->
  truthy (existing_get k existing) = false ->
  restore_workflow srv f existing mode s =
  (creation_result f "created"
     (fst (respond srv (POST_workflow (creation_body items)) (remote s))),
   posted (creation_body items) s).
Proof.
  intros Hl Ha. unfold restore_workflow, restore_workflow_try, reconcile.
  rewrite Hl, Ha, create_workflow_eq.
  destruct (fst (respond srv (POST_workflow (creation_body items)) (remote s)))
    as [[| | | | | fields] |]; try reflexivity.
  cbn [py_get creation_result]. destruct (lookup "id" fields) as [i |].
  - unfold created_result. destruct (truthy i); reflexivity.
  - reflexivity.
Qed.

Lemma restore_workflow_renames (f : backup_file) existing s items k :
  load_workflow f = Ok (JObj items, k) ->
  truthy (existing_get k existing) = true ->
  let new_name := (key_str k ++ " (restored "
                   ++ strftime_now srv (remote s) ++ ")")%string in
  let renamed := dict_set "name" (JStr new_name) items in
  restore_workflow srv f existing "rename" s =
  (creation_result f "created_renamed"
     (fst (respond srv (POST_workflow (creation_body renamed)) (remote s))),
   posted (creation_body renamed) s).
Proof.
  intros Hl Ha new_name renamed.
  unfold restore_workflow, restore_workflow_try, reconcile.
  rewrite Hl, Ha. cbn [String.eqb Ascii.eqb Bool.eqb py_setitem].
  fold new_name. fold renamed. rewrite create_workflow_eq.
  destruct (fst (respond srv (POST_workflow (creation_body renamed))
                   (remote s)))
    as [[| | | | | fields] |]; try reflexivity.
  cbn [py_get creation_result]. destruct (lookup "id" fields) as [i |].
  - unfold created_result. destruct (truthy i); reflexivity.
  - reflexivity.
Qed.

End Reconciled.

Lemma lookup_name_accepted (m : list (string * json)) :
  lookup "name" (filter accepted m) = lookup "name" m.
Proof.
  induction m as [| [a v] rest IH]; cbn [filter lookup]; auto.
  destruct (String.eqb_spec a "name") as [-> | Hn].
  - reflexivity.
  - destruct (accepted (a, v)); cbn [lookup]; auto.
    destruct (String.eqb_spec a "name"); [contradiction | auto].
Qed.

Lemma lookup_app_some {V : Type} (k : string) (m1 m2 : list (string * V)) v :
  lookup k m1 = Some v -> lookup k (m1 ++ m2) = Some v.
Proof.
  induction m1 as [| [a w] rest IH]; simpl; [discriminate |].
  destruct (String.eqb a k); auto.
Qed.

Lemma creation_body_name (items : list (string * json)) (new_name : string) :
  py_get (creation_body (dict_set "name" (JStr new_name) items)) "name" JNull
  = Ok (JStr new_name).
Proof.
  unfold creation_body. cbn [py_get].
  rewrite (lookup_app_some _ _ _ (JStr new_name)); [reflexivity |].
  rewrite lookup_name_accepted. apply Organizer.lookup_dict_set_same.
Qed.

(** C6. A payload whose name is under no key of the existence map is
    created: the one request sent is a creation whose body holds the fields
    [name], [nodes] and [connections] of the payload and an empty settings
    object.  An id in the response is recorded as [created]; a request that
    fails, or a response without an id, as [create_failed]. *)
Theorem create_when_absent (srv : server) (f : backup_file)
  (existing : existence) (mode : string) (s : session srv)
  (backup_data : json) (items : list (string * json)) (k : key) :
  load f = Ok backup_data ->
  payload backup_data = Some (JObj items) ->
  name_key items = Ok k ->
  absent k existing = true ->
  let fields := filter accepted items ++ [("settings", JObj [])] in
  let answer := respond srv (POST_workflow (JObj fields)) (remote s) in
  (forall a v, In (a, v) fields <->
     (In a ["name"; "nodes"; "connections"] /\ In (a, v) items) \/
     (a, v) = ("settings", JObj [])) /\
  sent (snd (restore_workflow srv f existing mode s))
    = sent s ++ [POST_workflow (JObj fields)] /\
  remote (snd (restore_workflow srv f existing mode s)) = snd answer /\
  fst (restore_workflow srv f existing mode s) =
    match fst answer with
    | None => failed_result f
    | Some (JObj response) =>
        match lookup "id" response with
        | Some new_id =>
            if truthy new_id
            then {| file := name f; status := "success";
                    action := Some "created"; workflow_id := new_id |}
            else failed_result f
        | None => failed_result f
        end
    | Some _ => error_result f
    end.
Proof.
  intros Hl Hp Hk Ha fields answer.
  pose proof (load_workflow_payload f backup_data items k Hl Hp Hk) as Hw.
  pose proof (absent_get k existing Ha) as Hg.
  rewrite (restore_workflow_creates srv f existing mode s items k Hw)
    by now rewrite Hg.
  split; [apply creation_body_fields |].
  repeat split.
Qed.

(** C7. Under the mode [rename] a payload whose name is in the existence
    map is renamed and created: the one request sent is the creation of the
    payload under its name followed by [(restored <timestamp>)]; no update
    goes to the existing id.  On a remote where a creation keeps the
    entities it holds and adds the posted one, a successful run leaves the
    entities of before and one with the new name. *)
Theorem rename_never_overwrites (srv : server)
  (entities : World srv -> list json) (f : backup_file)
  (existing : existence) (s : session srv) (backup_data : json)
  (items : list (string * json)) (k : key) :
  (forall body w response w',
     respond srv (POST_workflow body) w = (Some response, w') ->
     (forall e, In e (entities w) -> In e (entities w')) /\
     exists e, In e (entities w') /\
               py_get e "name" JNull = py_get body "name" JNull) ->
  load f = Ok backup_data ->
  payload backup_data = Some (JObj items) ->
  name_key items = Ok k ->
  truthy (existing_get k existing) = true ->
  let new_name := (key_str k ++ " (restored "
                   ++ strftime_now srv (remote s) ++ ")")%string in
  let renamed := dict_set "name" (JStr new_name) items in
  let fields := filter accepted renamed ++ [("settings", JObj [])] in
  let result := fst (restore_workflow srv f existing "rename" s) in
  let s' := snd (restore_workflow srv f existing "rename" s) in
  sent s' = sent s ++ [POST_workflow (JObj fields)] /\
  py_get (JObj fields) "name" JNull = Ok (JStr new_name) /\
  restore_workflow srv f existing "rename" s =
    (match create_workflow srv (JObj renamed) s with
     | (Ok new_id, s1) => (created_result f "created_renamed" new_id, s1)
     | (Raise _, s1) => (error_result f, s1)
     end) /\
  (status result = "success" ->
   action result = Some "created_renamed" /\
   truthy (workflow_id result) = true /\
   (forall e, In e (entities (remote s)) -> In e (entities (remote s'))) /\
   exists e, In e (entities (remote s')) /\
             py_get e "name" JNull = Ok (JStr new_name)).
Proof.
  intros Hremote Hl Hp Hk Hfound new_name renamed fields result s'.
  pose proof (load_workflow_payload f backup_data items k Hl Hp Hk) as Hw.
  pose proof (restore_workflow_renames srv f existing s items k Hw Hfound)
    as Hr.
  cbv zeta in Hr. fold new_name in Hr. fold renamed in Hr.
  change (JObj fields) with (creation_body renamed).
  subst result s'. rewrite Hr. cbn [fst snd].
  split; [reflexivity |]. split; [apply creation_body_name |]. split.
  - rewrite create_workflow_eq.
    destruct (fst (respond srv (POST_workflow (creation_body renamed))
                     (remote s)))
      as [[| | | | | response] |]; try reflexivity.
    cbn [py_get creation_result]. destruct (lookup "id" response) as [i |].
    + unfold created_result. destruct (truthy i); reflexivity.
    + reflexivity.
  - unfold posted. cbn [remote].
    destruct (respond srv (POST_workflow (creation_body renamed)) (remote s))
      as [[response |] w'] eqn:E; cbn [fst snd creation_result];
      [| discriminate].
    destruct response as [| | | | | response]; try discriminate.
    destruct (lookup "id" response) as [i |]; [| discriminate].
    destruct (truthy i) eqn:T; [| discriminate].
    intros _. cbn [action workflow_id].
    destruct (Hremote _ _ _ _ E) as (Hkeep & e & He & Hname).
    split; [reflexivity |]. split; [exact T |]. split; [exact Hkeep |].
    exists e. split; [exact He |]. rewrite Hname. apply creation_body_name.
Qed.

(** *** The batch *)

Definition count (p : restore_result -> bool) (l : list restore_result) : nat :=
  List.length (filter p l).

Definition is_created (r : restore_result) : bool :=
  action_is (action r) "created" || action_is (action r) "created_renamed".

Definition is_updated (r : restore_result) : bool :=
  action_is (action r) "updated" && String.eqb (status r) "success".

Definition is_skipped (r : restore_result) : bool :=
  String.eqb (status r) "skipped".

Definition is_failed (r : restore_result) : bool :=
  String.eqb (status r) "failed" || String.eqb (status r) "error".

(** The counters agree with the results. *)
Definition tallied (stats : restore_stats) : Prop :=
  created stats = count is_created (results stats) /\
  updated stats = count is_updated (results stats) /\
  skipped stats = count is_skipped (results stats) /\
  failed stats = count is_failed (results stats).

(** A creating action is only recorded with the status [success]. *)
Definition consistent (r : restore_result) : bool :=
  implb (is_created r) (String.eqb (status r) "success").

Lemma count_snoc (p : restore_result -> bool) l r :
  count p (l ++ [r]) = count p l + (if p r then 1 else 0).
Proof.
  unfold count. rewrite filter_app, length_app. simpl.
  destruct (p r); reflexivity.
Qed.

Lemma results_count_result (stats : restore_stats) (r : restore_result) :
  results (count_result stats r) = results stats ++ [r].
Proof.
  unfold count_result.
  repeat match goal with
         | |- context [if ?b then _ else _] => destruct b
         end; reflexivity.
Qed.

Lemma total_count_result (stats : restore_stats) (r : restore_result) :
  total (count_result stats r) = total stats.
Proof.
  unfold count_result.
  repeat match goal with
         | |- context [if ?b then _ else _] => destruct b
         end; reflexivity.
Qed.

Lemma eqb_excl (s x y : string) :
  x <> y -> String.eqb s x = true -> String.eqb s y = false.
Proof.
  intros Hxy Hx. apply String.eqb_eq in Hx. subst.
  now apply String.eqb_neq.
Qed.

Lemma action_excl (a : option string) (x y : string) :
  x <> y -> action_is a x = true -> action_is a y = false.
Proof. destruct a; simpl; [apply eqb_excl | discriminate]. Qed.

Lemma count_result_tallied (stats : restore_stats) (r : restore_result) :
  tallied stats -> consistent r = true -> tallied (count_result stats r).
Proof.
  unfold tallied. intros (Hc & Hu & Hs & Hf) Hr.
  rewrite results_count_result, !count_snoc.
  unfold consistent, is_created, is_updated, is_skipped, is_failed in *.
  unfold count_result.
  pose proof (eqb_excl (status r) "success" "skipped") as S1.
  pose proof (eqb_excl (status r) "success" "failed") as S2.
  pose proof (eqb_excl (status r) "success" "error") as S3.
  pose proof (eqb_excl (status r) "skipped" "failed") as S4.
  pose proof (eqb_excl (status r) "skipped" "error") as S5.
  pose proof (action_excl (action r) "created" "updated") as A1.
  pose proof (action_excl (action r) "created_renamed" "updated") as A2.
  destruct (String.eqb (status r) "success");
    destruct (String.eqb (status r) "skipped");
    try (specialize (S1 ltac:(discriminate) eq_refl); discriminate S1);
    destruct (String.eqb (status r) "failed");
    try (specialize (S2 ltac:(discriminate) eq_refl); discriminate S2);
    try (specialize (S4 ltac:(discriminate) eq_refl); discriminate S4);
    destruct (String.eqb (status r) "error");
    try (specialize (S3 ltac:(discriminate) eq_refl); discriminate S3);
    try (specialize (S5 ltac:(discriminate) eq_refl); discriminate S5);
    destruct (action_is (action r) "created");
    destruct (action_is (action r) "created_renamed");
    try discriminate Hr;
    destruct (action_is (action r) "updated");
    try (specialize (A1 ltac:(discriminate) eq_refl); discriminate A1);
    try (specialize (A2 ltac:(discriminate) eq_refl); discriminate A2);
    cbn [orb andb created updated skipped failed results];
    repeat split; lia.
Qed.

Section Batch.
Variable srv : server.

Lemma created_result_shape (f : backup_file) (a : string) (new_id : json) :
  a = "created" \/ a = "created_renamed" ->
  file (created_result f a new_id) = name f /\
  consistent (created_result f a new_id) = true.
Proof.
  unfold created_result.
  intros [-> | ->]; destruct (truthy new_id); split; reflexivity.
Qed.

Lemma reconcile_shape (f : backup_file) existing mode wd k (s : session srv) :
  match fst (reconcile srv f existing mode wd k s) with
  | Ok r => file r = name f /\ consistent r = true
  | Raise _ => True
  end.
Proof.
  unfold reconcile. destruct (truthy (existing_get k existing)).
  - destruct (String.eqb mode "skip"); [split; reflexivity |].
    destruct (String.eqb mode "update").
    + unfold update_workflow.
      destruct (send (PUT_workflow (existing_get k existing) wd) s)
        as [[response |] s1]; split; reflexivity.
    + destruct (String.eqb mode "rename"); [| split; reflexivity].
      destruct (py_setitem wd "name" _) as [wd' | e]; [| exact I].
      destruct (create_workflow srv wd' s) as [[new_id | e] s1]; [| exact I].
      apply created_result_shape. now right.
  - destruct (create_workflow srv wd s) as [[new_id | e] s1]; [| exact I].
    apply created_result_shape. now left.
Qed.

Lemma restore_workflow_shape (f : backup_file) existing mode
  (s : session srv) :
  file (fst (restore_workflow srv f existing mode s)) = name f /\
  consistent (fst (restore_workflow srv f existing mode s)) = true.
Proof.
  unfold restore_workflow, restore_workflow_try.
  destruct (load_workflow f) as [[wd k] | e]; [| split; reflexivity].
  pose proof (reconcile_shape f existing mode wd k s) as H.
  destruct (reconcile srv f existing mode wd k s) as [[r | e] s1];
    [exact H | split; reflexivity].
Qed.

Lemma restore_workflow_file (f : backup_file) existing mode (s : session srv) :
  file (fst (restore_workflow srv f existing mode s)) = name f.
Proof. apply restore_workflow_shape. Qed.

Lemma restore_workflow_consistent (f : backup_file) existing mode
  (s : session srv) :
  consistent (fst (restore_workflow srv f existing mode s)) = true.
Proof. apply restore_workflow_shape. Qed.

(** Whatever the body of the [try] raises becomes the result of the file. *)
Lemma restore_workflow_catches (f : backup_file) existing mode
  (s s1 : session srv) (e : exn) :
  restore_workflow_try srv f existing mode s = (Raise e, s1) ->
  restore_workflow srv f existing mode s = (error_result f, s1).
Proof. unfold restore_workflow. now intros ->. Qed.

Lemma restore_workflow_unreadable (f : backup_file) existing mode
  (s : session srv) (e : exn) :
  load f = Raise e ->
  restore_workflow srv f existing mode s = (error_result f, s).
Proof.
  intro H. apply (restore_workflow_catches _ _ _ _ _ e).
  unfold restore_workflow_try, load_workflow. now rewrite H.
Qed.

(** The loop gives every file its result, in order, whatever the files
    hold. *)
Lemma restore_loop_spec (files : list backup_file) existing mode :
  forall stats (s : session srv),
    tallied stats ->
    let final := fst (restore_loop srv files existing mode stats s) in
    tallied final /\
    total final = total stats /\
    map file (results final) = map file (results stats) ++ map name files /\
    (forall r, In r (results stats) -> In r (results final)) /\
    (forall f e, In f files -> load f = Raise e ->
                 In (error_result f) (results final)).
Proof.
  induction files as [| f rest IH]; intros stats s Ht; cbn [restore_loop].
  - cbn [fst map]. rewrite app_nil_r.
    split; [exact Ht |]. split; [reflexivity |]. split; [reflexivity |].
    split; [auto | intros ? ? []].
  - destruct (restore_workflow srv f existing mode s) as [r s1] eqn:E.
    assert (Hr : r = fst (restore_workflow srv f existing mode s))
      by now rewrite E.
    assert (Hc : consistent r = true)
      by (rewrite Hr; apply restore_workflow_consistent).
    destruct (IH (count_result stats r) s1 (count_result_tallied _ _ Ht Hc))
      as (Ht' & Htot & Hmap & Hmono & Herr).
    cbv zeta. split; [exact Ht' |]. split.
    { now rewrite Htot, total_count_result. }
    split.
    { rewrite Hmap, results_count_result, map_app. cbn [map].
      rewrite <- app_assoc. cbn [app]. rewrite Hr, restore_workflow_file.
      reflexivity. }
    split.
    { intros r0 H0. apply Hmono. rewrite results_count_result.
      apply in_or_app. now left. }
    intros f0 e [<- | Hin] Hl.
    + apply Hmono. rewrite results_count_result. apply in_or_app. right.
      left. rewrite Hr, (restore_workflow_unreadable f existing mode s e Hl).
      reflexivity.
    + eapply Herr; eauto.
Qed.

Lemma restore_from_backup_spec (fuel : nat) (dir : list backup_file)
  (mode : string) (dry_run : bool) (s s' : session srv)
  (stats : restore_stats) :
  restore_from_backup srv fuel dir mode dry_run s = Some (Ok stats, s') ->
  tallied stats /\ total stats = List.length (find_backup_files dir).
Proof.
  unfold restore_from_backup. cbn [total].
  assert (T0 : tallied {| total := List.length (find_backup_files dir);
                          created := 0; updated := 0; skipped := 0;
                          failed := 0; results := [] |})
    by (repeat split).
  destruct (List.length (find_backup_files dir) =? 0)%nat.
  { intro H. inversion H; subst. split; [exact T0 | reflexivity]. }
  destruct dry_run.
  { intro H. inversion H; subst. split; [exact T0 | reflexivity]. }
  destruct (get_existing_workflows srv fuel s) as [[[existing | e] s1] |];
    try discriminate.
  destruct (restore_loop_spec (find_backup_files dir) existing mode _ s1 T0)
    as (Ht & Htot & _).
  destruct (restore_loop srv (find_backup_files dir) existing mode _ s1)
    as [final s2].
  intro H. inversion H; subst. cbn [fst] in *. auto.
Qed.

(** A dry run sends nothing and counts nothing. *)
Lemma dry_run_sends_nothing (fuel : nat) (dir : list backup_file)
  (mode : string) (s : session srv) :
  restore_from_backup srv fuel dir mode true s =
  Some (Ok {| total := List.length (find_backup_files dir); created := 0;
              updated := 0; skipped := 0; failed := 0; results := [] |}, s).
Proof.
  unfold restore_from_backup. cbn [total].
  destruct (List.length (find_backup_files dir) =? 0)%nat; reflexivity.
Qed.

End Batch.

(** C8. The counters of a run agree with its results: [created] counts the
    results whose action is [created] or [created_renamed], [updated] those
    updated with success, [skipped] those skipped, [failed] those whose
    status is [failed] or [error]. *)
Theorem tally_matches_results (srv : server) (fuel : nat)
  (backup_dir : list backup_file) (mode : string) (dry_run : bool)
  (s s' : session srv) (stats : restore_stats) :
  restore_from_backup srv fuel backup_dir mode dry_run s
    = Some (Ok stats, s') ->
  created stats =
    count (fun r => action_is (action r) "created"
                    || action_is (action r) "created_renamed")
          (results stats) /\
  updated stats =
    count (fun r => action_is (action r) "updated"
                    && String.eqb (status r) "success")
          (results stats) /\
  skipped stats =
    count (fun r => String.eqb (status r) "skipped") (results stats) /\
  failed stats =
    count (fun r => String.eqb (status r) "failed"
                    || String.eqb (status r) "error")
          (results stats).
Proof.
  intro H.
  destruct (restore_from_backup_spec srv fuel backup_dir mode dry_run s s'
              stats H) as (Ht & _).
  exact Ht.
Qed.


(** *** A run on three snapshot files *)

Definition deploy : json :=
  JObj [("id", JStr "9"); ("name", JStr "Deploy"); ("active", JBool true);
        ("nodes", JArr [JObj [("type", JStr "webhook")]]);
        ("connections", JObj []);
        ("settings", JObj [("timezone", JStr "UTC")])].

Definition invoice : list (string * json) :=
  [("name", JStr "Invoice Sync"); ("nodes", JArr []); ("connections", JObj [])].

Definition deploy_file : backup_file :=
  {| path := ["Acme"; "prod"; "Deploy.json"]; load := Ok deploy |}.

Definition broken_file : backup_file :=
  {| path := ["Acme"; "broken.json"]; load := Raise ValueError |}.

Definition invoice_envelope : json :=
  JObj [("metadata", JObj [("workflow_id", JStr "77")]);
        ("workflow", JObj invoice)].

Definition invoice_file : backup_file :=
  {| path := ["Acme"; "No Tag"; "Invoice Sync_77.json"];
     load := Ok invoice_envelope |}.

Definition snapshot : list backup_file :=
  [ {| path := ["index.json"]; load := Ok (JObj []) |};
    deploy_file;
    {| path := ["README.md"]; load := Raise ValueError |};
    broken_file;
    invoice_file ].

Example snapshot_files :
  find_backup_files snapshot = [invoice_file; broken_file; deploy_file].
Proof. reflexivity. Qed.

(** The remote lists the name [Invoice Sync] twice, on two pages, and an
    entity without an id. *)
Definition first_page : json :=
  JObj [("data", JArr [JObj [("id", JStr "70"); ("name", JStr "Invoice Sync")];
                       JObj [("id", JStr EmptyString); ("name", JStr "Ghost")]]);
        ("nextCursor", JStr "c2")].

Definition second_page : json :=
  JObj [("data", JArr [JObj [("id", JStr "77");
                             ("name", JStr "Invoice Sync")]])].

Definition listed_entities : list json :=
  [JObj [("id", JStr "70"); ("name", JStr "Invoice Sync")];
   JObj [("id", JStr EmptyString); ("name", JStr "Ghost")];
   JObj [("id", JStr "77"); ("name", JStr "Invoice Sync")]].

Definition two_pages : list (option json) := [Some first_page; Some second_page].

Definition two_creations : list (option json) :=
  two_pages ++ [Some (JObj [("id", JStr "n1")]); Some (JObj [("id", JStr "n2")])].

Definition after_listing (rest : list (option json)) : session scripted :=
  Build_session scripted rest
    [GET_workflows None; GET_workflows (Some (JStr "c2"))].

Definition remote_names : existence := [(KStr "Invoice Sync", JStr "77")].

Lemma two_pages_listing :
  listing 2 None (start two_pages) listed_entities true (after_listing []).
Proof.
  apply (listing_more 1 None (start two_pages)
           (Build_session scripted [Some second_page] [GET_workflows None])
           (after_listing []) first_page
           [JObj [("id", JStr "70"); ("name", JStr "Invoice Sync")];
            JObj [("id", JStr EmptyString); ("name", JStr "Ghost")]]
           (JStr "c2")
           [JObj [("id", JStr "77"); ("name", JStr "Invoice Sync")]] true);
    try reflexivity.
  apply (listing_last (Some (JStr "c2")) _ _ second_page _ JNull);
    reflexivity.
Defined.

Lemma existence_map_keeps_last_witness :
  exists existing,
    get_existing_workflows scripted 4 (start two_pages)
      = Some (Ok existing, after_listing []) /\
    existing_get (KStr "Invoice Sync") existing = JStr "77" /\
    existing_get (KStr "Ghost") existing = JNull.
Proof.
  destruct (existence_map_keeps_last scripted 2 4 (start two_pages)
              (after_listing []) listed_entities)
    as (existing & Hrun & Hget);
    [exact two_pages_listing | repeat constructor | reflexivity |].
  exists existing. split; [exact Hrun |].
  split; rewrite Hget; reflexivity.
Defined.

Definition deploy_body : json :=
  JObj [("name", JStr "Deploy");
        ("nodes", JArr [JObj [("type", JStr "webhook")]]);
        ("connections", JObj []); ("settings", JObj [])].

Lemma create_when_absent_witness :
  absent (KStr "Deploy") remote_names = true /\
  sent (snd (restore_workflow scripted deploy_file remote_names "skip"
               (start [Some (JObj [("id", JStr "n1")])])))
    = [POST_workflow deploy_body] /\
  fst (restore_workflow scripted deploy_file remote_names "skip"
         (start [Some (JObj [("id", JStr "n1")])]))
    = {| file := "Deploy.json"; status := "success";
         action := Some "created"; workflow_id := JStr "n1" |}.
Proof.
  split; [reflexivity |].
  destruct (create_when_absent scripted deploy_file remote_names "skip"
              (start [Some (JObj [("id", JStr "n1")])]) deploy
              [("id", JStr "9"); ("name", JStr "Deploy");
               ("active", JBool true);
               ("nodes", JArr [JObj [("type", JStr "webhook")]]);
               ("connections", JObj []);
               ("settings", JObj [("timezone", JStr "UTC")])]
              (KStr "Deploy"))
    as (_ & Hsent & _ & Hresult); try reflexivity.
  split; [exact Hsent | exact Hresult].
Defined.

(** A remote that keeps what is posted to it: the world is the list of its
    entities, and a creation appends the posted fields under a new id. *)
Definition keeping : server :=
  {| World := list json;
     respond := fun r w =>
       match r with
       | GET_workflows _ => (Some (JObj [("data", JArr w)]), w)
       | POST_workflow (JObj items) =>
           let e :=
             JObj (("id", JStr (String "n" (NilZero.string_of_uint
                                              (Nat.to_uint (List.length w)))))
                   :: items) in
           (Some e, w ++ [e])
       | POST_workflow _ => (None, w)
       | PUT_workflow _ _ => (None, w)
       end;
     strftime_now := fun _ => "20260112_111221" |}.

Lemma keeping_keeps body (w : World keeping) response w' :
  respond keeping (POST_workflow body) w = (Some response, w') ->
  (forall e, In e w -> In e w') /\
  exists e, In e w' /\ py_get e "name" JNull = py_get body "name" JNull.
Proof.
  destruct body as [| | | | | items]; try discriminate.
  cbn [respond keeping]. intro H. inversion H; subst. split.
  - intros e He. apply in_or_app. now left.
  - eexists. split; [apply in_or_app; right; left; reflexivity |].
    reflexivity.
Defined.

Definition invoice_remote : json :=
  JObj [("id", JStr "77"); ("name", JStr "Invoice Sync");
        ("nodes", JArr [JObj [("type", JStr "cron")]])].

Lemma rename_never_overwrites_witness :
  truthy (existing_get (KStr "Invoice Sync") remote_names) = true /\
  sent (snd (restore_workflow keeping invoice_file remote_names "rename"
               (Build_session keeping [invoice_remote] [])))
    = [POST_workflow
         (JObj [("name", JStr "Invoice Sync (restored 20260112_111221)");
                ("nodes", JArr []); ("connections", JObj []);
                ("settings", JObj [])])] /\
  In invoice_remote
     (remote (snd (restore_workflow keeping invoice_file remote_names "rename"
                     (Build_session keeping [invoice_remote] [])))) /\
  exists e,
    In e (remote (snd (restore_workflow keeping invoice_file remote_names
                         "rename"
                         (Build_session keeping [invoice_remote] [])))) /\
    py_get e "name" JNull
      = Ok (JStr "Invoice Sync (restored 20260112_111221)").
Proof.
  split; [reflexivity |].
  destruct (rename_never_overwrites keeping (fun w => w) invoice_file
              remote_names (Build_session keeping [invoice_remote] [])
              invoice_envelope invoice (KStr "Invoice Sync")
              keeping_keeps eq_refl eq_refl eq_refl eq_refl)
    as (Hsent & _ & _ & Hsuccess).
  split; [exact Hsent |].
  destruct (Hsuccess eq_refl) as (_ & _ & Hkeep & Hnew).
  split; [apply Hkeep; simpl; auto | exact Hnew].
Defined.

(** The name is on the remote and the mode is [update]: one update, no
    creation. *)
Example update_run :
  restore_from_backup scripted 4 [invoice_file] "update" false
                      (start (two_pages ++ [Some (JObj [])]))
  = Some (Ok {| total := 1; created := 0; updated := 1; skipped := 0;
                failed := 0;
                results := [{| file := "Invoice Sync_77.json";
                               status := "success";
                               action := Some "updated";
                               workflow_id := JStr "77" |}] |},
          Build_session scripted []
            [GET_workflows None; GET_workflows (Some (JStr "c2"));
             PUT_workflow (JStr "77") (JObj invoice)]).
Proof. reflexivity. Qed.

Definition rename_stats : restore_stats :=
  {| total := 3; created := 2; updated := 0; skipped := 0; failed := 1;
     results :=
       [{| file := "Invoice Sync_77.json"; status := "success";
           action := Some "created_renamed"; workflow_id := JStr "n1" |};
        {| file := "broken.json"; status := "error";
           action := Some "exception"; workflow_id := JNull |};
        {| file := "Deploy.json"; status := "success";
           action := Some "created"; workflow_id := JStr "n2" |}] |}.

Definition rename_requests : list request :=
  [GET_workflows None; GET_workflows (Some (JStr "c2"));
   POST_workflow
     (JObj [("name", JStr "Invoice Sync (restored 20260112_111221)");
            ("nodes", JArr []); ("connections", JObj []);
            ("settings", JObj [])]);
   POST_workflow deploy_body].

Example rename_run :
  restore_from_backup scripted 4 snapshot "rename" false (start two_creations)
  = Some (Ok rename_stats, Build_session scripted [] rename_requests).
Proof. reflexivity. Qed.

Lemma tally_matches_results_witness :
  restore_from_backup scripted 4 snapshot "rename" false (start two_creations)
    = Some (Ok rename_stats, Build_session scripted [] rename_requests) /\
  created rename_stats = 2 /\
  count (fun r => action_is (action r) "created"
                  || action_is (action r) "created_renamed")
        (results rename_stats) = 2 /\
  failed rename_stats =
    count (fun r => String.eqb (status r) "failed"
                    || String.eqb (status r) "error")
          (results rename_stats).
Proof.
  split; [reflexivity |]. split; [reflexivity |].
  destruct (tally_matches_results scripted 4 snapshot "rename" false
              (start two_creations) (Build_session scripted [] rename_requests)
              rename_stats eq_refl)
    as (Hc & _ & _ & Hf).
  split; [now rewrite <- Hc | exact Hf].
Defined.


End Reconcile.

(** * Further properties *)

(** ** File names *)

Module Names.
Import Sanitize.

Lemma fix_char_space (c : ascii) : is_space (fix_char c) = is_space c.
Proof. destruct c as [[] [] [] [] [] [] [] []]; vm_compute; reflexivity. Qed.

Lemma lstrip_smap (s : string) :
  lstrip (smap fix_char s) = smap fix_char (lstrip s).
Proof.
  induction s as [| c rest IH]; simpl; auto.
  rewrite fix_char_space. destruct (is_space c); auto.
Qed.

Lemma rstrip_smap (s : string) :
  rstrip (smap fix_char s) = smap fix_char (rstrip s).
Proof.
  induction s as [| c rest IH]; simpl; auto.
  rewrite IH, fix_char_space.
  destruct (rstrip rest); simpl; auto. destruct (is_space c); auto.
Qed.

Lemma smap_length (f : ascii -> ascii) (s : string) :
  String.length (smap f s) = String.length s.
Proof. induction s as [| c rest IH]; simpl; auto. Qed.

Lemma sanitize_smap_strip (x : string) :
  sanitize_filename x = smap fix_char (strip x).
Proof.
  unfold sanitize_filename, strip.
  now rewrite replace_fold_smap, lstrip_smap, rstrip_smap.
Qed.

(** X1.  Trimming first and replacing afterwards gives the same name: the
    replacements never create or remove white space at the ends, and the
    sanitized name is as long as the trimmed one. *)
Theorem sanitize_trims_then_replaces (x : string) :
  sanitize_filename x =
    fold_left (fun name char => replace char "_"%char name)
              invalid_chars (strip x) /\
  String.length (sanitize_filename x) = String.length (strip x).
Proof.
  rewrite sanitize_smap_strip, replace_fold_smap. split; [reflexivity |].
  apply smap_length.
Qed.

Lemma has_char_all (s : string) :
  forallb (fun c => negb (has_char c s)) invalid_chars = true ->
  all_chars (fun c => negb (is_invalid c)) s = true.
Proof.
  intro H. induction s as [| d rest IH]; simpl; auto.
  assert (Hall : forall c, In c invalid_chars ->
                           has_char c (String d rest) = false).
  { intros c Hc. rewrite forallb_forall in H.
    now apply negb_true_iff, H. }
  apply andb_true_iff. split.
  - apply negb_true_iff. unfold is_invalid.
    destruct (existsb (Ascii.eqb d) invalid_chars) eqn:E; auto.
    apply existsb_exists in E as (c & Hc & Hd).
    specialize (Hall c Hc). simpl in Hall. rewrite Hd in Hall. discriminate.
  - apply IH. apply forallb_forall. intros c Hc.
    specialize (Hall c Hc). simpl in Hall.
    apply orb_false_iff in Hall as [_ Hr]. now rewrite Hr.
Qed.

(** X2.  The names that sanitization leaves alone are those without an invalid
    character and without white space at either end. *)
Theorem sanitize_fixed_points (x : string) :
  sanitize_filename x = x <->
  forallb (fun c => negb (has_char c x)) invalid_chars = true /\ strip x = x.
Proof.
  split.
  - intro H. split.
    + rewrite <- H. apply forallb_forall. intros c Hc.
      apply negb_true_iff, all_chars_has_char; [| apply sanitize_valid].
      unfold is_invalid. apply existsb_exists. exists c. split; auto.
      apply Ascii.eqb_refl.
    + rewrite <- H at 1. unfold sanitize_filename.
      rewrite strip_idem. exact H.
  - intros [Hv Hs]. rewrite sanitize_smap_strip, Hs.
    apply smap_fixed, has_char_all, Hv.
Qed.

End Names.

(** ** The grouping as a sequence of placements *)

Module Grouping.
Import Organizer.

(** The folder paths of an entity, none when it has no well-formed ones. *)
Definition paths (details : json -> option json) (w : json) : list string :=
  match folder_paths details w with
  | Some ks => ks
  | None => []
  end.

(** The placements of a run, in order: every non-archived entity under each
    of its folder paths. *)
Definition placements (details : json -> option json) (ws : list json)
  : list (string * json) :=
  flat_map (fun w => map (fun k => (k, w)) (paths details w))
           (filter (fun w => negb (archived w)) ws).

Definition place_all (calls : list (string * json)) (o : buckets) : buckets :=
  fold_left (fun o kw => place (fst kw) (snd kw) o) calls o.

(** The workflows under a folder path. *)
Definition bucket (k : string) (organized : buckets) : list json :=
  match lookup k organized with
  | Some l => l
  | None => []
  end.

Lemma place_all_app (a b : list (string * json)) (o : buckets) :
  place_all (a ++ b) o = place_all b (place_all a o).
Proof. unfold place_all. apply fold_left_app. Qed.

Section Trace.
Variable details : json -> option json.

Lemma place_tags_trace (project : string) (w : json) (ts : list json) :
  forall o o',
    place_tags project w ts o = Ok o' ->
    exists ls, tag_labels ts = Some ls /\
      o' = place_all (map (fun k => (k, w))
                          (map (fun l => project ++ "/" ++ l)%string ls)) o.
Proof.
  induction ts as [| t rest IH]; intros o o' H; simpl in H.
  - inversion H; subst. exists []. split; reflexivity.
  - bind_inv H. bind_inv H.
    destruct t as [| | | | | m]; try discriminate.
    destruct (IH _ _ H) as (ls & Hls & Ho).
    simpl in E. cbn [tag_labels tag_label]. rewrite Hls.
    destruct (lookup "name" m) as [v |].
    + inversion E; subst. destruct x as [| | | s | |]; try discriminate.
      inversion E0; subst. eexists. split; reflexivity.
    + inversion E; subst. inversion E0; subst.
      eexists. split; reflexivity.
Qed.

Lemma organize_workflow_trace (w : json) (o o' : buckets) :
  organize_workflow details w o = Ok o' ->
  exists ks, folder_paths details w = Some ks /\
             o' = place_all (map (fun k => (k, w)) ks) o.
Proof.
  unfold organize_workflow, folder_paths, project_folder. intro H.
  bind_inv H. bind_inv H. bind_inv H. bind_inv H.
  rewrite E, E0, E2.
  destruct x0 as [| | | p | |]; try discriminate. inversion E1; subst.
  destruct (truthy x2) eqn:T.
  - bind_inv H.
    destruct (place_tags_trace _ _ _ _ _ H) as (ls & Hls & Ho).
    destruct x2 as [| | | s | ts | m]; try discriminate.
    + destruct s as [| c s]; [discriminate |]. inversion E3; subst.
      discriminate Hls.
    + inversion E3; subst. rewrite Hls. simpl. eauto.
    + destruct m as [| [a v] m]; [discriminate |]. inversion E3; subst.
      discriminate Hls.
  - inversion H; subst. eexists. split; reflexivity.
Qed.

Lemma organize_loop_trace (active : list json) :
  forall o o',
    organize_loop details active o = Ok o' ->
    (forall w, In w active -> folder_paths details w <> None) /\
    o' = place_all
           (flat_map (fun w => map (fun k => (k, w)) (paths details w)) active)
           o.
Proof.
  induction active as [| w rest IH]; intros o o' H; simpl in H.
  - inversion H; subst. split; [intros ? [] | reflexivity].
  - bind_inv H.
    destruct (organize_workflow_trace _ _ _ E) as (ks & Hks & Hx).
    destruct (IH _ _ H) as (Hall & Ho). split.
    + intros y [<- | Hy]; [congruence | auto].
    + assert (Hp : paths details w = ks) by (unfold paths; now rewrite Hks).
      cbn [flat_map]. rewrite place_all_app, Hp, <- Hx. exact Ho.
Qed.

Lemma active_filter_filter (ws : list json) (active : list json) :
  active_filter ws = Ok active ->
  active = filter (fun w => negb (archived w)) ws.
Proof.
  revert active. induction ws as [| w rest IH]; intros active H; simpl in H.
  - now inversion H.
  - bind_inv H. bind_inv H. inversion H; subst. clear H.
    rewrite (IH _ E0). cbn [filter].
    assert (Hw : archived w = truthy x).
    { destruct w as [| | | | | m]; try discriminate. simpl in E. simpl.
      destruct (lookup "isArchived" m); inversion E; subst; reflexivity. }
    rewrite Hw. destruct (truthy x); reflexivity.
Qed.

(** The master equation: what the organizer returns is the result of the
    placements, one after the other, on the empty dictionary. *)
Lemma organize_by_tags_trace (ws : list json) (organized : buckets) :
  organize_by_tags details ws = Ok organized ->
  (forall w, In w ws -> archived w = false ->
             folder_paths details w <> None) /\
  organized = place_all (placements details ws) [].
Proof.
  unfold organize_by_tags. intro H. bind_inv H.
  apply active_filter_filter in E. subst x.
  destruct (organize_loop_trace _ _ _ H) as (Hall & Ho). split.
  - intros w Hw Ha. apply Hall, filter_In. split; [exact Hw |].
    now rewrite Ha.
  - exact Ho.
Qed.

End Trace.

(** *** Facts on sequences of placements *)

Lemma lookup_place (k k' : string) (w : json) (o : buckets) :
  lookup k (place k' w o) =
  if String.eqb k' k then Some (bucket k o ++ [w]) else lookup k o.
Proof.
  unfold bucket. induction o as [| [a l] rest IH].
  - rewrite place_nil. simpl. destruct (String.eqb k' k); reflexivity.
  - rewrite place_cons. destruct (String.eqb_spec a k') as [-> | Hak].
    + simpl. destruct (String.eqb k' k); reflexivity.
    + simpl. destruct (String.eqb_spec a k) as [-> | Hk].
      * destruct (String.eqb_spec k' k) as [-> | _]; [congruence | auto].
      * exact IH.
Qed.

Lemma bucket_place (k k' : string) (w : json) (o : buckets) :
  bucket k (place k' w o) =
  if String.eqb k' k then bucket k o ++ [w] else bucket k o.
Proof.
  unfold bucket at 1. rewrite lookup_place.
  destruct (String.eqb k' k); reflexivity.
Qed.

Lemma bucket_place_all (k : string) (calls : list (string * json)) :
  forall o,
    bucket k (place_all calls o) =
    bucket k o ++ map snd (filter (fun kw => String.eqb (fst kw) k) calls).
Proof.
  induction calls as [| [k' w] rest IH]; intro o; cbn [place_all fold_left].
  - cbn. now rewrite app_nil_r.
  - fold (place_all rest (place k' w o)). rewrite IH, bucket_place.
    cbn [filter fst snd]. destruct (String.eqb k' k); cbn [map].
    + now rewrite <- app_assoc.
    + reflexivity.
Qed.

Definition entries (o : buckets) : nat :=
  list_sum (map (fun e => List.length (snd e)) o).

Lemma entries_cons (a : string) (l : list json) (o : buckets) :
  entries ((a, l) :: o) = List.length l + entries o.
Proof. reflexivity. Qed.

Lemma entries_place (k : string) (w : json) (o : buckets) :
  entries (place k w o) = S (entries o).
Proof.
  induction o as [| [a l] rest IH].
  - rewrite place_nil. reflexivity.
  - rewrite place_cons. destruct (String.eqb a k); rewrite !entries_cons.
    + rewrite length_app. simpl. lia.
    + rewrite IH. lia.
Qed.

Lemma entries_place_all (calls : list (string * json)) :
  forall o, entries (place_all calls o) = List.length calls + entries o.
Proof.
  induction calls as [| [k w] rest IH]; intro o; cbn [place_all fold_left].
  - reflexivity.
  - fold (place_all rest (place k w o)). rewrite IH, entries_place.
    simpl. lia.
Qed.

Lemma download_calls_length (o : buckets) :
  List.length (download_calls o) = entries o.
Proof.
  unfold download_calls. induction o as [| [a l] rest IH]; [reflexivity |].
  cbn [flat_map]. rewrite length_app, length_map, IH, entries_cons.
  reflexivity.
Qed.

Lemma no_empty_place (k : string) (w : json) (o : buckets) :
  Forall (fun e => snd e <> []) o ->
  Forall (fun e => snd e <> []) (place k w o).
Proof.
  induction o as [| [a l] rest IH]; intro H.
  - rewrite place_nil. repeat constructor. discriminate.
  - rewrite place_cons. inversion H; subst.
    destruct (String.eqb a k); constructor; auto.
    simpl. destruct l; discriminate.
Qed.

Lemma no_empty_place_all (calls : list (string * json)) :
  forall o, Forall (fun e => snd e <> []) o ->
            Forall (fun e => snd e <> []) (place_all calls o).
Proof.
  induction calls as [| [k w] rest IH]; intros o H; cbn [place_all fold_left].
  - exact H.
  - apply IH, no_empty_place, H.
Qed.

Lemma active_filter_archived (ws : list json) :
  active_filter (filter (fun w => negb (archived w)) ws) = active_filter ws.
Proof.
  induction ws as [| w rest IH]; [reflexivity |].
  cbn [filter active_filter].
  destruct w as [| | | | | m]; try reflexivity.
  cbn [archived py_get].
  destruct (lookup "isArchived" m) as [v |] eqn:L; cbn [bind].
  - destruct (truthy v) eqn:T; cbn [negb].
    + rewrite IH. destruct (active_filter rest); reflexivity.
    + cbn [active_filter py_get]. rewrite L. cbn [bind].
      rewrite IH, T. reflexivity.
  - cbn [negb truthy active_filter py_get]. rewrite L. cbn [bind truthy].
    rewrite IH. reflexivity.
Qed.

(** X3.  Archived entities leave no trace: the organizer returns the same on the
    list without them. *)
Theorem archived_entities_do_not_matter (details : json -> option json)
  (ws : list json) :
  organize_by_tags details ws =
  organize_by_tags details (filter (fun w => negb (archived w)) ws).
Proof. unfold organize_by_tags. now rewrite active_filter_archived. Qed.

(** X4.  Within a bucket the entities stand in the order of the input list, an
    entity once for each of its tags that leads to the bucket. *)
Theorem buckets_keep_input_order (details : json -> option json)
  (ws : list json) (organized : buckets) :
  organize_by_tags details ws = Ok organized ->
  forall k,
    bucket k organized =
    map snd (filter (fun kw => String.eqb (fst kw) k) (placements details ws)).
Proof.
  intros H k. destruct (organize_by_tags_trace details ws organized H)
    as (_ & ->).
  now rewrite bucket_place_all.
Qed.

(** X5.  No bucket of the output is empty: the test on an empty list in the
    download loops never fires. *)
Theorem no_bucket_is_empty (details : json -> option json) (ws : list json)
  (organized : buckets) :
  organize_by_tags details ws = Ok organized ->
  forall k l, In (k, l) organized -> l <> [].
Proof.
  intros H k l Hin.
  destruct (organize_by_tags_trace details ws organized H) as (_ & ->).
  pose proof (no_empty_place_all (placements details ws) [] (Forall_nil _))
    as Hall.
  rewrite Forall_forall in Hall. exact (Hall (k, l) Hin).
Qed.

(** The number of folder paths of an entity as its tags give it: one for
    each tag, one when there is none. *)
Definition fan_out (w : json) : nat :=
  match py_get w "tags" (JArr []) with
  | Ok (JArr (t :: ts)) => S (List.length ts)
  | _ => 1
  end.

Lemma paths_length (details : json -> option json) (w : json) :
  folder_paths details w <> None ->
  List.length (paths details w) = fan_out w.
Proof.
  unfold paths, folder_paths, fan_out. intro H.
  destruct (project_folder details w) as [project |]; [| congruence].
  destruct (py_get w "tags" (JArr [])) as [tags | e]; [| congruence].
  destruct tags as [| [] | n | [| c s] | [| t ts] | [| [a v] m]];
    try reflexivity; cbn [truthy] in *; try congruence.
  - destruct (Z.eqb n 0); cbn [negb] in *; [reflexivity | congruence].
  - destruct (tag_labels (t :: ts)) as [ls |] eqn:E; [| cbn in H; congruence].
    cbn [option_map]. rewrite length_map.
    now rewrite (tag_labels_length _ _ E).
Qed.

Lemma placements_length (details : json -> option json) (ws : list json) :
  (forall w, In w ws -> archived w = false ->
             folder_paths details w <> None) ->
  List.length (placements details ws) =
  list_sum (map fan_out (filter (fun w => negb (archived w)) ws)).
Proof.
  intro Hall. unfold placements.
  assert (Hf : forall w, In w (filter (fun w => negb (archived w)) ws) ->
                         folder_paths details w <> None).
  { intros w Hw. apply filter_In in Hw as [Hw Ha].
    apply Hall; [exact Hw |]. now apply negb_true_iff. }
  induction (filter (fun w => negb (archived w)) ws) as [| w rest IH].
  - reflexivity.
  - cbn [flat_map map list_sum fold_right].
    rewrite length_app, length_map, paths_length by (apply Hf; now left).
    f_equal. apply IH. intros; apply Hf; now right.
Qed.

(** X6.  The download loops make as many calls as the non-archived entities have
    tags, an entity without a tag counting for one. *)
Theorem download_calls_count (details : json -> option json) (ws : list json)
  (organized : buckets) :
  organize_by_tags details ws = Ok organized ->
  List.length (download_calls organized) =
  list_sum (map fan_out (filter (fun w => negb (archived w)) ws)).
Proof.
  intro H. destruct (organize_by_tags_trace details ws organized H)
    as (Hall & ->).
  rewrite download_calls_length, entries_place_all.
  change (entries []) with 0. rewrite Nat.add_0_r.
  now apply placements_length.
Qed.

(** X7.  If the organizer returns, every non-archived entity is a dict with an
    id: the id is read by index, and a missing one raises. *)
Theorem organized_entities_have_ids (details : json -> option json)
  (ws : list json) (organized : buckets) :
  organize_by_tags details ws = Ok organized ->
  forall w, In w ws -> archived w = false ->
    exists m workflow_id, w = JObj m /\ lookup "id" m = Some workflow_id.
Proof.
  intros H w Hw Ha.
  destruct (organize_by_tags_trace details ws organized H) as (Hall & _).
  specialize (Hall w Hw Ha). unfold folder_paths, project_folder in Hall.
  destruct w as [| | | | | m]; try (cbn in Hall; congruence).
  cbn [py_getitem] in Hall.
  destruct (lookup "id" m) as [i |] eqn:L; [| congruence].
  exists m, i. split; [reflexivity | exact L].
Qed.

Fixpoint count_char (c : ascii) (s : string) : nat :=
  match s with
  | EmptyString => 0
  | String d rest => (if Ascii.eqb d c then 1 else 0) + count_char c rest
  end.

Lemma count_char_none (c : ascii) (s : string) :
  has_char c s = false -> count_char c s = 0.
Proof.
  induction s as [| d rest IH]; simpl; auto.
  destruct (Ascii.eqb d c); simpl; [discriminate | auto].
Qed.

Lemma count_char_app (c : ascii) (a b : string) :
  count_char c (a ++ b) = count_char c a + count_char c b.
Proof. induction a as [| d rest IH]; simpl; auto. rewrite IH. lia. Qed.

Lemma split_first_app (c : ascii) (a b : string) :
  has_char c a = false -> split_first c (a ++ String c b) = a.
Proof.
  induction a as [| d rest IH]; simpl.
  - now rewrite Ascii.eqb_refl.
  - destruct (Ascii.eqb d c); simpl; [discriminate |].
    intro H. now rewrite IH.
Qed.

Lemma sanitize_no_slash (s : string) :
  has_char "/" (sanitize_filename s) = false.
Proof.
  apply Sanitize.all_chars_has_char; [reflexivity |].
  apply Sanitize.sanitize_valid.
Qed.

Lemma tag_labels_sanitized (ts : list json) :
  forall ls l, tag_labels ts = Some ls -> In l ls ->
               exists s, l = sanitize_filename s.
Proof.
  induction ts as [| t rest IH]; intros ls l H Hl; simpl in H.
  - inversion H; subst. destruct Hl.
  - destruct (tag_label t) as [l0 |] eqn:E0; [| discriminate].
    destruct (tag_labels rest) as [ls0 |]; [| discriminate].
    inversion H; subst. destruct Hl as [<- | Hl]; [| eapply IH; eauto].
    destruct t as [| | | | | m]; try discriminate. simpl in E0.
    destruct (lookup "name" m) as [[| | | s | |] |]; inversion E0; eauto.
Qed.

(** X8.  Every folder path of the output has exactly one slash, and what stands
    before it is the sanitized project name of the entities under it. *)
Theorem folder_path_has_one_slash (details : json -> option json)
  (ws : list json) (organized : buckets) :
  organize_by_tags details ws = Ok organized ->
  forall k w, in_bucket organized k w ->
    count_char "/" k = 1 /\
    project_folder details w = Some (split_first "/" k).
Proof.
  intros H k w Hin.
  destruct (organize_by_tags_spec details ws organized H) as (_ & _ & Hb).
  apply Hb in Hin as (_ & _ & ks & Hks & Hk).
  unfold folder_paths in Hks.
  destruct (project_folder details w) as [project |] eqn:Hp; [| discriminate].
  assert (Hproject : has_char "/" project = false).
  { unfold project_folder in Hp.
    destruct (py_getitem w "id") as [i |]; [| discriminate].
    destruct (get_workflow_project details i w) as [[| | | p | |] |];
      try discriminate.
    inversion Hp; subst. apply sanitize_no_slash. }
  assert (Hgen : forall l, has_char "/" l = false ->
            count_char "/" (project ++ "/" ++ l) = 1 /\
            Some project = Some (split_first "/" (project ++ "/" ++ l))).
  { intros l Hl. split.
    - rewrite count_char_app, (count_char_none _ _ Hproject).
      simpl. now rewrite (count_char_none _ _ Hl).
    - f_equal. symmetry. now apply split_first_app. }
  destruct (py_get w "tags" (JArr [])) as [tags | e]; [| discriminate].
  destruct (truthy tags).
  - destruct tags as [| | | | ts |]; try discriminate.
    destruct (tag_labels ts) as [ls |] eqn:E; [| discriminate].
    inversion Hks; subst. apply in_map_iff in Hk as (l & <- & Hl).
    destruct (tag_labels_sanitized _ _ _ E Hl) as (s & ->).
    apply Hgen, sanitize_no_slash.
  - inversion Hks; subst. destruct Hk as [<- | []].
    apply Hgen. reflexivity.
Qed.

Lemma is_sub_lt (s : string) : is_sub "<" s = has_char "<" s.
Proof.
  unfold is_sub. induction s as [| c rest IH]; [reflexivity |].
  cbn [String.index String.prefix has_char].
  destruct (Ascii.ascii_dec "<"%char c) as [<- | Hc].
  - cbn. destruct rest; reflexivity.
  - assert (Ascii.eqb c "<" = false) as ->
      by (apply Ascii.eqb_neq; congruence).
    cbn [orb]. rewrite <- IH.
    destruct (String.index 0 "<" rest); reflexivity.
Qed.

(** X9.  A personal project named [Name <email>] gives the project name [Name],
    trimmed. *)
Theorem personal_project_name (details : json -> option json)
  (workflow_id summary : json) (payload shared_entry project :
                                  list (string * json))
  (more : list json) (n mail : string) :
  details workflow_id = Some (JObj payload) ->
  lookup "shared" payload = Some (JArr (JObj shared_entry :: more)) ->
  lookup "project" shared_entry = Some (JObj project) ->
  lookup "type" project = Some (JStr "personal") ->
  lookup "name" project = Some (JStr (n ++ String "<" mail)) ->
  has_char "<" n = false ->
  get_workflow_project details workflow_id summary = Ok (JStr (strip n)).
Proof.
  intros Hd Hs Hp Ht Hn Hlt. unfold get_workflow_project. rewrite Hd.
  destruct payload as [| f payload]; [discriminate |].
  cbn [truthy py_get bind]. rewrite Hs. cbn [bind truthy py_len].
  cbn [List.length Nat.ltb Nat.leb py_first bind py_get].
  rewrite Hp. cbn [bind py_get]. rewrite Hn, Ht.
  cbn [bind is_str py_in as_str].
  rewrite String.eqb_refl, is_sub_lt.
  assert (has_char "<" (n ++ String "<" mail) = true) as ->.
  { clear -n. induction n as [| c r IH]; simpl.
    - reflexivity.
    - rewrite IH. apply orb_true_r. }
  cbn [bind]. now rewrite split_first_app.
Qed.

(** *** The remote with one team project, again *)

Definition twice_organized : buckets :=
  [("Acme/a_b", [wf_clash; wf_clash; wf_clash; wf_clash]);
   ("Acme/prod", [wf_deploy]); ("Acme/ops_eu", [wf_deploy])].

Lemma buckets_keep_input_order_witness :
  organize_by_tags acme [wf_clash; wf_old; wf_deploy; wf_clash]
    = Ok twice_organized /\
  bucket "Acme/a_b" twice_organized
    = [wf_clash; wf_clash; wf_clash; wf_clash] /\
  bucket "Acme/prod" twice_organized = [wf_deploy].
Proof.
  split; [reflexivity |]. split.
  - exact (buckets_keep_input_order acme
             [wf_clash; wf_old; wf_deploy; wf_clash] twice_organized eq_refl
             "Acme/a_b").
  - exact (buckets_keep_input_order acme
             [wf_clash; wf_old; wf_deploy; wf_clash] twice_organized eq_refl
             "Acme/prod").
Defined.

Lemma no_bucket_is_empty_witness :
  organize_by_tags acme acme_list = Ok acme_organized /\
  [wf_invoice] <> [].
Proof.
  split; [reflexivity |].
  apply (no_bucket_is_empty acme acme_list acme_organized eq_refl
           "Acme/No Tag").
  simpl. auto.
Defined.

Lemma download_calls_count_witness :
  organize_by_tags acme acme_list = Ok acme_organized /\
  List.length (download_calls acme_organized) = 4.
Proof.
  split; [reflexivity |].
  rewrite (download_calls_count acme acme_list acme_organized eq_refl).
  reflexivity.
Defined.

Lemma organized_entities_have_ids_witness :
  organize_by_tags acme acme_list = Ok acme_organized /\
  exists m workflow_id,
    wf_invoice = JObj m /\ lookup "id" m = Some workflow_id.
Proof.
  split; [reflexivity |].
  apply (organized_entities_have_ids acme acme_list acme_organized eq_refl);
    [simpl; auto | reflexivity].
Defined.

Lemma folder_path_has_one_slash_witness :
  organize_by_tags acme acme_list = Ok acme_organized /\
  count_char "/" "Acme/ops_eu" = 1 /\
  project_folder acme wf_deploy = Some (split_first "/" "Acme/ops_eu").
Proof.
  split; [reflexivity |].
  apply (folder_path_has_one_slash acme acme_list acme_organized eq_refl).
  exists [wf_deploy]. simpl. auto.
Defined.

Definition ann (_ : json) : option json :=
  Some (JObj [("id", JStr "1");
              ("shared",
               JArr [JObj [("role", JStr "workflow:owner");
                           ("project",
                            JObj [("name", JStr "Ann Lee <ann@example.org>");
                                  ("type", JStr "personal")])]])]).

Lemma personal_project_name_witness :
  has_char "<" "Ann Lee " = false /\
  get_workflow_project ann (JStr "1") JNull = Ok (JStr "Ann Lee").
Proof.
  split; [reflexivity |].
  apply (personal_project_name ann (JStr "1") JNull
           [("id", JStr "1");
            ("shared",
             JArr [JObj [("role", JStr "workflow:owner");
                         ("project",
                          JObj [("name", JStr "Ann Lee <ann@example.org>");
                                ("type", JStr "personal")])]])]
           [("role", JStr "workflow:owner");
            ("project",
             JObj [("name", JStr "Ann Lee <ann@example.org>");
                   ("type", JStr "personal")])]
           [("name", JStr "Ann Lee <ann@example.org>");
            ("type", JStr "personal")]
           [] "Ann Lee " "ann@example.org>");
    reflexivity.
Defined.

End Grouping.

(** ** The paginated listing, in general *)

Module Pagination.

(** X10.  On a listing that ends, both export scripts return the entities of all
    pages in the order the remote sent them. *)
Theorem complete_listing_in_page_order (srv : server) (n fuel : nat)
  (s s' : session srv) (all : list json) :
  listing n None s all true s' -> n <= fuel ->
  Downloader.get_all_workflows srv fuel s = Some (Ok all, s') /\
  Backup.get_all_workflows srv fuel s = Some (Ok all, s').
Proof.
  intros Hl Hf. split.
  - exact (downloader_listing srv n None s all true s' Hl fuel [] Hf).
  - exact (backup_listing srv n None s all true s' Hl fuel [] Hf).
Qed.

(** X11.  On a listing that fails the two export scripts part: the downloader
    returns the entities of the pages received before the failure, the
    one-file script the empty list. *)
Theorem failed_listing_export (srv : server) (n fuel : nat)
  (s s' : session srv) (all : list json) :
  listing n None s all false s' -> n <= fuel ->
  Downloader.get_all_workflows srv fuel s = Some (Ok all, s') /\
  Backup.get_all_workflows srv fuel s = Some (Ok [], s').
Proof.
  intros Hl Hf. split.
  - exact (downloader_listing srv n None s all false s' Hl fuel [] Hf).
  - exact (backup_listing srv n None s all false s' Hl fuel [] Hf).
Qed.

(** The requests of a listing: the first without a cursor, the next ones
    each with a cursor. *)
Definition listing_requests (cursors : list json) : list request :=
  GET_workflows None :: map (fun c => GET_workflows (Some c)) cursors.

Definition page_requests (cursor : option json) (cursors : list json)
  : list request :=
  GET_workflows cursor :: map (fun c => GET_workflows (Some c)) cursors.

Lemma sent_send (srv : server) (r : request) (s s' : session srv)
  (response : option json) :
  send r s = (response, s') -> sent s' = sent s ++ [r].
Proof.
  unfold send. destruct (respond srv r (remote s)) as [resp w].
  intro H. inversion H; subst. reflexivity.
Qed.

Section Requests.
Variable srv : server.

Definition reads_only (fuel : nat) (cursor : option json)
  (s s' : session srv) : Prop :=
  exists cursors,
    sent s' = sent s ++ page_requests cursor cursors /\
    List.length cursors < fuel /\
    forallb truthy cursors = true.

Lemma reads_only_one fuel cursor (s s' : session srv) response :
  send (GET_workflows cursor) s = (response, s') ->
  reads_only (S fuel) cursor s s'.
Proof.
  intro H. exists []. split; [exact (sent_send _ _ _ _ _ H) |].
  split; [simpl; lia | reflexivity].
Qed.

Lemma reads_only_more fuel cursor next (s s1 s' : session srv) response :
  send (GET_workflows cursor) s = (response, s1) ->
  truthy next = true ->
  reads_only fuel (Some next) s1 s' ->
  reads_only (S fuel) cursor s s'.
Proof.
  intros H Ht (cs & Hs & Hl & Hc). exists (next :: cs). split.
  - rewrite Hs, (sent_send _ _ _ _ _ H), <- app_assoc. reflexivity.
  - split; [simpl; lia |]. simpl. now rewrite Ht, Hc.
Qed.

Lemma downloader_reads_only (fuel : nat) :
  forall cursor acc (s s' : session srv) r,
    Downloader.get_all_workflows_loop srv fuel cursor acc s = Some (r, s') ->
    reads_only fuel cursor s s'.
Proof.
  induction fuel as [| fuel IH]; intros cursor acc s s' r H; [discriminate |].
  cbn [Downloader.get_all_workflows_loop] in H.
  destruct (send (GET_workflows cursor) s) as [[data |] s1] eqn:E.
  - destruct (workflows <- py_get data "data" (JArr []) ;;
              items <- py_iter workflows ;;
              next <- py_get data "nextCursor" JNull ;;
              Ok (acc ++ items, next)) as [[acc' next] | e].
    + destruct (truthy next) eqn:T.
      * eapply reads_only_more; eauto.
      * inversion H; subst. eapply reads_only_one; eauto.
    + inversion H; subst. eapply reads_only_one; eauto.
  - inversion H; subst. eapply reads_only_one; eauto.
Qed.

Lemma backup_reads_only (fuel : nat) :
  forall cursor acc (s s' : session srv) r,
    Backup.get_all_workflows_loop srv fuel cursor acc s = Some (r, s') ->
    reads_only fuel cursor s s'.
Proof.
  induction fuel as [| fuel IH]; intros cursor acc s s' r H; [discriminate |].
  cbn [Backup.get_all_workflows_loop] in H.
  destruct (send (GET_workflows cursor) s) as [[data |] s1] eqn:E.
  - destruct (workflows <- py_get data "data" (JArr []) ;;
              items <- py_iter workflows ;;
              next <- py_get data "nextCursor" JNull ;;
              Ok (acc ++ items, next)) as [[acc' next] | e].
    + destruct (truthy next) eqn:T.
      * eapply reads_only_more; eauto.
      * inversion H; subst. eapply reads_only_one; eauto.
    + inversion H; subst. eapply reads_only_one; eauto.
  - inversion H; subst. eapply reads_only_one; eauto.
Qed.

Lemma restore_reads_only (fuel : nat) :
  forall cursor existing (s s' : session srv) r,
    Restore.get_existing_workflows_loop srv fuel cursor existing s
      = Some (r, s') ->
    reads_only fuel cursor s s'.
Proof.
  induction fuel as [| fuel IH]; intros cursor existing s s' r H;
    [discriminate |].
  cbn [Restore.get_existing_workflows_loop] in H.
  destruct (send (GET_workflows cursor) s) as [[data |] s1] eqn:E.
  - destruct (workflows <- py_get data "data" (JArr []) ;;
              items <- py_iter workflows ;;
              existing <- Restore.record_workflows items existing ;;
              cursor <- py_get data "nextCursor" JNull ;;
              Ok (existing, cursor)) as [[existing' next] | e].
    + destruct (truthy next) eqn:T.
      * eapply reads_only_more; eauto.
      * inversion H; subst. eapply reads_only_one; eauto.
    + inversion H; subst. eapply reads_only_one; eauto.
  - inversion H; subst. eapply reads_only_one; eauto.
Qed.

End Requests.

(** X12.  Whatever the remote answers, a listing that returns (or raises) has
    sent listing requests only: the first without a cursor, each next one
    with a cursor that is not empty, fewer than [fuel] of them after the
    first.  No creation and no update is sent. *)
Theorem listing_only_reads (srv : server) (fuel : nat) (s s' : session srv) :
  (exists r, Downloader.get_all_workflows srv fuel s = Some (r, s')) \/
  (exists r, Backup.get_all_workflows srv fuel s = Some (r, s')) \/
  (exists r, Restore.get_existing_workflows srv fuel s = Some (r, s')) ->
  exists cursors,
    sent s' = sent s ++ listing_requests cursors /\
    List.length cursors < fuel /\
    forallb truthy cursors = true.
Proof.
  intros [(r & H) | [(r & H) | (r & H)]].
  - exact (downloader_reads_only srv fuel None [] s s' r H).
  - exact (backup_reads_only srv fuel None [] s s' r H).
  - exact (restore_reads_only srv fuel None [] s s' r H).
Qed.

Lemma three_pages_listing :
  listing 3 None
    (start [Some (JObj [("data", JArr [wf_alpha]); ("nextCursor", JStr "c2")]);
            Some (JObj [("data", JArr []); ("nextCursor", JStr "c3")]);
            Some (JObj [("data", JArr [wf_alpha; wf_alpha]);
                        ("nextCursor", JNull)])])
    [wf_alpha; wf_alpha; wf_alpha] true
    (Build_session scripted []
       [GET_workflows None; GET_workflows (Some (JStr "c2"));
        GET_workflows (Some (JStr "c3"))]).
Proof.
  eapply (listing_more 2 None _ _ _ _ [wf_alpha] (JStr "c2")
            [wf_alpha; wf_alpha] true); try reflexivity.
  eapply (listing_more 1 _ _ _ _ _ [] (JStr "c3") [wf_alpha; wf_alpha] true);
    try reflexivity.
  eapply (listing_last _ _ _ _ _ JNull); reflexivity.
Defined.

Lemma complete_listing_in_page_order_witness :
  Downloader.get_all_workflows scripted 3
    (start [Some (JObj [("data", JArr [wf_alpha]); ("nextCursor", JStr "c2")]);
            Some (JObj [("data", JArr []); ("nextCursor", JStr "c3")]);
            Some (JObj [("data", JArr [wf_alpha; wf_alpha]);
                        ("nextCursor", JNull)])])
  = Some (Ok [wf_alpha; wf_alpha; wf_alpha],
          Build_session scripted []
            [GET_workflows None; GET_workflows (Some (JStr "c2"));
             GET_workflows (Some (JStr "c3"))]).
Proof.
  apply (complete_listing_in_page_order scripted 3 3 _ _ _
           three_pages_listing).
  apply le_n.
Defined.

Lemma second_page_fails_listing :
  listing 2 None (start second_page_fails) [wf_alpha] false after_two_requests.
Proof.
  eapply (listing_more 1 None _ _ _ _ [wf_alpha] (JStr "c2") [] false);
    try reflexivity.
  apply listing_failed. reflexivity.
Defined.

Lemma failed_listing_export_witness :
  Downloader.get_all_workflows scripted 2 (start second_page_fails)
    = Some (Ok [wf_alpha], after_two_requests) /\
  Backup.get_all_workflows scripted 2 (start second_page_fails)
    = Some (Ok [], after_two_requests).
Proof.
  apply (failed_listing_export scripted 2 2 _ _ _ second_page_fails_listing).
  apply le_n.
Defined.

Lemma listing_only_reads_witness :
  exists cursors,
    sent after_two_requests
      = sent (start second_page_fails) ++ listing_requests cursors /\
    List.length cursors < 5 /\
    forallb truthy cursors = true.
Proof.
  apply (listing_only_reads scripted 5 (start second_page_fails)
           after_two_requests).
  left. exists (Ok [wf_alpha]). reflexivity.
Defined.

End Pagination.

(** ** The restore script: the map, one file, the whole run *)

From Stdlib Require Import Sorted Permutation.

Module Runs.
Import Restore Reconcile.

(** *** Invariants of the existence map *)

(** [bool(k)] for a key. *)
Definition key_truthy (k : key) : bool :=
  match k with
  | KNull => false
  | KBool b => b
  | KNum n => negb (Z.eqb n 0)
  | KStr EmptyString => false
  | KStr (String _ _) => true
  end.

(** The keys are pairwise different, and neither a key nor an id is
    empty. *)
Definition well_formed (existing : existence) : Prop :=
  NoDup (map (fun kv => key_norm (fst kv)) existing) /\
  forall k v, In (k, v) existing -> key_truthy k = true /\ truthy v = true.

Lemma as_key_truthy (j : json) (k : key) :
  as_key j = Ok k -> key_truthy k = truthy j.
Proof.
  destruct j as [| b | n | [| c s] | l | m]; simpl; intro H;
    inversion H; reflexivity.
Qed.

Lemma existing_set_keys (k : key) (v : json) (e : existence) :
  map (fun kv => key_norm (fst kv)) (existing_set k v e) =
  if existsb (fun kv => key_eqb (fst kv) k) e
  then map (fun kv => key_norm (fst kv)) e
  else map (fun kv => key_norm (fst kv)) e ++ [key_norm k].
Proof.
  induction e as [| [k' v'] rest IH]; cbn [existing_set existsb map fst].
  - reflexivity.
  - destruct (key_eqb k' k); cbn [orb map fst]; [reflexivity |].
    rewrite IH. destruct (existsb _ rest); reflexivity.
Qed.

Lemma existing_set_in (k : key) (v : json) (e : existence) k0 v0 :
  In (k0, v0) (existing_set k v e) ->
  In (k0, v0) e \/ v0 = v /\ (k0 = k \/ exists v', In (k0, v') e).
Proof.
  induction e as [| [k' v'] rest IH]; cbn [existing_set].
  - intros [H | []]. inversion H; subst. right. auto.
  - destruct (key_eqb k' k).
    + intros [H | H].
      * inversion H; subst. right. split; [reflexivity |].
        right. exists v'. now left.
      * left. now right.
    + intros [H | H].
      * left. now left.
      * destruct (IH H) as [Hin | (-> & [-> | (v1 & Hin)])].
        -- left. now right.
        -- right. auto.
        -- right. split; [reflexivity |]. right. exists v1. now right.
Qed.

Lemma existing_set_well_formed (k : key) (v : json) (e : existence) :
  key_truthy k = true -> truthy v = true ->
  well_formed e -> well_formed (existing_set k v e).
Proof.
  intros Hk Hv (Hn & Hall). split.
  - rewrite existing_set_keys.
    destruct (existsb (fun kv => key_eqb (fst kv) k) e) eqn:E; [exact Hn |].
    apply NoDup_app; [exact Hn | repeat constructor; intros [] |].
    intros x Hx [<- | []]. apply in_map_iff in Hx as ([k' v'] & Hx & Hin).
    assert (key_eqb k' k = true) by now apply key_eqb_norm.
    assert (existsb (fun kv => key_eqb (fst kv) k) e = true).
    { apply existsb_exists. exists (k', v'). auto. }
    congruence.
  - intros k0 v0 Hin.
    destruct (existing_set_in _ _ _ _ _ Hin)
      as [H | (-> & [-> | (v' & H)])].
    + eauto.
    + auto.
    + split; [| exact Hv]. now apply (Hall k0 v').
Qed.

Lemma record_workflows_well_formed (workflows : list json) :
  forall e m, well_formed e -> record_workflows workflows e = Ok m ->
              well_formed m.
Proof.
  induction workflows as [| w rest IH]; intros e m He H; simpl in H.
  - inversion H; subst. exact He.
  - bind_inv H. bind_inv H.
    destruct (truthy x && truthy x0) eqn:T.
    + bind_inv H. apply andb_true_iff in T as [Tn Ti].
      apply (IH _ _ (existing_set_well_formed _ _ _
                       (eq_trans (as_key_truthy _ _ E1) Tn) Ti He) H).
    + exact (IH _ _ He H).
Qed.

Lemma empty_well_formed : well_formed [].
Proof. split; [constructor | intros ? ? []]. Qed.

Section Map.
Variable srv : server.

Lemma get_existing_workflows_loop_well_formed (fuel : nat) :
  forall cursor e (s s' : session srv) m,
    well_formed e ->
    get_existing_workflows_loop srv fuel cursor e s = Some (Ok m, s') ->
    well_formed m.
Proof.
  induction fuel as [| fuel IH]; intros cursor e s s' m He H; [discriminate |].
  cbn [get_existing_workflows_loop] in H.
  destruct (send (GET_workflows cursor) s) as [[data |] s1].
  - destruct (workflows <- py_get data "data" (JArr []) ;;
              items <- py_iter workflows ;;
              existing <- record_workflows items e ;;
              cursor <- py_get data "nextCursor" JNull ;;
              Ok (existing, cursor)) as [[e' next] | err] eqn:E;
      [| discriminate].
    assert (He' : well_formed e').
    { bind_inv E. bind_inv E. bind_inv E. bind_inv E.
      inversion E; subst. eapply record_workflows_well_formed; eauto. }
    destruct (truthy next).
    + exact (IH _ _ _ _ _ He' H).
    + inversion H; subst. exact He'.
  - inversion H; subst. apply empty_well_formed.
Qed.

End Map.

Lemma well_formed_found (existing : existence) (k : key) :
  well_formed existing ->
  (truthy (existing_get k existing) = true <->
   exists k' v, In (k', v) existing /\ key_eqb k' k = true).
Proof.
  intros (_ & Hall). induction existing as [| [k' v] rest IH]; simpl.
  - split; [discriminate | intros (? & ? & [] & _)].
  - destruct (key_eqb k' k) eqn:E.
    + split.
      * intros _. exists k', v. auto.
      * intros _. apply (Hall k' v). now left.
    + rewrite IH by (intros k0 v0 H0; apply Hall; now right). split.
      * intros (k0 & v0 & Hin & Hk). exists k0, v0. auto.
      * intros (k0 & v0 & [H | Hin] & Hk).
        -- inversion H; subst. congruence.
        -- eauto.
Qed.

(** X13.  In the map [get_existing_workflows] returns no name occurs twice and no
    name or id is empty; so a name counts as existing exactly when it is a
    key of the map. *)
Theorem existence_map_invariant (srv : server) (fuel : nat)
  (s s' : session srv) (existing : existence) :
  get_existing_workflows srv fuel s = Some (Ok existing, s') ->
  NoDup (map (fun kv => key_norm (fst kv)) existing) /\
  (forall k v, In (k, v) existing ->
               key_truthy k = true /\ truthy v = true) /\
  forall k, truthy (existing_get k existing) = true <->
            exists k' v, In (k', v) existing /\ key_eqb k' k = true.
Proof.
  intro H.
  pose proof (get_existing_workflows_loop_well_formed srv fuel None [] s s'
                existing empty_well_formed H) as Hw.
  destruct Hw as (Hn & Hall). split; [exact Hn |]. split; [exact Hall |].
  intro k. apply well_formed_found. split; assumption.
Qed.

Lemma existence_map_invariant_witness :
  get_existing_workflows scripted 4 (start two_pages)
    = Some (Ok remote_names, after_listing []) /\
  NoDup (map (fun kv => key_norm (fst kv)) remote_names) /\
  truthy (existing_get (KStr "Ghost") remote_names) = false.
Proof.
  split; [reflexivity |].
  destruct (existence_map_invariant scripted 4 (start two_pages)
              (after_listing []) remote_names eq_refl) as (Hn & _ & _).
  split; [exact Hn | reflexivity].
Defined.

(** *** A file whose name exists on the remote *)

Section OneFile.
Variable srv : server.

(** X14.  Under the mode [skip] a file whose name is in the map costs no request:
    the session is unchanged and the result carries the id of the map. *)
Theorem skip_sends_nothing (f : backup_file) (existing : existence)
  (s : session srv) (backup_data : json) (items : list (string * json))
  (k : key) :
  load f = Ok backup_data ->
  payload backup_data = Some (JObj items) ->
  name_key items = Ok k ->
  truthy (existing_get k existing) = true ->
  restore_workflow srv f existing "skip" s =
    ({| file := name f; status := "skipped"; action := Some "exists";
        workflow_id := existing_get k existing |}, s).
Proof.
  intros Hl Hp Hk Hfound.
  unfold restore_workflow, restore_workflow_try, reconcile.
  rewrite (load_workflow_payload f backup_data items k Hl Hp Hk), Hfound.
  reflexivity.
Qed.

(** X15.  Under the mode [update] such a file costs one request: the update of
    the existing id with the payload as it was read, all fields included.
    The result is [updated] when the request succeeds and [update_failed]
    when it does not. *)
Theorem update_sends_whole_payload (f : backup_file) (existing : existence)
  (s : session srv) (backup_data : json) (items : list (string * json))
  (k : key) :
  load f = Ok backup_data ->
  payload backup_data = Some (JObj items) ->
  name_key items = Ok k ->
  truthy (existing_get k existing) = true ->
  let existing_id := existing_get k existing in
  let answer :=
    respond srv (PUT_workflow existing_id (JObj items)) (remote s) in
  sent (snd (restore_workflow srv f existing "update" s))
    = sent s ++ [PUT_workflow existing_id (JObj items)] /\
  remote (snd (restore_workflow srv f existing "update" s)) = snd answer /\
  fst (restore_workflow srv f existing "update" s) =
    match fst answer with
    | Some _ => {| file := name f; status := "success";
                   action := Some "updated"; workflow_id := existing_id |}
    | None => {| file := name f; status := "failed";
                 action := Some "update_failed"; workflow_id := JNull |}
    end.
Proof.
  intros Hl Hp Hk Hfound existing_id answer.
  unfold restore_workflow, restore_workflow_try, reconcile.
  rewrite (load_workflow_payload f backup_data items k Hl Hp Hk), Hfound.
  cbn [String.eqb Ascii.eqb Bool.eqb]. unfold update_workflow, send.
  fold existing_id. subst answer.
  destruct (respond srv (PUT_workflow existing_id (JObj items)) (remote s))
    as [[response |] w]; repeat split.
Qed.

(** *** The requests of a file and of a run *)

Definition is_mutation (r : request) : bool :=
  match r with
  | GET_workflows _ => false
  | _ => true
  end.

Definition is_update (r : request) : bool :=
  match r with
  | PUT_workflow _ _ => true
  | _ => false
  end.

(** At most one request, a creation or an update, and an update only under
    the mode [update]. *)
Definition file_requests (mode : string) (l : list request) : Prop :=
  List.length l <= 1 /\
  forallb is_mutation l = true /\
  (mode <> "update" -> forallb (fun r => negb (is_update r)) l = true).

Lemma file_requests_nil (mode : string) : file_requests mode [].
Proof. repeat split; auto. Qed.

Lemma create_workflow_requests (mode : string) (wd : json) (s s1 : session srv)
  r :
  create_workflow srv wd s = (r, s1) ->
  exists l, sent s1 = sent s ++ l /\ file_requests mode l.
Proof.
  unfold create_workflow.
  destruct (clean_workflow_for_api wd) as [cleaned | e].
  - destruct (send (POST_workflow cleaned) s) as [[result |] s2] eqn:E;
      intro H; inversion H; subst;
      exists [POST_workflow cleaned];
      (split; [exact (Pagination.sent_send _ _ _ _ _ E) |]);
      repeat split; auto.
  - intro H. inversion H; subst. exists []. rewrite app_nil_r.
    split; [reflexivity | apply file_requests_nil].
Qed.

Lemma reconcile_requests (f : backup_file) existing mode wd k
  (s s1 : session srv) r :
  reconcile srv f existing mode wd k s = (r, s1) ->
  exists l, sent s1 = sent s ++ l /\ file_requests mode l.
Proof.
  unfold reconcile.
  assert (Hnil : forall r0, (r0, s) = (r, s1) ->
            exists l, sent s1 = sent s ++ l /\ file_requests mode l).
  { intros r0 H. inversion H; subst. exists []. rewrite app_nil_r.
    split; [reflexivity | apply file_requests_nil]. }
  destruct (truthy (existing_get k existing)).
  - destruct (String.eqb mode "skip"); [apply Hnil |].
    destruct (String.eqb_spec mode "update") as [-> | Hm].
    + unfold update_workflow.
      destruct (send (PUT_workflow (existing_get k existing) wd) s)
        as [[response |] s2] eqn:E;
        intro H; inversion H; subst;
        exists [PUT_workflow (existing_get k existing) wd];
        (split; [exact (Pagination.sent_send _ _ _ _ _ E) |]);
        repeat split; auto; intro Hne; contradiction.
    + destruct (String.eqb mode "rename"); [| apply Hnil].
      destruct (py_setitem wd "name" _) as [wd' | e]; [| apply Hnil].
      destruct (create_workflow srv wd' s) as [[new_id | e] s2] eqn:E;
        intro H; inversion H; subst;
        exact (create_workflow_requests mode _ _ _ _ E).
  - destruct (create_workflow srv wd s) as [[new_id | e] s2] eqn:E;
      intro H; inversion H; subst;
      exact (create_workflow_requests mode _ _ _ _ E).
Qed.

Lemma restore_workflow_requests (f : backup_file) existing mode
  (s s1 : session srv) r :
  restore_workflow srv f existing mode s = (r, s1) ->
  exists l, sent s1 = sent s ++ l /\ file_requests mode l.
Proof.
  unfold restore_workflow, restore_workflow_try.
  destruct (load_workflow f) as [[wd k] | e].
  - destruct (reconcile srv f existing mode wd k s) as [[r0 | e] s2] eqn:E;
      intro H; inversion H; subst; exact (reconcile_requests _ _ _ _ _ _ _ _ E).
  - intro H. inversion H; subst. exists []. rewrite app_nil_r.
    split; [reflexivity | apply file_requests_nil].
Qed.

Lemma restore_loop_requests (files : list backup_file) existing mode :
  forall stats (s s' : session srv) final,
    restore_loop srv files existing mode stats s = (final, s') ->
    exists l, sent s' = sent s ++ l /\
      List.length l <= List.length files /\
      forallb is_mutation l = true /\
      (mode <> "update" -> forallb (fun r => negb (is_update r)) l = true).
Proof.
  induction files as [| f rest IH]; intros stats s s' final H;
    cbn [restore_loop] in H.
  - inversion H; subst. exists []. rewrite app_nil_r. repeat split; auto.
  - destruct (restore_workflow srv f existing mode s) as [r s1] eqn:E.
    destruct (restore_workflow_requests _ _ _ _ _ _ E)
      as (l1 & Hs1 & Hlen1 & Hm1 & Hu1).
    destruct (IH _ _ _ _ H) as (l2 & Hs2 & Hlen2 & Hm2 & Hu2).
    exists (l1 ++ l2). split; [now rewrite Hs2, Hs1, app_assoc |].
    rewrite length_app, !forallb_app. cbn [List.length].
    split; [lia |]. split; [now rewrite Hm1, Hm2 |].
    intro Hne. now rewrite Hu1, Hu2.
Qed.

End OneFile.

(** X16.  A run first lists, then sends at most one creation or update for each
    file; updates are only sent under the mode [update], and a dry run
    sends nothing at all. *)
Theorem run_requests (srv : server) (fuel : nat)
  (backup_dir : list backup_file) (mode : string) (dry_run : bool)
  (s s' : session srv) (r : outcome restore_stats) :
  restore_from_backup srv fuel backup_dir mode dry_run s = Some (r, s') ->
  exists reads mutations,
    sent s' = sent s ++ reads ++ mutations /\
    forallb (fun q => negb (is_mutation q)) reads = true /\
    forallb is_mutation mutations = true /\
    List.length mutations <= List.length (find_backup_files backup_dir) /\
    (mode <> "update" ->
     forallb (fun q => negb (is_update q)) mutations = true) /\
    (dry_run = true -> reads = [] /\ mutations = []).
Proof.
  unfold restore_from_backup. cbn [total].
  assert (Hnone : forall x, Some (x, s) = Some (r, s') ->
    exists reads mutations,
      sent s' = sent s ++ reads ++ mutations /\
      forallb (fun q => negb (is_mutation q)) reads = true /\
      forallb is_mutation mutations = true /\
      List.length mutations <= List.length (find_backup_files backup_dir) /\
      (mode <> "update" ->
       forallb (fun q => negb (is_update q)) mutations = true) /\
      (dry_run = true -> reads = [] /\ mutations = [])).
  { intros x H. inversion H; subst. exists [], []. rewrite !app_nil_r.
    repeat split; auto. simpl. lia. }
  destruct (List.length (find_backup_files backup_dir) =? 0)%nat;
    [apply Hnone |].
  destruct dry_run; [apply Hnone |].
  destruct (get_existing_workflows srv fuel s) as [[o s1] |] eqn:E;
    [| discriminate].
  destruct (Pagination.restore_reads_only srv fuel None [] s s1 o E)
    as (cursors & Hs1 & _ & _).
  assert (Hreads : forallb (fun q => negb (is_mutation q))
                     (Pagination.page_requests None cursors) = true).
  { unfold Pagination.page_requests. cbn [forallb is_mutation negb andb].
    clear Hs1. induction cursors as [| c cs IH]; [reflexivity | exact IH]. }
  destruct o as [existing | e].
  - destruct (restore_loop srv (find_backup_files backup_dir) existing mode
                _ s1) as [final s2] eqn:El.
    destruct (restore_loop_requests srv _ _ _ _ _ _ _ El)
      as (l & Hs2 & Hlen & Hm & Hu).
    intro H. inversion H; subst.
    exists (Pagination.page_requests None cursors), l.
    split; [now rewrite Hs2, Hs1, <- app_assoc |].
    repeat split; auto; discriminate.
  - intro H. inversion H; subst.
    exists (Pagination.page_requests None cursors), [].
    rewrite app_nil_r. split; [exact Hs1 |].
    repeat split; auto; try discriminate. simpl. lia.
Qed.

(** *** Every file is counted once *)

Definition counters (stats : restore_stats) : nat :=
  created stats + updated stats + skipped stats + failed stats.

(** The results that some counter takes. *)
Definition counted (r : restore_result) : bool :=
  String.eqb (status r) "success"
  && (is_created r || action_is (action r) "updated")
  || is_skipped r || is_failed r.

Lemma count_result_counted (stats : restore_stats) (r : restore_result) :
  counted r = true ->
  counters (count_result stats r) = S (counters stats).
Proof.
  unfold counted, counters, is_created, is_skipped, is_failed, count_result.
  pose proof (eqb_excl (status r) "success" "skipped") as S1.
  pose proof (eqb_excl (status r) "success" "failed") as S2.
  pose proof (eqb_excl (status r) "success" "error") as S3.
  pose proof (eqb_excl (status r) "skipped" "failed") as S4.
  pose proof (eqb_excl (status r) "skipped" "error") as S5.
  destruct (String.eqb (status r) "success");
    destruct (String.eqb (status r) "skipped");
    try (specialize (S1 ltac:(discriminate) eq_refl); discriminate S1);
    destruct (String.eqb (status r) "failed");
    try (specialize (S2 ltac:(discriminate) eq_refl); discriminate S2);
    try (specialize (S4 ltac:(discriminate) eq_refl); discriminate S4);
    destruct (String.eqb (status r) "error");
    try (specialize (S3 ltac:(discriminate) eq_refl); discriminate S3);
    try (specialize (S5 ltac:(discriminate) eq_refl); discriminate S5);
    destruct (action_is (action r) "created");
    destruct (action_is (action r) "created_renamed");
    destruct (action_is (action r) "updated");
    cbn [orb andb created updated skipped failed];
    intro H; try discriminate H; lia.
Qed.

Section Counting.
Variable srv : server.

Lemma created_result_counted (f : backup_file) (a : string) (new_id : json) :
  a = "created" \/ a = "created_renamed" ->
  counted (created_result f a new_id) = true.
Proof.
  unfold created_result.
  intros [-> | ->]; destruct (truthy new_id); reflexivity.
Qed.

Lemma reconcile_counted (f : backup_file) existing mode wd k
  (s : session srv) :
  In mode ["skip"; "update"; "rename"] ->
  match fst (reconcile srv f existing mode wd k s) with
  | Ok r => counted r = true
  | Raise _ => True
  end.
Proof.
  intro Hm. unfold reconcile.
  destruct (truthy (existing_get k existing)).
  - destruct Hm as [<- | [<- | [<- | []]]];
      cbn [String.eqb Ascii.eqb Bool.eqb].
    + reflexivity.
    + unfold update_workflow.
      destruct (send (PUT_workflow (existing_get k existing) wd) s)
        as [[response |] s1]; reflexivity.
    + destruct (py_setitem wd "name" _) as [wd' | e]; [| exact I].
      destruct (create_workflow srv wd' s) as [[new_id | e] s1]; [| exact I].
      apply created_result_counted. now right.
  - destruct (create_workflow srv wd s) as [[new_id | e] s1]; [| exact I].
    apply created_result_counted. now left.
Qed.

Lemma restore_workflow_counted (f : backup_file) existing mode
  (s : session srv) :
  In mode ["skip"; "update"; "rename"] ->
  counted (fst (restore_workflow srv f existing mode s)) = true.
Proof.
  intro Hm. unfold restore_workflow, restore_workflow_try.
  destruct (load_workflow f) as [[wd k] | e]; [| reflexivity].
  pose proof (reconcile_counted f existing mode wd k s Hm) as H.
  destruct (reconcile srv f existing mode wd k s) as [[r | e] s1];
    [exact H | reflexivity].
Qed.

Lemma restore_loop_counted (files : list backup_file) existing mode :
  In mode ["skip"; "update"; "rename"] ->
  forall stats (s : session srv),
    counters (fst (restore_loop srv files existing mode stats s))
    = counters stats + List.length files.
Proof.
  intro Hm. induction files as [| f rest IH]; intros stats s;
    cbn [restore_loop].
  - cbn. lia.
  - pose proof (restore_workflow_counted f existing mode s Hm) as Hc.
    destruct (restore_workflow srv f existing mode s) as [r s1].
    rewrite IH, (count_result_counted _ _ Hc). cbn. lia.
Qed.




End Counting.


Lemma loop_total_counted (srv : server) (files : list backup_file)
  (existing : existence) (mode : string) (s1 s2 : session srv)
  (final : restore_stats) :
  In mode ["skip"; "update"; "rename"] ->
  restore_loop srv files existing mode
    {| total := List.length files; created := 0; updated := 0;
       skipped := 0; failed := 0; results := [] |} s1
  = (final, s2) ->
  total final
  = created final + updated final + skipped final + failed final.
Proof.
  intros Hm Hl.
  pose proof (restore_loop_counted srv files existing mode Hm
                {| total := List.length files; created := 0; updated := 0;
                   skipped := 0; failed := 0; results := [] |} s1) as Hc.
  destruct (restore_loop_spec srv files existing mode
              {| total := List.length files; created := 0; updated := 0;
                 skipped := 0; failed := 0; results := [] |} s1
              ltac:(repeat split))
    as (_ & Htot & _).
  rewrite Hl in Hc, Htot. cbn [fst] in *.
  unfold counters in Hc. cbn in Hc, Htot. lia.
Qed.

(** X17.  Under one of the three modes every file of a run that is not a dry
    run is counted by one counter: the four counters add up to the
    total. *)
Theorem every_file_is_counted (srv : server) (fuel : nat)
  (backup_dir : list backup_file) (mode : string) (s s' : session srv)
  (stats : restore_stats) :
  In mode ["skip"; "update"; "rename"] ->
  restore_from_backup srv fuel backup_dir mode false s
    = Some (Ok stats, s') ->
  total stats = created stats + updated stats + skipped stats + failed stats.
Proof.
  intro Hm. unfold restore_from_backup. cbn [total].
  destruct (List.length (find_backup_files backup_dir) =? 0)%nat eqn:E0.
  - intro H. inversion H; subst. cbn. now apply Nat.eqb_eq in E0.
  - destruct (get_existing_workflows srv fuel s) as [[[existing | e] s1] |];
      try discriminate.
    destruct (restore_loop srv (find_backup_files backup_dir) existing mode
                _ s1) as [final s2] eqn:Hl.
    intro H. inversion H; subst.
    exact (loop_total_counted srv _ existing mode s1 s' stats Hm Hl).
Qed.


(** *** The files of a backup *)

(** The files the restore takes: the name ends in [.json], is neither
    [index.json] nor [README.json], and does not begin with a dot. *)
Definition is_workflow_file (f : backup_file) : bool :=
  ends_with ".json" (name f)
  && negb (String.eqb (name f) "index.json"
           || String.eqb (name f) "README.json")
  && negb (String.prefix "." (name f)).

Definition path_le (a b : backup_file) : Prop :=
  path_leb (path a) (path b) = true.

Lemma path_leb_total (p q : list string) :
  path_leb p q = false -> path_leb q p = true.
Proof.
  revert q. induction p as [| a p IH]; intros [| b q]; simpl;
    try discriminate; auto.
  rewrite (String.compare_antisym b a).
  destruct (String.compare a b); simpl; auto.
Qed.

Lemma insert_sorted_perm (f : backup_file) (l : list backup_file) :
  Permutation (insert_sorted f l) (f :: l).
Proof.
  induction l as [| g rest IH]; simpl; [reflexivity |].
  destruct (path_leb (path f) (path g)); [reflexivity |].
  rewrite IH. apply perm_swap.
Qed.

Lemma sorted_perm (l : list backup_file) : Permutation (sorted l) l.
Proof.
  induction l as [| f rest IH]; simpl; [reflexivity |].
  rewrite insert_sorted_perm. now constructor.
Qed.

Lemma insert_sorted_sorted (f : backup_file) (l : list backup_file) :
  Sorted path_le l -> Sorted path_le (insert_sorted f l).
Proof.
  induction 1 as [| g rest Hs IH Hd]; simpl.
  - repeat constructor.
  - destruct (path_leb (path f) (path g)) eqn:E.
    + constructor; [now constructor | now constructor].
    + constructor; [exact IH |].
      destruct rest as [| h rest]; simpl.
      * constructor. now apply path_leb_total.
      * destruct (path_leb (path f) (path h)); constructor.
        -- now apply path_leb_total.
        -- now inversion Hd.
Qed.

Lemma sorted_sorted (l : list backup_file) : Sorted path_le (sorted l).
Proof.
  induction l as [| f rest IH]; simpl; [constructor |].
  now apply insert_sorted_sorted.
Qed.

(** X19.  The restore takes a file of the tree exactly when its name ends in
    [.json], is neither [index.json] nor [README.json] and begins with no
    dot. *)
Theorem backup_files_found (backup_dir : list backup_file)
  (f : backup_file) :
  In f (find_backup_files backup_dir) <->
  In f backup_dir /\
  ends_with ".json" (name f) = true /\
  name f <> "index.json" /\ name f <> "README.json" /\
  String.prefix "." (name f) = false.
Proof.
  unfold find_backup_files. split.
  - intro H. apply (Permutation_in _ (sorted_perm _)) in H.
    apply filter_In in H as (Hin & Hp).
    apply andb_true_iff in Hp as (Hp & Hdot).
    apply andb_true_iff in Hp as (Hjson & Hidx).
    apply negb_true_iff, orb_false_iff in Hidx as (Hi & Hr).
    apply negb_true_iff in Hdot.
    repeat split; auto; now apply String.eqb_neq.
  - intros (Hin & Hjson & Hi & Hr & Hdot).
    apply (Permutation_in _ (Permutation_sym (sorted_perm _))).
    apply filter_In. split; [exact Hin |].
    apply String.eqb_neq in Hi, Hr. now rewrite Hjson, Hi, Hr, Hdot.
Qed.

(** X20.  The files come in the order of their paths, each file of the tree that
    is taken once. *)
Theorem backup_files_sorted (backup_dir : list backup_file) :
  Sorted (fun a b => path_leb (path a) (path b) = true)
         (find_backup_files backup_dir) /\
  Permutation (find_backup_files backup_dir)
              (filter is_workflow_file backup_dir).
Proof.
  unfold find_backup_files. split.
  - apply sorted_sorted.
  - apply sorted_perm.
Qed.

(** *** The run on three snapshot files, again *)

Lemma skip_sends_nothing_witness :
  truthy (existing_get (KStr "Invoice Sync") remote_names) = true /\
  restore_workflow scripted invoice_file remote_names "skip"
                   (start [Some JNull])
  = ({| file := "Invoice Sync_77.json"; status := "skipped";
        action := Some "exists"; workflow_id := JStr "77" |},
     start [Some JNull]).
Proof.
  split; [reflexivity |].
  exact (skip_sends_nothing scripted invoice_file remote_names
           (start [Some JNull]) invoice_envelope invoice (KStr "Invoice Sync")
           eq_refl eq_refl eq_refl eq_refl).
Defined.

Lemma update_sends_whole_payload_witness :
  sent (snd (restore_workflow scripted invoice_file remote_names "update"
               (start [Some (JObj [])])))
    = [PUT_workflow (JStr "77") (JObj invoice)] /\
  fst (restore_workflow scripted invoice_file remote_names "update"
         (start [Some (JObj [])]))
    = {| file := "Invoice Sync_77.json"; status := "success";
         action := Some "updated"; workflow_id := JStr "77" |}.
Proof.
  destruct (update_sends_whole_payload scripted invoice_file remote_names
              (start [Some (JObj [])]) invoice_envelope invoice
              (KStr "Invoice Sync") eq_refl eq_refl eq_refl eq_refl)
    as (Hsent & _ & Hresult).
  split; [exact Hsent | exact Hresult].
Defined.

Lemma run_requests_witness :
  exists reads mutations,
    rename_requests = reads ++ mutations /\
    forallb (fun q => negb (is_mutation q)) reads = true /\
    forallb is_mutation mutations = true /\
    List.length mutations <= 3 /\
    forallb (fun q => negb (is_update q)) mutations = true.
Proof.
  destruct (run_requests scripted 4 snapshot "rename" false
              (start two_creations) (Build_session scripted [] rename_requests)
              (Ok rename_stats) eq_refl)
    as (reads & mutations & Hsent & Hr & Hm & Hlen & Hu & _).
  exists reads, mutations. split; [exact Hsent |].
  split; [exact Hr |]. split; [exact Hm |]. split; [exact Hlen |].
  apply Hu. discriminate.
Defined.

Lemma every_file_is_counted_witness :
  restore_from_backup scripted 4 snapshot "rename" false (start two_creations)
    = Some (Ok rename_stats, Build_session scripted [] rename_requests) /\
  total rename_stats = 2 + 0 + 0 + 1.
Proof.
  split; [reflexivity |].
  apply (every_file_is_counted scripted 4 snapshot "rename"
           (start two_creations) (Build_session scripted [] rename_requests)
           rename_stats); [simpl; auto | reflexivity].
Defined.


End Runs.

(** ** The configuration file and the environment *)

Module Settings.
Import Config.

Lemma lstrip_sep (a b : string) :
  lstrip (a ++ String "=" b) = (lstrip a ++ String "=" b)%string.
Proof.
  induction a as [| c rest IH]; [reflexivity |].
  cbn [String.append lstrip]. destruct (is_space c); auto.
Qed.

Lemma rstrip_sep (a b : string) :
  rstrip (a ++ String "=" b) = (a ++ String "=" (rstrip b))%string.
Proof.
  induction a as [| c rest IH].
  - cbn [String.append rstrip]. destruct (rstrip b); reflexivity.
  - cbn [String.append rstrip]. rewrite IH. destruct rest; reflexivity.
Qed.

Lemma lstrip_rstrip (s : string) : lstrip (rstrip s) = rstrip (lstrip s).
Proof.
  induction s as [| c rest IH]; [reflexivity |].
  cbn [lstrip]. destruct (is_space c) eqn:Hc.
  - rewrite <- IH. cbn [rstrip]. destruct (rstrip rest) eqn:Hr.
    + now rewrite Hc.
    + cbn [lstrip]. now rewrite Hc.
  - cbn [rstrip]. destruct (rstrip rest); rewrite ?Hc; cbn [lstrip];
      now rewrite Hc.
Qed.

Lemma strip_rstrip (s : string) : strip (rstrip s) = strip s.
Proof. unfold strip. now rewrite lstrip_rstrip, Sanitize.rstrip_idem. Qed.

Lemma strip_lstrip (s : string) : strip (lstrip s) = strip s.
Proof.
  unfold strip.
  now rewrite (Sanitize.lstrip_clean_id _ (Sanitize.lstrip_starts_clean s)).
Qed.

Lemma split_rest_app (c : ascii) (a b : string) :
  has_char c a = false -> split_rest c (a ++ String c b) = b.
Proof.
  induction a as [| d rest IH]; simpl.
  - now rewrite Ascii.eqb_refl.
  - destruct (Ascii.eqb d c); simpl; [discriminate | auto].
Qed.

Lemma has_char_app (c : ascii) (a b : string) :
  has_char c (a ++ b) = has_char c a || has_char c b.
Proof.
  induction a as [| d rest IH]; simpl; auto.
  rewrite IH. now rewrite orb_assoc.
Qed.

Lemma has_char_lstrip (c : ascii) (s : string) :
  has_char c s = false -> has_char c (lstrip s) = false.
Proof.
  induction s as [| d rest IH]; simpl; auto.
  intro H. apply orb_false_iff in H as [H1 H2].
  destruct (is_space d); auto. simpl. now rewrite H1, H2.
Qed.

Lemma strip_line (k v : string) :
  strip (k ++ String "=" v) = (lstrip k ++ String "=" (rstrip v))%string.
Proof. unfold strip. now rewrite lstrip_sep, rstrip_sep. Qed.

(** A line [k=v] whose name holds no separator and does not start a comment
    binds the stripped name to the stripped rest of the line. *)
Lemma load_line_binds (config : bindings) (k v : string) :
  has_char "=" k = false ->
  String.prefix "#" (lstrip k) = false ->
  load_line config (k ++ String "=" v)
  = dict_set (strip k) (strip v) config.
Proof.
  intros Hk Hc. unfold load_line. rewrite strip_line.
  assert (Hp : String.prefix "#" (lstrip k ++ String "=" (rstrip v)) = false).
  { destruct (lstrip k) as [| c rest]; [reflexivity |].
    cbn [String.append String.prefix] in Hc |- *.
    destruct (ascii_dec "#" c); [| reflexivity].
    now destruct rest. }
  rewrite Hp.
  assert (He : String.eqb (lstrip k ++ String "=" (rstrip v)) EmptyString
               = false) by (destruct (lstrip k); reflexivity).
  rewrite He. cbn [orb].
  rewrite has_char_app. cbn [has_char]. rewrite Ascii.eqb_refl.
  rewrite orb_true_r.
  rewrite Grouping.split_first_app, split_rest_app
    by now apply has_char_lstrip.
  now rewrite strip_lstrip, strip_rstrip.
Qed.

Lemma lookup_dict_set_other {V : Type} (k k' : string) (v : V) m :
  String.eqb k k' = false -> lookup k' (dict_set k v m) = lookup k' m.
Proof.
  intro H. induction m as [| [k0 v0] rest IH]; simpl.
  - now rewrite H.
  - destruct (String.eqb k0 k) eqn:E; simpl.
    + apply String.eqb_eq in E. subst k0. now rewrite H.
    + now rewrite IH.
Qed.

Lemma load_config_snoc (lines : list string) (line : string) :
  load_config (Some (lines ++ [line]))
  = load_line (load_config (Some lines)) line.
Proof. unfold load_config. now rewrite fold_left_app. Qed.

(** ** The last line decides, and it is read whole *)

(** X21.  The last line of the configuration file, when it has the shape
    name=rest with a name that holds no equals sign and does not start with
    a hash after its leading blanks, binds the stripped name to the stripped
    rest, whatever the earlier lines said about that name; every other name
    keeps the value of the earlier lines.  The rest is kept whole: equals
    signs, hashes and quotes in it are part of the value. *)
Theorem last_line_decides (lines : list string) (k v key : string) :
  has_char "=" k = false ->
  String.prefix "#" (lstrip k) = false ->
  lookup key (load_config (Some (lines ++ [(k ++ String "=" v)%string])))
  = if String.eqb (strip k) key then Some (strip v)
    else lookup key (load_config (Some lines)).
Proof.
  intros Hk Hc. rewrite load_config_snoc, load_line_binds by assumption.
  destruct (String.eqb (strip k) key) eqn:E.
  - apply String.eqb_eq in E. subst key. apply Organizer.lookup_dict_set_same.
  - now apply lookup_dict_set_other.
Qed.

Lemma last_line_decides_witness :
  lookup "N8N_API_URL"
    (load_config (Some (["# instance"; "N8N_API_URL=http://old"]
                        ++ [("  N8N_API_URL " ++ String "=" " https://n8n.example?a=1 # live ")%string])))
  = Some "https://n8n.example?a=1 # live".
Proof.
  exact (last_line_decides ["# instance"; "N8N_API_URL=http://old"]
           "  N8N_API_URL " " https://n8n.example?a=1 # live " "N8N_API_URL"
           eq_refl eq_refl).
Defined.

(** X22.  Where the API key comes from: when the last line of the file
    gives a key that is not blank, the environment still decides as soon as
    it has the variable at all.  A variable set to the empty text hides the
    key of the file and the lookup raises [ValueError]; a variable that is
    not empty is returned as it is, without stripping; only when the
    variable is unset is the stripped value of the file returned. *)
Theorem api_key_sources (environ : bindings) (lines : list string)
  (v : string) :
  strip v <> EmptyString ->
  get_n8n_api_key environ (Some (lines ++ [("N8N_API_KEY" ++ String "=" v)%string]))
  = match lookup "N8N_API_KEY" environ with
    | Some EmptyString => Raise ValueError
    | Some env_value => Ok env_value
    | None => Ok (strip v)
    end.
Proof.
  intro Hv. unfold get_n8n_api_key, get_required, get.
  destruct (lookup "N8N_API_KEY" environ) as [[| c rest] |]; try reflexivity.
  rewrite load_config_snoc, load_line_binds by reflexivity.
  change (strip "N8N_API_KEY") with "N8N_API_KEY"%string.
  rewrite Organizer.lookup_dict_set_same.
  destruct (strip v); [contradiction | reflexivity].
Qed.

Lemma api_key_sources_witness :
  get_n8n_api_key [("N8N_API_KEY", EmptyString)]
    (Some (["N8N_API_URL=http://n8n"] ++ [("N8N_API_KEY" ++ String "=" " secret ")%string]))
  = Raise ValueError
  /\ get_n8n_api_key []
    (Some (["N8N_API_URL=http://n8n"] ++ [("N8N_API_KEY" ++ String "=" " secret ")%string]))
  = Ok "secret"%string.
Proof.
  split.
  - exact (api_key_sources [("N8N_API_KEY", EmptyString)]
             ["N8N_API_URL=http://n8n"] " secret "
             ltac:(vm_compute; discriminate)).
  - exact (api_key_sources [] ["N8N_API_URL=http://n8n"] " secret "
             ltac:(vm_compute; discriminate)).
Defined.

End Settings.

(** ** The mode chosen at the prompt *)

Module Launch.
Import Prompt Restore.

Lemma select_restore_mode_modes (inputs : list keyboard) (mode : string) :
  select_restore_mode inputs = Some (Mode mode) ->
  In mode ["skip"; "update"; "rename"].
Proof.
  induction inputs as [| [line | |] rest IH]; cbn [select_restore_mode];
    try discriminate.
  destruct (String.eqb (strip line) EmptyString).
  - intro H. inversion H. simpl. auto.
  - destruct (lookup (strip line) modes) as [m |] eqn:L; [| exact IH].
    intro H. inversion H; subst m. unfold modes in L. cbn [lookup] in L.
    repeat match type of L with
           | (if ?b then _ else _) = _ => destruct b
           end;
      inversion L; simpl; auto.
Qed.

Lemma select_restore_mode_retries (bad : list string)
  (rest : list keyboard) :
  Forall (fun line => String.eqb (strip line) EmptyString = false
                      /\ lookup (strip line) modes = None) bad ->
  select_restore_mode (map Typed bad ++ rest) = select_restore_mode rest.
Proof.
  induction 1 as [| line bad [He Hl] _ IH]; [reflexivity |].
  cbn [map app select_restore_mode]. now rewrite He, Hl.
Qed.

(** X23.  The prompt never hands an unknown mode to the restore.  Lines
    that are neither blank nor one of 1, 2 and 3 after stripping are asked
    again and change nothing; whatever mode the prompt then returns is one
    of skip, update and rename, so a restore started with it, when it is
    not a dry run and ends, counts every file under exactly one of its four
    counters. *)
Theorem prompted_run_is_counted (bad : list string) (rest : list keyboard)
  (mode : string) :
  Forall (fun line => String.eqb (strip line) EmptyString = false
                      /\ lookup (strip line) modes = None) bad ->
  select_restore_mode rest = Some (Mode mode) ->
  select_restore_mode (map Typed bad ++ rest) = Some (Mode mode) /\
  In mode ["skip"; "update"; "rename"] /\
  forall (srv : server) (fuel : nat) (backup_dir : list backup_file)
         (s s' : session srv) (stats : restore_stats),
    restore_from_backup srv fuel backup_dir mode false s
      = Some (Ok stats, s') ->
    total stats
    = created stats + updated stats + skipped stats + failed stats.
Proof.
  intros Hbad Hrest. split; [| split].
  - now rewrite select_restore_mode_retries.
  - exact (select_restore_mode_modes rest mode Hrest).
  - intros srv fuel backup_dir s s' stats.
    pose proof (select_restore_mode_modes rest mode Hrest) as Hm.
    unfold restore_from_backup. cbn [total].
    destruct (List.length (find_backup_files backup_dir) =? 0)%nat eqn:E0.
    + intro H. inversion H; subst. cbn. now apply Nat.eqb_eq in E0.
    + destruct (get_existing_workflows srv fuel s)
        as [[[existing | e] s1] |]; try discriminate.
      destruct (restore_loop srv (find_backup_files backup_dir) existing
                  mode _ s1) as [final s2] eqn:Hl.
      intro H. inversion H; subst.
      exact (Runs.loop_total_counted srv _ existing mode s1 s' stats Hm Hl).
Qed.

Lemma prompted_run_is_counted_witness :
  select_restore_mode
    (map Typed ["rename"; "4"] ++ [Typed " 3 "; Typed "1"])
  = Some (Mode "rename").
Proof.
  apply (prompted_run_is_counted ["rename"; "4"] [Typed " 3 "; Typed "1"]
           "rename").
  - repeat constructor.
  - reflexivity.
Defined.

End Launch.

(** ** The files of the snapshot *)

Module Snapshot.
Import Restore.

Lemma save_written {m : machine} (folder filename : string) (content : json)
  (x x' : export m) (ok : bool) :
  save folder filename content x = (ok, x') ->
  written x' = written x ++ [(folder, filename, content)].
Proof.
  unfold save. destruct (write_json m folder filename content (disk x)).
  intro H. inversion H. reflexivity.
Qed.

Lemma make_folder_written {m : machine} (folder : string) (x x' : export m)
  (r : outcome unit) :
  make_folder folder x = (r, x') -> written x' = written x.
Proof.
  unfold make_folder. destruct (mkdir m folder (disk x)).
  intro H. inversion H. reflexivity.
Qed.

Section Files.
Variable details : json -> option json.
Variable m : machine.
Variable repr : json -> string.

(** What a call of either [download_workflow] leaves in the list of writes:
    nothing or one file, and one file when it answers [True]. *)
Definition one_write (x x' : export m) (r : outcome bool) : Prop :=
  exists extra, written x' = written x ++ extra /\
                List.length extra <= 1 /\
                (r = Ok true -> List.length extra = 1).

Lemma one_write_none (x x' : export m) (r : outcome bool) :
  written x' = written x -> r <> Ok true -> one_write x x' r.
Proof.
  intros H Hr. exists []. rewrite app_nil_r.
  split; [exact H |]. split; [simpl; lia | intro; contradiction].
Qed.

Lemma one_write_one (x x' : export m) (r : outcome bool) f :
  written x' = written x ++ [f] -> one_write x x' r.
Proof. intro H. exists [f]. split; [exact H |]. split; simpl; auto. Qed.

Lemma downloader_download_workflow_true (w : json) (folder : string)
  (x x' : export m) :
  downloader_download_workflow details m w folder x = (Ok true, x') ->
  exists workflow_id name d,
    py_getitem w "id" = Ok workflow_id /\
    py_get w "name" (JStr "Unnamed") = Ok (JStr name) /\
    details workflow_id = Some d /\ truthy d = true /\
    written x'
    = written x ++ [(folder, (sanitize_filename name ++ ".json")%string, d)].
Proof.
  unfold downloader_download_workflow.
  destruct (py_getitem w "id") as [workflow_id | e] eqn:Hid; cbn [bind];
    [| discriminate].
  destruct (py_get w "name" (JStr "Unnamed")) as [workflow_name | e] eqn:Hn;
    cbn [bind]; [| discriminate].
  destruct (details workflow_id) as [d |] eqn:Hd; [| discriminate].
  destruct (truthy d) eqn:T; [| discriminate].
  destruct (make_folder folder x) as [[u | e] x1] eqn:Hm; [| discriminate].
  destruct workflow_name as [| | | name | |]; cbn [as_str]; try discriminate.
  destruct (save folder (sanitize_filename name ++ ".json") d x1)
    as [ok x2] eqn:Hs.
  intro H. inversion H; subst. exists workflow_id, name, d.
  repeat split; auto.
  rewrite (save_written _ _ _ _ _ _ Hs). f_equal.
  exact (make_folder_written _ _ _ _ Hm).
Qed.

Lemma downloader_download_workflow_writes (w : json) (folder : string)
  (x x' : export m) (r : outcome bool) :
  downloader_download_workflow details m w folder x = (r, x') ->
  one_write x x' r.
Proof.
  unfold downloader_download_workflow.
  destruct (py_getitem w "id") as [workflow_id | e]; cbn [bind].
  2: { intro H; inversion H; subst. now apply one_write_none. }
  destruct (py_get w "name" (JStr "Unnamed")) as [workflow_name | e];
    cbn [bind].
  2: { intro H; inversion H; subst. now apply one_write_none. }
  destruct (details workflow_id) as [d |].
  2: { intro H; inversion H; subst. now apply one_write_none. }
  destruct (truthy d).
  2: { intro H; inversion H; subst. now apply one_write_none. }
  destruct (make_folder folder x) as [[u | e] x1] eqn:Hm.
  2: { intro H; inversion H; subst.
       apply one_write_none; [exact (make_folder_written _ _ _ _ Hm) |].
       discriminate. }
  pose proof (make_folder_written _ _ _ _ Hm) as Hw.
  destruct (as_str workflow_name) as [name | e].
  2: { intro H; inversion H; subst. now apply one_write_none. }
  destruct (save folder (sanitize_filename name ++ ".json") d x1)
    as [ok x2] eqn:Hs.
  intro H; inversion H; subst.
  apply (one_write_one _ _ _ (folder, (sanitize_filename name ++ ".json")%string, d)).
  rewrite (save_written _ _ _ _ _ _ Hs). now f_equal.
Qed.

Lemma backup_download_workflow_true (w : json) (folder : string)
  (x x' : export m) :
  backup_download_workflow details m repr w folder x = (Ok true, x') ->
  exists workflow_id name d meta,
    py_getitem w "id" = Ok workflow_id /\
    py_get w "name" (JStr "Unnamed") = Ok (JStr name) /\
    details workflow_id = Some d /\ truthy d = true /\
    written x'
    = written x
      ++ [(folder,
           (sanitize_filename name ++ "_" ++ py_format repr workflow_id
            ++ ".json")%string,
           JObj [("metadata", meta); ("workflow", d)])].
Proof.
  unfold backup_download_workflow.
  destruct (py_getitem w "id") as [workflow_id | e] eqn:Hid; cbn [bind];
    [| discriminate].
  destruct (py_get w "name" (JStr "Unnamed")) as [workflow_name | e] eqn:Hn;
    cbn [bind]; [| discriminate].
  destruct (details workflow_id) as [d |] eqn:Hd; [| discriminate].
  destruct (truthy d) eqn:T; [| discriminate].
  destruct (make_folder folder x) as [[u | e] x1] eqn:Hm; [| discriminate].
  destruct workflow_name as [| | | name | |]; cbn [as_str bind];
    try discriminate.
  destruct (metadata w workflow_id (JStr name) (isoformat_now m (disk x1)))
    as [meta | e]; cbn [bind]; [| discriminate].
  destruct (save folder _ _ x1) as [ok x2] eqn:Hs.
  intro H. inversion H; subst. exists workflow_id, name, d, meta.
  repeat split; auto.
  rewrite (save_written _ _ _ _ _ _ Hs). f_equal.
  exact (make_folder_written _ _ _ _ Hm).
Qed.

Lemma backup_download_workflow_writes (w : json) (folder : string)
  (x x' : export m) (r : outcome bool) :
  backup_download_workflow details m repr w folder x = (r, x') ->
  one_write x x' r.
Proof.
  unfold backup_download_workflow.
  destruct (py_getitem w "id") as [workflow_id | e]; cbn [bind].
  2: { intro H; inversion H; subst. now apply one_write_none. }
  destruct (py_get w "name" (JStr "Unnamed")) as [workflow_name | e];
    cbn [bind].
  2: { intro H; inversion H; subst. now apply one_write_none. }
  destruct (details workflow_id) as [d |].
  2: { intro H; inversion H; subst. now apply one_write_none. }
  destruct (truthy d).
  2: { intro H; inversion H; subst. now apply one_write_none. }
  destruct (make_folder folder x) as [[u | e] x1] eqn:Hm.
  2: { intro H; inversion H; subst.
       apply one_write_none; [exact (make_folder_written _ _ _ _ Hm) |].
       discriminate. }
  pose proof (make_folder_written _ _ _ _ Hm) as Hw.
  destruct (as_str workflow_name) as [name | e]; cbn [bind].
  2: { intro H; inversion H; subst. now apply one_write_none. }
  destruct (metadata w workflow_id workflow_name (isoformat_now m (disk x1)))
    as [meta | e]; cbn [bind].
  2: { intro H; inversion H; subst. now apply one_write_none. }
  destruct (save folder _ _ x1) as [ok x2] eqn:Hs.
  intro H; inversion H; subst.
  eapply one_write_one.
  rewrite (save_written _ _ _ _ _ _ Hs). now f_equal.
Qed.

(** The loop: the counters move by one per call, and the writes follow. *)
Lemma download_each_counters
  (dw : json -> string -> export m -> outcome bool * export m) :
  (forall w folder x x' r, dw w folder x = (r, x') -> one_write x x' r) ->
  forall calls stats x st x',
    download_each m dw calls stats x = (Ok st, x') ->
    dl_total st = dl_total stats /\
    dl_success st + dl_failed st
    = dl_success stats + dl_failed stats + List.length calls /\
    exists extra, written x' = written x ++ extra /\
                  dl_success st - dl_success stats <= List.length extra /\
                  List.length extra <= List.length calls.
Proof.
  intro Hdw. induction calls as [| [folder w] rest IH]; intros stats x st x'.
  - cbn [download_each]. intro H. inversion H; subst.
    split; [reflexivity |]. split; [simpl; lia |].
    exists []. rewrite app_nil_r. split; [reflexivity | simpl; lia].
  - cbn [download_each].
    destruct (dw w folder x) as [[[|] | e] x1] eqn:Hc; [| | discriminate];
      intro H; destruct (IH _ _ _ _ H) as (Ht & Hs & extra & Hw & Hlo & Hhi);
      cbn [dl_total dl_success dl_failed] in *;
      destruct (Hdw _ _ _ _ _ Hc) as (first & Hw1 & Hle & Hone).
    + specialize (Hone eq_refl).
      split; [exact Ht |]. split; [simpl; lia |].
      exists (first ++ extra). rewrite Hw, Hw1, app_assoc.
      split; [reflexivity |]. rewrite length_app. simpl. lia.
    + split; [exact Ht |]. split; [simpl; lia |].
      exists (first ++ extra). rewrite Hw, Hw1, app_assoc.
      split; [reflexivity |]. rewrite length_app. simpl. lia.
Qed.

End Files.



Lemma found_iff (backup_dir : list backup_file) (f : backup_file) :
  In f (find_backup_files backup_dir) <->
  In f backup_dir /\ Runs.is_workflow_file f = true.
Proof.
  unfold find_backup_files. split; intro H.
  - apply (Permutation_in _ (Runs.sorted_perm _)) in H.
    apply filter_In in H. exact H.
  - apply (Permutation_in _ (Permutation_sym (Runs.sorted_perm _))).
    apply filter_In. exact H.
Qed.

Lemma ends_with_app (t a b : string) :
  ends_with t b = true -> ends_with t (a ++ b) = true.
Proof.
  intro H. induction a as [| c rest IH]; [exact H |].
  cbn [String.append ends_with]. rewrite IH. apply orb_true_r.
Qed.

Lemma length_append (a b : string) :
  String.length (a ++ b) = String.length a + String.length b.
Proof. induction a as [| c rest IH]; simpl; auto. Qed.

Lemma append_inj_r (t : string) :
  forall a b : string, (a ++ t)%string = (b ++ t)%string -> a = b.
Proof.
  induction a as [| c rest IH]; intros [| d b] H; auto.
  - apply (f_equal String.length) in H. cbn [String.append] in H.
    simpl in H. rewrite length_append in H. lia.
  - apply (f_equal String.length) in H. cbn [String.append] in H.
    simpl in H. rewrite length_append in H. lia.
  - cbn [String.append] in H. inversion H. f_equal. now apply IH.
Qed.

Lemma eqb_append_r (a b t : string) :
  String.eqb (a ++ t) (b ++ t) = String.eqb a b.
Proof.
  destruct (String.eqb a b) eqn:E.
  - apply String.eqb_eq in E. subst. apply String.eqb_refl.
  - apply String.eqb_neq. intro H. apply append_inj_r in H.
    apply String.eqb_neq in E. contradiction.
Qed.

Lemma prefix_dot_append (s t : string) :
  s <> EmptyString ->
  String.prefix "." (s ++ t) = String.prefix "." s.
Proof.
  destruct s as [| c rest]; [contradiction |]. intros _.
  cbn [String.append String.prefix].
  destruct (ascii_dec "." c); [| reflexivity].
  destruct rest; destruct t; reflexivity.
Qed.

Lemma has_char_differs (c : ascii) (a b : string) :
  has_char c a = true -> has_char c b = false -> String.eqb a b = false.
Proof.
  intros Ha Hb. apply String.eqb_neq. intro H. subst. congruence.
Qed.

(** The file the downloader names after [s] is one the restore takes exactly
    when [s] is not empty, is neither [index] nor [README] and begins with
    no dot. *)
Lemma plain_name_taken (s : string) (f : backup_file) :
  name f = (s ++ ".json")%string ->
  Runs.is_workflow_file f = true <->
  ~ In s [EmptyString; "index"; "README"]%string
  /\ String.prefix "." s = false.
Proof.
  intro Hn. unfold Runs.is_workflow_file. rewrite Hn.
  rewrite (ends_with_app ".json" s ".json" eq_refl).
  change "index.json"%string with ("index" ++ ".json")%string.
  change "README.json"%string with ("README" ++ ".json")%string.
  rewrite !eqb_append_r. cbn [andb].
  destruct s as [| c rest].
  - split; [discriminate |]. intros [H _]. exfalso. apply H. simpl. auto.
  - rewrite prefix_dot_append by discriminate.
    destruct (String.eqb (String c rest) "index") eqn:Ei.
    { apply String.eqb_eq in Ei. split; [discriminate |].
      intros [H _]. exfalso. apply H. rewrite Ei. simpl. auto. }
    destruct (String.eqb (String c rest) "README") eqn:Er.
    { apply String.eqb_eq in Er. split; [discriminate |].
      intros [H _]. exfalso. apply H. rewrite Er. simpl. auto. }
    cbn [orb negb andb]. apply String.eqb_neq in Ei, Er.
    split.
    + intro H. apply negb_true_iff in H. split; [| exact H].
      intros [H0 | [H0 | [H0 | []]]]; congruence.
    + intros [_ H]. now rewrite H.
Qed.

(** The file the one-file script names after [s] and an id is one the
    restore takes exactly when [s] begins with no dot. *)
Lemma id_name_taken (s i : string) (f : backup_file) :
  name f = (s ++ "_" ++ i ++ ".json")%string ->
  Runs.is_workflow_file f = negb (String.prefix "." s).
Proof.
  intro Hn. unfold Runs.is_workflow_file. rewrite Hn.
  rewrite (ends_with_app ".json" s ("_" ++ i ++ ".json")
             (ends_with_app ".json" "_" (i ++ ".json")
                (ends_with_app ".json" i ".json" eq_refl))).
  assert (Hu : has_char "_" (s ++ "_" ++ i ++ ".json") = true).
  { rewrite Settings.has_char_app. cbn [String.append has_char].
    rewrite Ascii.eqb_refl. apply orb_true_r. }
  rewrite (has_char_differs "_" _ "index.json" Hu eq_refl),
          (has_char_differs "_" _ "README.json" Hu eq_refl).
  cbn [orb negb andb]. f_equal.
  destruct s as [| c rest]; [reflexivity |].
  now apply prefix_dot_append.
Qed.

Lemma name_last (dir : list string) (filename : string)
  (l : outcome json) :
  name {| path := dir ++ [filename]; load := l |} = filename.
Proof. unfold name. cbn [path]. apply last_last. Qed.


(** What the restore reads back from a payload [d]. *)
Definition read_back (d : json) : outcome (json * key) :=
  workflow_name <- py_get d "name" (JStr "Unnamed") ;;
  k <- as_key workflow_name ;;
  Ok (d, k).

(** *** From the export to the restore *)

(** X24.  A file the downloader reports as saved is named after the
    sanitized name of the listed workflow and holds the detail payload as
    it came.  The restore takes that file exactly when the sanitized name is
    not empty, is neither index nor README and begins with no dot: a
    workflow with such a name is exported and never restored.  When it
    takes the file, it restores the payload itself and looks for the name of
    the payload, unless the payload has a field workflow, which it then
    restores in place of the payload. *)
Theorem downloader_file_restorable (details : json -> option json)
  (m : machine) (w : json) (folder : string) (x x' : export m) :
  downloader_download_workflow details m w folder x = (Ok true, x') ->
  exists workflow_id n d,
    py_getitem w "id" = Ok workflow_id /\
    py_get w "name" (JStr "Unnamed") = Ok (JStr n) /\
    details workflow_id = Some d /\
    written x'
    = written x ++ [(folder, (sanitize_filename n ++ ".json")%string, d)] /\
    (forall backup_dir f,
       name f = (sanitize_filename n ++ ".json")%string ->
       In f (find_backup_files backup_dir) <->
       In f backup_dir /\
       ~ In (sanitize_filename n) [EmptyString; "index"; "README"]%string /\
       String.prefix "." (sanitize_filename n) = false) /\
    (forall f items,
       load f = Ok d -> d = JObj items ->
       load_workflow f
       = read_back (match lookup "workflow" items with
                    | Some inner => inner
                    | None => d
                    end)).
Proof.
  intro H.
  destruct (downloader_download_workflow_true details m w folder x x' H)
    as (workflow_id & n & d & Hid & Hn & Hd & _ & Hw).
  exists workflow_id, n, d. repeat (split; [assumption |]). split.
  - intros backup_dir f Hf. rewrite found_iff.
    now rewrite (plain_name_taken _ _ Hf).
  - intros f items Hl ->. unfold load_workflow, read_back. rewrite Hl.
    cbn [bind py_in py_getitem].
    destruct (lookup "workflow" items); reflexivity.
Qed.

(** X25.  A file the one-file script reports as saved is named after the
    sanitized name and the id of the listed workflow, and holds the detail
    payload in an envelope.  The restore takes that file exactly when the
    sanitized name begins with no dot, and what it then restores is the
    detail payload, whatever fields the payload has, under the name of the
    payload and not the name of the listing. *)
Theorem one_file_round_trip (details : json -> option json) (m : machine)
  (repr : json -> string) (w : json) (folder : string) (x x' : export m) :
  backup_download_workflow details m repr w folder x = (Ok true, x') ->
  exists workflow_id n d filename content,
    py_getitem w "id" = Ok workflow_id /\
    py_get w "name" (JStr "Unnamed") = Ok (JStr n) /\
    details workflow_id = Some d /\
    filename = (sanitize_filename n ++ "_" ++ py_format repr workflow_id
                ++ ".json")%string /\
    written x' = written x ++ [(folder, filename, content)] /\
    (forall backup_dir f,
       name f = filename ->
       In f (find_backup_files backup_dir) <->
       In f backup_dir /\ String.prefix "." (sanitize_filename n) = false) /\
    (forall f, load f = Ok content -> load_workflow f = read_back d).
Proof.
  intro H.
  destruct (backup_download_workflow_true details m repr w folder x x' H)
    as (workflow_id & n & d & meta & Hid & Hn & Hd & _ & Hw).
  exists workflow_id, n, d,
    (sanitize_filename n ++ "_" ++ py_format repr workflow_id
     ++ ".json")%string,
    (JObj [("metadata", meta); ("workflow", d)]).
  repeat (split; [assumption || reflexivity |]). split.
  - intros backup_dir f Hf. rewrite found_iff, (id_name_taken _ _ _ Hf).
    now rewrite negb_true_iff.
  - intros f Hl. unfold load_workflow, read_back. rewrite Hl. reflexivity.
Qed.

(** *** The counters of an export *)

(** X26.  When the download loop of either export script ends, its total
    is the number of workflows listed, archived ones included, while the
    saved and the failed ones add up to the number of calls, that is one per
    tag of every workflow that is not archived and one for each without a
    tag.  A call opens at most one file for writing, and a call counted as
    saved has opened one: the writes of the run are at least as many as the
    saved and at most as many as the calls.  The count is of writes, not of
    files: nothing here keeps two writes from naming the same file. *)
Theorem export_counters (details : json -> option json) (m : machine)
  (repr : json -> string)
  (dw : json -> string -> export m -> outcome bool * export m)
  (ws : list json) (organized : buckets) (x x' : export m)
  (st : download_stats) :
  dw = downloader_download_workflow details m
  \/ dw = backup_download_workflow details m repr ->
  organize_by_tags details ws = Ok organized ->
  download_each m dw (download_calls organized)
    {| dl_total := List.length ws; dl_success := 0; dl_failed := 0 |} x
  = (Ok st, x') ->
  dl_total st = List.length ws /\
  dl_success st + dl_failed st
  = list_sum (map Grouping.fan_out
                (filter (fun w => negb (Organizer.archived w)) ws)) /\
  exists writes, written x' = written x ++ writes /\
                 dl_success st <= List.length writes /\
                 List.length writes <= dl_success st + dl_failed st.
Proof.
  intros Hdw Ho H.
  assert (Hone : forall w folder y y' r,
             dw w folder y = (r, y') -> one_write m y y' r).
  { destruct Hdw as [-> | ->].
    - apply downloader_download_workflow_writes.
    - apply backup_download_workflow_writes. }
  destruct (download_each_counters m dw Hone _ _ _ _ _ H)
    as (Ht & Hs & extra & Hw & Hlo & Hhi).
  cbn [dl_total dl_success dl_failed] in *.
  destruct (Grouping.organize_by_tags_trace details ws organized Ho)
    as (Hall & Horg).
  rewrite Horg, Grouping.download_calls_length, Grouping.entries_place_all
    in Hs, Hhi.
  change (Grouping.entries []) with 0 in Hs, Hhi.
  rewrite Nat.add_0_r, (Grouping.placements_length details ws Hall)
    in Hs, Hhi.
  split; [exact Ht |]. split; [lia |].
  exists extra. split; [exact Hw |]. lia.
Qed.

(** *** The index *)

Lemma index_entries_raises (l : list json) (w : json) (e0 : exn) :
  In w l -> index_entry w = Raise e0 -> exists e, index_entries l = Raise e.
Proof.
  induction l as [| a rest IH]; intros Hin He; [contradiction |].
  cbn [index_entries]. destruct Hin as [-> | Hin].
  - rewrite He. cbn [bind]. eauto.
  - destruct (index_entry a) as [entry | e]; cbn [bind]; [| eauto].
    destruct (IH Hin He) as (e & ->). cbn [bind]. eauto.
Qed.

Lemma workflows_by_folder_raises (organized : buckets) (k : string)
  (l : list json) (e0 : exn) :
  In (k, l) organized -> index_entries l = Raise e0 ->
  exists e, workflows_by_folder organized = Raise e.
Proof.
  induction organized as [| [a la] rest IH]; intros Hin He; [contradiction |].
  cbn [workflows_by_folder]. destruct Hin as [Heq | Hin].
  - inversion Heq; subst. rewrite He. cbn [bind]. eauto.
  - destruct (index_entries la) as [entries | e]; cbn [bind]; [| eauto].
    destruct (IH Hin He) as (e & ->). cbn [bind]. eauto.
Qed.

Lemma fan_out_pos (w : json) : 0 < Grouping.fan_out w.
Proof.
  unfold Grouping.fan_out.
  destruct (py_get w "tags" (JArr [])) as [[| | | | [| t ts] |] |]; lia.
Qed.

(** X27.  A workflow that the organizer accepts can still break the index.
    When a workflow that is not archived has no name, or has the tags
    field set to null, the organizer files it and the download loop saves
    it, under Unnamed for the missing name, but the data of the index,
    built afterwards from the same buckets, raises. *)
Theorem nameless_workflow_breaks_index (details : json -> option json)
  (ws : list json) (organized : buckets) (w : json)
  (fields : list (string * json)) (api_url now : string)
  (stats : download_stats) :
  organize_by_tags details ws = Ok organized ->
  In w ws -> Organizer.archived w = false -> w = JObj fields ->
  lookup "name" fields = None \/ lookup "tags" fields = Some JNull ->
  (exists folder, In (folder, w) (download_calls organized)) /\
  exists e, index_data api_url now organized stats = Raise e.
Proof.
  intros Ho Hin Ha -> Hbad.
  destruct (Organizer.organize_by_tags_spec details ws organized Ho)
    as (_ & Hall & Hb).
  destruct (Hall _ Hin Ha) as (ks & Hks).
  assert (Hlen : List.length ks = Grouping.fan_out (JObj fields)).
  { rewrite <- (Grouping.paths_length details) by congruence.
    unfold Grouping.paths. now rewrite Hks. }
  pose proof (fan_out_pos (JObj fields)) as Hpos.
  destruct ks as [| k ks']; [simpl in Hlen; lia |].
  assert (Hk : Organizer.in_bucket organized k (JObj fields)).
  { apply Hb. split; [exact Hin |]. split; [exact Ha |].
    exists (k :: ks'). split; [exact Hks | now left]. }
  split.
  - exists k. now apply Organizer.download_calls_in_bucket.
  - destruct Hk as (l & Hl & Hw).
    assert (He : exists e0, index_entry (JObj fields) = Raise e0).
    { unfold index_entry. cbn [py_getitem py_get].
      destruct (lookup "id" fields); cbn [bind]; [| eauto].
      destruct Hbad as [Hn | Ht].
      - rewrite Hn. cbn [bind]. eauto.
      - destruct (lookup "name" fields); cbn [bind]; [| eauto].
        destruct (lookup "active" fields); cbn [bind];
          rewrite Ht; cbn [bind py_iter]; eauto. }
    destruct He as (e0 & He).
    destruct (index_entries_raises l _ e0 Hw He) as (e1 & He1).
    destruct (workflows_by_folder_raises organized k l e1 Hl He1)
      as (e & He2).
    exists e. unfold index_data. rewrite He2. reflexivity.
Qed.


(** *** An export of the Acme workflows *)

(** A disk that takes every folder and every file, and a clock that stands
    still. *)
Definition plain : machine :=
  {| Disk := unit;
     mkdir := fun _ d => (Ok tt, d);
     write_json := fun _ _ _ d => (true, d);
     isoformat_now := fun _ => "2024-05-01T10:00:00"%string |}.

Definition fresh : export plain := Build_export plain tt [].

(** The detail request fails for the workflow of id 2. *)
Definition flaky (workflow_id : json) : option json :=
  if is_str workflow_id "2" then None else Organizer.acme workflow_id.

(** The Acme workflows and one whose two tags sanitize to the same name. *)
Definition flaky_list : list json :=
  Organizer.acme_list ++ [Organizer.wf_clash].

Definition flaky_organized : buckets :=
  [("Acme/prod", [Organizer.wf_deploy]);
   ("Acme/ops_eu", [Organizer.wf_deploy]);
   ("Unknown Project/No Tag", [Organizer.wf_invoice]);
   ("Acme/Untagged", [Organizer.wf_nameless_tag]);
   ("Acme/a_b", [Organizer.wf_clash; Organizer.wf_clash])].

Definition flaky_export : outcome download_stats * export plain :=
  download_each plain (downloader_download_workflow flaky plain)
    (download_calls flaky_organized)
    {| dl_total := 5; dl_success := 0; dl_failed := 0 |} fresh.

Definition dot_env : json :=
  JObj [("id", JNum 12); ("name", JStr " .env: prod ")].

Lemma downloader_file_restorable_witness :
  exists workflow_id n d,
    py_getitem dot_env "id" = Ok workflow_id /\
    py_get dot_env "name" (JStr "Unnamed") = Ok (JStr n) /\
    Organizer.acme workflow_id = Some d /\
    written (snd (downloader_download_workflow Organizer.acme plain dot_env
                    "Acme/No Tag" fresh))
    = written fresh
      ++ [("Acme/No Tag"%string, (sanitize_filename n ++ ".json")%string, d)].
Proof.
  destruct (downloader_file_restorable Organizer.acme plain dot_env
              "Acme/No Tag" fresh
              (snd (downloader_download_workflow Organizer.acme plain dot_env
                      "Acme/No Tag" fresh))
              eq_refl)
    as (workflow_id & n & d & Hid & Hn & Hd & Hw & _).
  exists workflow_id, n, d. repeat split; assumption.
Defined.

Lemma one_file_round_trip_witness :
  exists d content,
    Organizer.acme (JNum 12) = Some d /\
    written (snd (backup_download_workflow Organizer.acme plain
                    (fun _ => EmptyString) dot_env "Acme/No Tag" fresh))
    = written fresh
      ++ [("Acme/No Tag"%string, ".env_ prod_12.json"%string, content)] /\
    forall f, load f = Ok content -> load_workflow f = read_back d.
Proof.
  destruct (one_file_round_trip Organizer.acme plain (fun _ => EmptyString)
              dot_env "Acme/No Tag" fresh
              (snd (backup_download_workflow Organizer.acme plain
                      (fun _ => EmptyString) dot_env "Acme/No Tag" fresh))
              eq_refl)
    as (workflow_id & n & d & filename & content
        & Hid & Hn & Hd & Hf & Hw & _ & Hr).
  inversion Hid; subst workflow_id. inversion Hn; subst n.
  exists d, content. split; [exact Hd |]. split; [| exact Hr].
  rewrite Hw, Hf. reflexivity.
Defined.

(** Six calls for five workflows; five are saved, the last two under the
    same name in the same folder. *)
Lemma export_counters_witness :
  organize_by_tags flaky flaky_list = Ok flaky_organized /\
  fst flaky_export
  = Ok {| dl_total := 5; dl_success := 5; dl_failed := 1 |} /\
  5 + 1
  = list_sum (map Grouping.fan_out
                (filter (fun w => negb (Organizer.archived w)) flaky_list)) /\
  map fst (written (snd flaky_export))
  = [("Acme/prod", "Deploy.json"); ("Acme/ops_eu", "Deploy.json");
     ("Acme/Untagged", "Mail.json");
     ("Acme/a_b", "Sync.json"); ("Acme/a_b", "Sync.json")]%string.
Proof.
  split; [reflexivity |]. split; [reflexivity |].
  destruct (export_counters flaky plain (fun _ => EmptyString)
              (downloader_download_workflow flaky plain)
              flaky_list flaky_organized fresh (snd flaky_export)
              {| dl_total := 5; dl_success := 5; dl_failed := 1 |}
              (or_introl eq_refl) eq_refl eq_refl)
    as (_ & Hs & _).
  split; [exact Hs | reflexivity].
Defined.

Definition wf_nameless : json := JObj [("id", JStr "9")].

Lemma nameless_workflow_breaks_index_witness :
  organize_by_tags Organizer.acme [wf_nameless]
  = Ok [("Acme/No Tag"%string, [wf_nameless])] /\
  (exists folder,
      In (folder, wf_nameless)
         (download_calls [("Acme/No Tag"%string, [wf_nameless])])) /\
  exists e,
    index_data "http://n8n" "2024-05-01T10:00:00"
               [("Acme/No Tag"%string, [wf_nameless])]
               {| dl_total := 1; dl_success := 1; dl_failed := 0 |}
    = Raise e.
Proof.
  split; [reflexivity |].
  apply (nameless_workflow_breaks_index Organizer.acme [wf_nameless]
           [("Acme/No Tag"%string, [wf_nameless])] wf_nameless
           [("id", JStr "9")] "http://n8n" "2024-05-01T10:00:00"
           {| dl_total := 1; dl_success := 1; dl_failed := 0 |}
           eq_refl (or_introl eq_refl) eq_refl eq_refl (or_introl eq_refl)).
Defined.

End Snapshot.
